(** * The analysis-run orchestrator of webhint's CLI

    A shallow embedding of [packages/hint/src/lib/cli/analyze.ts]: the
    configuration resolver, the telemetry gate, the analyzer bootstrap and
    the run reporter, followed by the properties the specification states
    about them.

    The orchestrator is effectful TypeScript.  Its effects are modelled by
    explicit state passing over a [World]: the persistent configuration
    store, the telemetry consent, and the history of every call made to a
    collaborator (prompt, installer, logger, spinner, telemetry transport,
    formatter, analyzer construction).  What the collaborators answer is
    given by an [Env] whose oracles may depend on that history.  The
    [debug] channel of the source is diagnostic output only and is left
    out.

    The telemetry module of the browser extension is embedded beside it, in
    [Extension]. *)

From stdpp Require Import base option list gmap strings.
From Stdlib Require Import ZArith Lia Ascii.

Set Warnings "-register-all".
Local Open Scope Z_scope.
Local Open Scope string_scope.

(** ** Data model *)

(** A target.  The orchestrator reads the [protocol] of a URL and nothing
    else; the analyzer reports a target back by its URL string. *)
Record URL := mkURL { protocol : string; href : string }.

(** Modelled from the spec: the severity of a finding (the enum is declared
    in [@hint/utils], outside the orchestrator). *)
Module Severity.
Inductive t := error | warning | information | hint.
Definition eqb (a b : t) : bool :=
  match a, b with
  | error, error | warning, warning
  | information, information | hint, hint => true
  | _, _ => false
  end.
End Severity.

Record Problem := mkProblem { severity : Severity.t; message : string }.

Record HintResources := mkResources {
  missing : list string;
  incompatible : list string }.

(** What [createAnalyzer] (or anything else) can throw.  The first four are
    the [AnalyzerError]s, one constructor per [AnalyzerErrorStatus], each
    with the payload the orchestrator reads for that status ([resources] for
    a resource error, [invalidHints] for a hint error); [OtherError] is an
    exception that carries no status. *)
Inductive Exception :=
| ConfigurationError (msg : string)
| ResourceError (resources : HintResources) (msg : string)
| HintError (invalidHints : list string) (msg : string)
| ConnectorError (msg : string)
| OtherError (msg : string).

(** A JavaScript value, for the places where the configuration is typed
    [any] (the options of a hint or of a connector). *)
Inductive Json :=
| JNull
| JBool (b : bool)
| JNum (n : Z)
| JStr (s : string)
| JArr (items : list Json)
| JObj (fields : list (string * Json)).

Record ConnectorConfig := mkConnector {
  connector_name : string;
  connector_options : Json }.

(** [connector?: ConnectorConfig | string] *)
Inductive Connector :=
| ConnectorName (s : string)
| ConnectorObject (c : ConnectorConfig).

(** [HintSeverity]: a severity by name or by level. *)
Inductive HintSeverity :=
| SeverityName (s : string)
| SeverityLevel (n : Z).

(** [HintConfig = HintSeverity | [HintSeverity, any]] *)
Inductive HintConfig :=
| HintLevel (sev : HintSeverity)
| HintWithOptions (sev : HintSeverity) (opts : Json).

(** [hints?: HintsConfigObject | (string | any)[]] *)
Inductive HintsInput :=
| HintsObject (o : gmap string HintConfig)
| HintsArray (a : list Json).

Record IgnoredUrl := mkIgnored { domain : string; ignoredHints : list string }.

Record UserConfig := mkConfig {
  browserslist : option (list string);
  connector : option Connector;
  extends : option (list string);
  formatters : option (list string);
  hints : option HintsInput;
  hintsTimeout : option Z;
  ignoredUrls : option (list IgnoredUrl);
  language : option string;
  parsers : option (list string) }.

Record CLIOptions := mkCLI {
  cli_targets : list string;          (* actions._ *)
  cli_config : option string;
  cli_debug : bool;
  cli_formatters : option string;
  cli_hints : option string;
  cli_language : option string;
  cli_output : option string;
  cli_watch : option bool }.

Record CreateAnalyzerOptions := mkCreateOptions {
  opt_formatters : option (list string);
  opt_hints : option (list string);
  opt_watch : option bool }.

(** What the analyzer tells the reporter while it runs.  [at_] is the value
    [Date.now()] has when the callback runs. *)
Inductive EngineEvent :=
| TargetStart (url : string) (at_ : Z)
| Update (msg : string)
| TargetEnd (url : string) (problems : list Problem) (at_ : Z).

(** One call of [webhint.analyze]: the callbacks it makes, in order, and
    whether the promise it returns is rejected in the end. *)
Record EngineRun := mkRun {
  events : list EngineEvent;
  rejected : option Exception }.

Record Analyzer := mkAnalyzer {
  analyzer_resources : HintResources;
  analyzer_run : list URL -> EngineRun }.

(** ** The telemetry payload *)

(** The value of [pruneUserConfig]. The [connector] is whatever the
    expression [connector.name || connector] evaluates to. *)
Record PrunedConfig := mkPruned {
  p_browserslist : option (list string);
  p_connector : option Connector;
  p_extends : option (list string);
  p_formatters : option (list string);
  p_hints : option (gmap string (option HintSeverity));
  p_hintsTimeout : option Z;
  p_language : option string;
  p_parsers : option (list string) }.

Inductive TelemetryProperties :=
| NoProperties
| PackageNames (names : list string)
| AnalyzeSummary (ci : bool) (previouslyRun : option bool) (config : PrunedConfig).

(** ** Effects *)

Inductive Frame := TelemetryMessage | CITelemetryMessage | DefaultMessage.

Inductive Question :=
| OptInQuestion
| DefaultConfigurationQuestion
| InstallQuestion (dependencies : list string).

Inductive LogLine :=
| MissingPackagesLine (names : list string)
| IncompatiblePackagesLine (names : list string)
| InvalidHintsLine (names : list string)
| InvalidConnectorLine
| ErrorLine (msg : string).

Record FormatOptions := mkFormat {
  f_config : UserConfig;
  f_date : Z;                         (* the instant [toISOString] renders *)
  f_output : option string;
  f_resources : HintResources;
  f_scanTime : Z;
  f_target : string;
  f_version : string }.

(** Every call the orchestrator makes to a collaborator, with what the
    collaborator answered where it answers. *)
Inductive Effect :=
| EPrintFrame (f : Frame)
| ELog (l : LogLine)
| ELogError (l : LogLine)
| EAsk (q : Question) (answer : bool)
| EInstall (packages : list string) (ok : bool)
| ETrack (event : string) (props : TelemetryProperties)
| EStoreGet (key : string)
| EStoreSet (key : string) (v : bool)
| EInsightsEnable
| EInsightsDisable
| EGetUserConfig (path : option string)
| ECreateAnalyzer (cfg : UserConfig) (opts : CreateAnalyzerOptions)
| EAnalyze (targets : list URL)
| ESpinnerStart
| ESpinnerText (msg : string)
| ESpinnerSucceed
| ESpinnerFail
| EFormat (reports : list Problem) (opts : FormatOptions).

Record World := mkWorld {
  configStore : gmap string bool;     (* the persistent key-value store *)
  insights : option bool;             (* telemetry consent; None = never configured *)
  trace : list Effect }.              (* oldest first *)

(** The collaborators.  An oracle that is asked something gets the history
    so far, so its answer may change from call to call. *)
Record Env := mkEnv {
  isCI : bool;
  osLocale : string;
  getAsUris : list string -> list URL;
  getUserConfig : option string -> Exception + option UserConfig;
  mergeEnvWithOptions : UserConfig -> UserConfig;
  resolveOutput : string -> string;   (* path.resolve(cwd(), output) *)
  hintVersion : string;               (* loadHintPackage().version *)
  askQuestion : list Effect -> Question -> bool;
  installPackages : list Effect -> list string -> bool;
  createAnalyzer : list Effect -> UserConfig -> CreateAnalyzerOptions -> Exception + Analyzer;
  getHintsFromConfiguration : UserConfig -> option HintsInput;
  normalizeHints : HintsInput -> gmap string HintConfig }.

(** ** The monad of the orchestrator: state and exceptions *)

Inductive Completion (A : Type) :=
| Returned (a : A)
| Thrown (e : Exception).
Arguments Returned {A} a.
Arguments Thrown {A} e.

Definition M (A : Type) : Type := World -> Completion A * World.

Definition ret {A} (a : A) : M A := fun w => (Returned a, w).

Definition throw {A} (e : Exception) : M A := fun w => (Thrown e, w).

Definition bind {A B} (m : M A) (k : A -> M B) : M B :=
  fun w => match m w with
           | (Returned a, w') => k a w'
           | (Thrown e, w') => (Thrown e, w')
           end.

Notation "x <- m ;; k" := (bind m (fun x => k))
  (at level 100, m at next level, right associativity).
Notation "m ;;; k" := (bind m (fun _ => k))
  (at level 100, right associativity).

Definition try_catch {A} (m : M A) (handler : Exception -> M A) : M A :=
  fun w => match m w with
           | (Returned a, w') => (Returned a, w')
           | (Thrown e, w') => handler e w'
           end.

(** [a && b] on promises of booleans: [b] runs only when [a] gave true. *)
Definition andM (a b : M bool) : M bool :=
  x <- a ;; if x then b else ret false.

Definition when (b : bool) (m : M unit) : M unit := if b then m else ret tt.

Definition emit (e : Effect) : M unit :=
  fun w => (Returned tt, mkWorld (configStore w) (insights w) (trace w ++ [e])).

Definition history : M (list Effect) := fun w => (Returned (trace w), w).

(** ** The orchestrator *)

Section Orchestrator.

Variable E : Env.

Definition alreadyRunKey : string := "run".

(** JavaScript truthiness of an optional string: [undefined] and the empty
    string are falsy. *)
Definition truthy (o : option string) : option string :=
  match o with
  | Some "" => None
  | other => other
  end.

(** *** Collaborators, as calls that leave a mark in the history *)

Definition printFrame (f : Frame) : M unit := emit (EPrintFrame f).
Definition showTelemetryMessage : M unit := printFrame TelemetryMessage.
Definition showCITelemetryMessage : M unit := printFrame CITelemetryMessage.
Definition showDefaultMessage : M unit := printFrame DefaultMessage.

Definition logger_log (l : LogLine) : M unit := emit (ELog l).
Definition logger_error (l : LogLine) : M unit := emit (ELogError l).

Definition ask (q : Question) : M bool :=
  h <- history ;;
  let answer := askQuestion E h q in
  emit (EAsk q answer) ;;;
  ret answer.

Definition install (packages : list string) : M bool :=
  h <- history ;;
  let ok := installPackages E h packages in
  emit (EInstall packages ok) ;;;
  ret ok.

Definition trackEvent (event : string) (props : TelemetryProperties) : M unit :=
  emit (ETrack event props).

(** Modelled from the spec: the persistent key-value store [configStore] of
    [@hint/utils], with [get] and [set]. *)
Definition configStore_get (key : string) : M (option bool) :=
  fun w => (Returned (configStore w !! key),
            mkWorld (configStore w) (insights w) (trace w ++ [EStoreGet key])).

Definition configStore_set (key : string) (v : bool) : M unit :=
  fun w => (Returned tt,
            mkWorld (<[key := v]> (configStore w)) (insights w)
                    (trace w ++ [EStoreSet key v])).

(** Modelled from the spec: the telemetry client [appInsights] of
    [@hint/utils].  Consent is a persisted boolean that is unset until the
    user has been asked; enabling and disabling persist the decision. *)
Definition appInsights_isConfigured : M bool :=
  fun w => (Returned (bool_decide (is_Some (insights w))), w).

Definition appInsights_isEnabled : M bool :=
  fun w => (Returned (default false (insights w)), w).

Definition appInsights_enable : M unit :=
  fun w => (Returned tt, mkWorld (configStore w) (Some true) (trace w ++ [EInsightsEnable])).

Definition appInsights_disable : M unit :=
  fun w => (Returned tt, mkWorld (configStore w) (Some false) (trace w ++ [EInsightsDisable])).

(** *** Telemetry gate *)

(** [typeof severity === 'string' ? severity : severity[0]]: a severity name
    is kept, a pair gives its first component, and a numeric level indexed
    at 0 is [undefined]. *)
Definition hintForTelemetry (c : HintConfig) : option HintSeverity :=
  match c with
  | HintLevel (SeverityName s) => Some (SeverityName s)
  | HintLevel (SeverityLevel _) => None
  | HintWithOptions sev _ => Some sev
  end.

Definition getHintsForTelemetry (h : option HintsInput)
  : option (gmap string (option HintSeverity)) :=
  match h with
  | None => None
  | Some h =>
      let normalizedHints := normalizeHints E h in
      Some (map_fold (fun hintId severity result =>
                        <[hintId := hintForTelemetry severity]> result)
                     ∅ normalizedHints)
  end.

(** [userConfig.connector ? connector.name || connector : undefined] *)
Definition connectorForTelemetry (c : option Connector) : option Connector :=
  match c with
  | None => None
  | Some (ConnectorName "") => None
  | Some (ConnectorName s) => Some (ConnectorName s)
  | Some (ConnectorObject o) =>
      match connector_name o with
      | "" => Some (ConnectorObject o)
      | n => Some (ConnectorName n)
      end
  end.

Definition pruneUserConfig (userConfig : UserConfig) : PrunedConfig :=
  {| p_browserslist := browserslist userConfig;
     p_connector := connectorForTelemetry (connector userConfig);
     p_extends := extends userConfig;
     p_formatters := formatters userConfig;
     p_hints := getHintsForTelemetry (getHintsFromConfiguration E userConfig);
     p_hintsTimeout := hintsTimeout userConfig;
     p_language := language userConfig;
     p_parsers := parsers userConfig |}.

Definition askForTelemetryConfirmation : M bool :=
  showTelemetryMessage ;;;
  telemetryEnabled <- ask OptInQuestion ;;
  (if telemetryEnabled then appInsights_enable else appInsights_disable) ;;;
  ret telemetryEnabled.

Definition sendTelemetryIfEnabled (userConfig : UserConfig) : M unit :=
  telemetryConfigured <- appInsights_isConfigured ;;
  telemetryEnabled <- appInsights_isEnabled ;;
  alreadyRun <- configStore_get alreadyRunKey ;;
  when (negb (default false alreadyRun)) (configStore_set alreadyRunKey true) ;;;
  telemetryEnabled <-
    (if negb telemetryConfigured then
       if isCI E then
         showCITelemetryMessage ;;;
         ret false
       else if default false alreadyRun then
         enabled <- askForTelemetryConfirmation ;;
         when enabled (trackEvent "cli-telemetry" NoProperties) ;;;
         ret enabled
       else ret telemetryEnabled
     else ret telemetryEnabled) ;;
  if negb telemetryEnabled then ret tt
  else trackEvent "cli-analyze"
         (AnalyzeSummary (isCI E) alreadyRun (pruneUserConfig userConfig)).

(** *** Configuration resolver *)

Definition isFile (target : URL) : bool := bool_decide (protocol target = "file:").

Definition areFiles (targets : list URL) : bool := forallb isFile targets.

Definition anyFile (targets : list URL) : bool := existsb isFile targets.

Definition mixedTargetsMessage : string :=
  "You cannot mix file system with urls in the analysis".

Definition withFormatters (c : UserConfig) (f : list string) : UserConfig :=
  mkConfig (browserslist c) (connector c) (extends c) (Some f) (hints c)
           (hintsTimeout c) (ignoredUrls c) (language c) (parsers c).

Definition withLanguage (c : UserConfig) (l : string) : UserConfig :=
  mkConfig (browserslist c) (connector c) (extends c) (formatters c) (hints c)
           (hintsTimeout c) (ignoredUrls c) (Some l) (parsers c).

Definition getDefaultConfiguration (targets : list URL) : M UserConfig :=
  showDefaultMessage ;;;
  let targetsAreFiles := areFiles targets in
  if negb targetsAreFiles && anyFile targets then
    throw (OtherError mixedTargetsMessage)
  else
    let ext := if targetsAreFiles then "development" else "web-recommended" in
    let config := mkConfig None None (Some [ext]) None None None None None None in
    ret (if isCI E then withFormatters config ["html"; "stylish"] else config).

Definition askUserToUseDefaultConfiguration (targets : list URL) : M (option UserConfig) :=
  confirmation <- ask DefaultConfigurationQuestion ;;
  if confirmation then
    config <- getDefaultConfiguration targets ;;
    ret (Some config)
  else ret None.

Definition getLanguage (userConfig : option UserConfig) (actions : option CLIOptions) : M string :=
  match truthy (actions ≫= cli_language) with
  | Some l => ret l
  | None =>
      match truthy (userConfig ≫= language) with
      | Some l => ret l
      | None => ret (osLocale E)
      end
  end.

Definition loadUserConfig (actions : CLIOptions) (targets : list URL) : M UserConfig :=
  emit (EGetUserConfig (cli_config actions)) ;;;
  userConfig <-
    match getUserConfig E (cli_config actions) with
    | inl e => throw e
    | inr (Some userConfig) => ret userConfig
    | inr None => getDefaultConfiguration targets
    end ;;
  l <- getLanguage (Some userConfig) (Some actions) ;;
  ret (mergeEnvWithOptions E (withLanguage userConfig l)).

(** *** Analyzer bootstrap *)

Definition nonEmpty {A} (l : list A) : bool := bool_decide (0 < length l)%nat.

Definition showMissingAndIncompatiblePackages (resources : HintResources) : M unit :=
  when (nonEmpty (missing resources))
       (logger_log (MissingPackagesLine (missing resources))) ;;;
  when (nonEmpty (incompatible resources))
       (logger_log (IncompatiblePackagesLine (incompatible resources))).

Definition askUserToInstallDependencies (resources : HintResources) : M bool :=
  showMissingAndIncompatiblePackages resources ;;;
  let dependencies := (incompatible resources ++ missing resources)%list in
  ask (InstallQuestion dependencies).

Definition missingPackages (resources : HintResources) : list string :=
  map (fun name => "@hint/" +:+ name) (missing resources).

Definition incompatiblePackages (resources : HintResources) : list string :=
  map (fun name => "@hint/" +:+ name +:+ "@latest") (incompatible resources).

Definition askToInstallPackages (resources : HintResources) : M bool :=
  when (nonEmpty (missing resources))
       (trackEvent "cli-missing" (PackageNames (missing resources))) ;;;
  when (nonEmpty (incompatible resources))
       (trackEvent "cli-incompatible" (PackageNames (incompatible resources))) ;;;
  done <- andM (andM (askUserToInstallDependencies resources)
                     (install (missingPackages resources)))
               (install (incompatiblePackages resources)) ;;
  if negb done then ret false else ret true.

(** [getAnalyzer] calls itself after a recovery, without a bound of its own.
    The model counts construction attempts against [fuel]; [None] says the
    fuel ran out before the function returned or threw. *)
Fixpoint getAnalyzer (fuel : nat) (userConfig : UserConfig)
    (options : CreateAnalyzerOptions) (targets : list URL) (w : World)
  : option (Completion Analyzer * World) :=
  match fuel with
  | O => None
  | S fuel =>
      let w0 := mkWorld (configStore w) (insights w)
                        (trace w ++ [ECreateAnalyzer userConfig options]) in
      match createAnalyzer E (trace w) userConfig options with
      | inr webhint => Some (Returned webhint, w0)
      | inl e =>
          match e with
          | ConfigurationError _ =>
              match askUserToUseDefaultConfiguration targets w0 with
              | (Returned (Some config), w1) => getAnalyzer fuel config options targets w1
              | (Returned None, w1) => Some (Thrown e, w1)
              | (Thrown e', w1) => Some (Thrown e', w1)
              end
          | ResourceError resources _ =>
              match askToInstallPackages resources w0 with
              | (Returned true, w1) => getAnalyzer fuel userConfig options targets w1
              | (Returned false, w1) => Some (Thrown e, w1)
              | (Thrown e', w1) => Some (Thrown e', w1)
              end
          | HintError invalidHints _ =>
              Some ((logger_error (InvalidHintsLine invalidHints) ;;; throw e) w0)
          | ConnectorError _ =>
              Some ((logger_error InvalidConnectorLine ;;; throw e) w0)
          | OtherError msg =>
              Some ((logger_error (ErrorLine msg) ;;; throw e) w0)
          end
      end
  end.

(** [s.split(',')] *)
Fixpoint split (sep : ascii) (s : string) : list string :=
  match s with
  | EmptyString => [""]
  | String c rest =>
      if Ascii.eqb c sep then "" :: split sep rest
      else match split sep rest with
           | [] => [String c ""]
           | h :: t => String c h :: t
           end
  end.

Definition comma : ascii := Ascii.ascii_of_nat 44.

Definition actionsToOptions (actions : CLIOptions) : CreateAnalyzerOptions :=
  {| opt_formatters := split comma <$> truthy (cli_formatters actions);
     opt_hints := split comma <$> truthy (cli_hints actions);
     opt_watch := cli_watch actions |}.

(** *** Run and progress reporter *)

(** The variables the callbacks close over: the map [scanStart] and the
    [exitCode] of the run. *)
Record ReporterState := mkReporter {
  scanStart : gmap string Z;
  exitCode : Z }.

Inductive SpinnerMethod := fail | succeed.

Definition endSpinner (actions : CLIOptions) (method : SpinnerMethod) : M unit :=
  when (negb (cli_debug actions))
       (emit match method with fail => ESpinnerFail | succeed => ESpinnerSucceed end).

Definition hasError (reports : list Problem) : bool :=
  existsb (fun result => Severity.eqb (severity result) Severity.error) reports.

Definition print (actions : CLIOptions) (userConfig : UserConfig) (webhint : Analyzer)
    (reports : list Problem) (target : string) (scanTime : Z) (date : Z) : M unit :=
  emit (EFormat reports
          {| f_config := userConfig;
             f_date := date;
             f_output := resolveOutput E <$> truthy (cli_output actions);
             f_resources := analyzer_resources webhint;
             f_scanTime := scanTime;
             f_target := target;
             f_version := hintVersion E |}).

Definition updateCallback (actions : CLIOptions) (msg : string) : M unit :=
  when (negb (cli_debug actions)) (emit (ESpinnerText msg)).

Definition targetStartCallback (actions : CLIOptions) (st : ReporterState)
    (url : string) (now : Z) : M ReporterState :=
  when (negb (cli_debug actions)) (emit ESpinnerStart) ;;;
  ret (mkReporter (<[url := now]> (scanStart st)) (exitCode st)).

(** [scanStart.get(end.url) || 0] is [default 0]: a missing entry and an
    entry that is 0 both give 0. *)
Definition targetEndCallback (actions : CLIOptions) (userConfig : UserConfig)
    (webhint : Analyzer) (st : ReporterState)
    (url : string) (problems : list Problem) (now : Z) : M ReporterState :=
  let scanEnd := now in
  let start := default 0 (scanStart st !! url) in
  let exitCode' := if hasError problems then 1 else exitCode st in
  endSpinner actions (if bool_decide (exitCode' = 0) then succeed else fail) ;;;
  print actions userConfig webhint problems url (scanEnd - start) start ;;;
  ret (mkReporter (scanStart st) exitCode').

Definition callback (actions : CLIOptions) (userConfig : UserConfig)
    (webhint : Analyzer) (st : ReporterState) (ev : EngineEvent) : M ReporterState :=
  match ev with
  | TargetStart url now => targetStartCallback actions st url now
  | Update msg => updateCallback actions msg ;;; ret st
  | TargetEnd url problems now =>
      targetEndCallback actions userConfig webhint st url problems now
  end.

Fixpoint deliver (actions : CLIOptions) (userConfig : UserConfig)
    (webhint : Analyzer) (evs : list EngineEvent) (st : ReporterState) : M ReporterState :=
  match evs with
  | [] => ret st
  | ev :: evs =>
      st' <- callback actions userConfig webhint st ev ;;
      deliver actions userConfig webhint evs st'
  end.

(** [webhint.analyze(targets, getAnalyzeOptions())]: the analyzer makes its
    callbacks, then the promise is fulfilled or rejected. *)
Definition webhint_analyze (actions : CLIOptions) (userConfig : UserConfig)
    (webhint : Analyzer) (targets : list URL) : M ReporterState :=
  emit (EAnalyze targets) ;;;
  st <- deliver actions userConfig webhint
          (events (analyzer_run webhint targets)) (mkReporter ∅ 0) ;;
  match rejected (analyzer_run webhint targets) with
  | Some e => throw e
  | None => ret st
  end.

(** The default export from the point where the analyzer is ready: the
    [try] around [webhint.analyze] and [sendTelemetryIfEnabled], its [catch],
    and the result [exitCode === 0]. *)
Definition runAnalysis (actions : CLIOptions) (userConfig : UserConfig)
    (webhint : Analyzer) (targets : list URL) : M bool :=
  exitCode <-
    try_catch
      (st <- webhint_analyze actions userConfig webhint targets ;;
       sendTelemetryIfEnabled userConfig ;;;
       ret (exitCode st))
      (fun _ => endSpinner actions fail ;;; ret 1) ;;
  ret (bool_decide (exitCode = 0)).

(** The default export, [analyze(actions)].  [Thrown] is a rejected promise;
    [None] is a bootstrap that used up the fuel. *)
Definition analyze (fuel : nat) (actions : CLIOptions) (w : World)
  : option (Completion bool * World) :=
  let targets := getAsUris E (cli_targets actions) in
  if bool_decide (length targets = 0%nat) then Some (Returned false, w)
  else
    match loadUserConfig actions targets w with
    | (Thrown e, w1) => Some (Thrown e, w1)
    | (Returned userConfig, w1) =>
        let createAnalyzerOptions := actionsToOptions actions in
        match getAnalyzer fuel userConfig createAnalyzerOptions targets w1 with
        | None => None
        | Some (Thrown _, w2) => Some (Returned false, w2)
        | Some (Returned webhint, w2) =>
            Some (runAnalysis actions userConfig webhint targets w2)
        end
    end.

End Orchestrator.

(** ** Reading a history *)

(** What happened between two worlds of one run. *)
Definition since (w w' : World) : list Effect :=
  drop (length (trace w)) (trace w').

Definition asked (t : list Effect) : list Question :=
  omap (fun e => match e with EAsk q _ => Some q | _ => None end) t.

Definition attempts (t : list Effect) : list UserConfig :=
  omap (fun e => match e with ECreateAnalyzer c _ => Some c | _ => None end) t.

Definition installed (t : list Effect) : list (list string) :=
  omap (fun e => match e with EInstall p _ => Some p | _ => None end) t.

Definition tracked (t : list Effect) : list (string * TelemetryProperties) :=
  omap (fun e => match e with ETrack n p => Some (n, p) | _ => None end) t.

Definition isStoreAccess (e : Effect) : bool :=
  match e with
  | EStoreGet _ | EStoreSet _ _ | EInsightsEnable | EInsightsDisable => true
  | _ => false
  end.

Definition storeAccesses (t : list Effect) : list Effect :=
  List.filter isStoreAccess t.

Definition isSpinnerCall (e : Effect) : bool :=
  match e with
  | ESpinnerStart | ESpinnerText _ | ESpinnerSucceed | ESpinnerFail => true
  | _ => false
  end.

Definition spinnerCalls (t : list Effect) : list Effect :=
  List.filter isSpinnerCall t.

(** The formatter calls of a history: target, scan time, start instant. *)
Definition reports (t : list Effect) : list (string * Z * Z) :=
  omap (fun e => match e with
                 | EFormat _ o => Some (f_target o, f_scanTime o, f_date o)
                 | _ => None
                 end) t.

(** How often a history reads the first-run marker.  The telemetry gate is
    the only reader, and reads it once each time it runs. *)
Definition gateReads (t : list Effect) : nat :=
  length (List.filter (fun e => match e with
                                | EStoreGet k => bool_decide (k = alreadyRunKey)
                                | _ => false
                                end) t).

(** A step that leaves the persistent state alone and adds [d] to the
    history. *)
Definition adds (w w' : World) (d : list Effect) : Prop :=
  trace w' = (trace w ++ d)%list
  /\ configStore w' = configStore w
  /\ insights w' = insights w.

(** What [askToInstallPackages] tells telemetry and the user before it asks. *)
Definition announcement (resources : HintResources) : list Effect :=
  ((if nonEmpty (missing resources)
    then [ETrack "cli-missing" (PackageNames (missing resources))] else []) ++
   (if nonEmpty (incompatible resources)
    then [ETrack "cli-incompatible" (PackageNames (incompatible resources))] else []) ++
   (if nonEmpty (missing resources)
    then [ELog (MissingPackagesLine (missing resources))] else []) ++
   (if nonEmpty (incompatible resources)
    then [ELog (IncompatiblePackagesLine (incompatible resources))] else []))%list.

(** The question and the installations of one resource recovery, given the
    user's answer and the results of the two installations. *)
Definition installation (resources : HintResources) (accepted ok1 ok2 : bool) : list Effect :=
  EAsk (InstallQuestion (incompatible resources ++ missing resources)) accepted ::
  (if accepted then
     EInstall (missingPackages resources) ok1 ::
     (if ok1 then [EInstall (incompatiblePackages resources) ok2] else [])
   else []).



(** An end event that carries a finding of severity [error]. *)
Definition endsWithError (ev : EngineEvent) : bool :=
  match ev with
  | TargetEnd _ problems _ => hasError problems
  | _ => false
  end.

(** The start instant a target has on record, read off the events that came
    before (newest first): that of its own latest start event. *)
Fixpoint ownStart (url : string) (past : list EngineEvent) : option Z :=
  match past with
  | [] => None
  | TargetStart u t :: past => if decide (u = url) then Some t else ownStart url past
  | _ :: past => ownStart url past
  end.

(** What the reporter is to hand to the formatter: for every end event the
    target, the time elapsed since its own start, and that start; zero
    stands in for a start that was never recorded. *)
Fixpoint expectedReports (past evs : list EngineEvent) : list (string * Z * Z) :=
  match evs with
  | [] => []
  | ev :: evs =>
      (match ev with
       | TargetEnd url _ t =>
           [(url, t - default 0 (ownStart url past), default 0 (ownStart url past))]
       | _ => []
       end ++ expectedReports (ev :: past) evs)%list
  end.

(** The construction results the bootstrap answers with a recovery. *)
Definition recoverable (r : Exception + Analyzer) : bool :=
  match r with
  | inl (ConfigurationError _) | inl (ResourceError _ _) => true
  | _ => false
  end.

(** What the bootstrap logs for an error it does not recover from. *)
Definition fatalLine (e : Exception) : LogLine :=
  match e with
  | HintError invalid _ => InvalidHintsLine invalid
  | ConnectorError _ => InvalidConnectorLine
  | ConfigurationError msg | ResourceError _ msg | OtherError msg => ErrorLine msg
  end.

Section Readings.

Variable E : Env.


(** The ways a run ends before the telemetry step. *)
Inductive EarlyExit (fuel : nat) (actions : CLIOptions) (w : World) : Prop :=
| NoTargets :
    getAsUris E (cli_targets actions) = [] ->
    EarlyExit fuel actions w
| ResolutionFailed e w1 :
    loadUserConfig E actions (getAsUris E (cli_targets actions)) w = (Thrown e, w1) ->
    EarlyExit fuel actions w
| BootstrapFailed userConfig w1 e w2 :
    loadUserConfig E actions (getAsUris E (cli_targets actions)) w = (Returned userConfig, w1) ->
    getAnalyzer E fuel userConfig (actionsToOptions actions)
      (getAsUris E (cli_targets actions)) w1 = Some (Thrown e, w2) ->
    EarlyExit fuel actions w
| AnalysisThrew userConfig w1 webhint w2 e :
    loadUserConfig E actions (getAsUris E (cli_targets actions)) w = (Returned userConfig, w1) ->
    getAnalyzer E fuel userConfig (actionsToOptions actions)
      (getAsUris E (cli_targets actions)) w1 = Some (Returned webhint, w2) ->
    rejected (analyzer_run webhint (getAsUris E (cli_targets actions))) = Some e ->
    EarlyExit fuel actions w.


End Readings.

(** ** More readings of a run *)

(** The default configuration for targets that are all local or all remote. *)
Definition defaultFor (E : Env) (targets : list URL) : UserConfig :=
  let config :=
    mkConfig None None
             (Some [if areFiles targets then "development" else "web-recommended"])
             None None None None None None in
  if isCI E then withFormatters config ["html"; "stylish"] else config.

(** What a bootstrap that starts from [userConfig] may do: build an analyzer
    from the options it was given and from that configuration or the
    default one, ask its two questions, install, tell telemetry the names of
    packages, log, and print the default-configuration frame. *)
Definition bootstrapEffect (E : Env) (userConfig : UserConfig)
    (options : CreateAnalyzerOptions) (targets : list URL) (e : Effect) : Prop :=
  match e with
  | ECreateAnalyzer c o => o = options /\ (c = userConfig \/ c = defaultFor E targets)
  | EAsk DefaultConfigurationQuestion _ | EAsk (InstallQuestion _) _ => True
  | EInstall _ _ => True
  | ETrack event (PackageNames _) => event = "cli-missing" \/ event = "cli-incompatible"
  | ELog (MissingPackagesLine _) | ELog (IncompatiblePackagesLine _) => True
  | ELogError _ => True
  | EPrintFrame DefaultMessage => True
  | _ => False
  end.

(** What resolving the configuration may do. *)
Definition resolutionEffect (e : Effect) : Prop :=
  match e with
  | EGetUserConfig _ | EPrintFrame DefaultMessage => True
  | _ => False
  end.

(** The formatter calls of a history, whole. *)
Definition formatted (t : list Effect) : list (list Problem * FormatOptions) :=
  omap (fun e => match e with EFormat r o => Some (r, o) | _ => None end) t.

(** How the spinner was stopped, call by call. *)
Definition spinnerOutcomes (t : list Effect) : list SpinnerMethod :=
  omap (fun e => match e with
                 | ESpinnerSucceed => Some succeed
                 | ESpinnerFail => Some fail
                 | _ => None
                 end) t.

(** The end events of a run: target and findings. *)
Definition findings (evs : list EngineEvent) : list (string * list Problem) :=
  omap (fun ev => match ev with TargetEnd url ps _ => Some (url, ps) | _ => None end) evs.

(** The spinner outcome of every end event, given whether the run had
    failed before: [fail] from the first end event with a finding of
    severity [error] on. *)
Fixpoint expectedOutcomes (failed : bool) (evs : list EngineEvent) : list SpinnerMethod :=
  match evs with
  | [] => []
  | TargetEnd _ ps _ :: evs =>
      (if hasError ps || failed then fail else succeed)
        :: expectedOutcomes (hasError ps || failed) evs
  | _ :: evs => expectedOutcomes failed evs
  end.

(** The telemetry gate at the end of one run after the other, each with
    its configuration. *)
Fixpoint gateRuns (E : Env) (configs : list UserConfig) (w : World) : World :=
  match configs with
  | [] => w
  | c :: configs => gateRuns E configs (sendTelemetryIfEnabled E c w).2
  end.

(** [parts.join(',')] *)
Definition joinComma (parts : list string) : string :=
  String.concat (String comma "") parts.

(** A string without a comma. *)
Fixpoint noComma (s : string) : bool :=
  match s with
  | EmptyString => true
  | String c rest => negb (Ascii.eqb c comma) && noComma rest
  end.


(** The questions of a history with their answers. *)
Definition answers (t : list Effect) : list (Question * bool) :=
  omap (fun e => match e with EAsk q a => Some (q, a) | _ => None end) t.

(** The formatter options every report of a run shares. *)
Definition sharedOptions (E : Env) (actions : CLIOptions) (userConfig : UserConfig)
    (webhint : Analyzer) (o : FormatOptions) : Prop :=
  f_config o = userConfig
  /\ f_output o = resolveOutput E <$> truthy (cli_output actions)
  /\ f_resources o = analyzer_resources webhint
  /\ f_version o = hintVersion E.

(** The calls of [configStore.set] in a history, and the calls of
    [appInsights.enable] (true) and [appInsights.disable] (false). *)
Definition storeWrites (t : list Effect) : list (string * bool) :=
  omap (fun e => match e with EStoreSet k v => Some (k, v) | _ => None end) t.

Definition consentCalls (t : list Effect) : list bool :=
  omap (fun e => match e with
                 | EInsightsEnable => Some true
                 | EInsightsDisable => Some false
                 | _ => None
                 end) t.

(** The answer the user gives when the gate, entered with the history [h],
    asks for the opt-in: the gate has then read the first-run marker and
    printed the telemetry frame. *)
Definition optInAnswer (E : Env) (h : list Effect) : bool :=
  askQuestion E (h ++ [EStoreGet alreadyRunKey; EPrintFrame TelemetryMessage]) OptInQuestion.

(** The install question of a resource recovery, and, for a recovery that
    starts with the history [h], what the collaborators answer: the user to
    the question, the installer to the missing packages once the user has
    accepted, and to the incompatible ones once the missing ones are in. *)
Definition installQuestion (resources : HintResources) : Question :=
  InstallQuestion (incompatible resources ++ missing resources).

Definition installAccepted (E : Env) (resources : HintResources) (h : list Effect) : bool :=
  askQuestion E (h ++ announcement resources) (installQuestion resources).

Definition missingInstalled (E : Env) (resources : HintResources) (h : list Effect) : bool :=
  installPackages E
    (h ++ announcement resources ++ [EAsk (installQuestion resources) true])
    (missingPackages resources).

Definition incompatibleInstalled (E : Env) (resources : HintResources) (h : list Effect)
  : bool :=
  installPackages E
    (h ++ announcement resources ++
       [EAsk (installQuestion resources) true; EInstall (missingPackages resources) true])
    (incompatiblePackages resources).

(** An attempt that is recovered: made with the configuration [c] after the
    history [h], construction fails with a configuration error, the user
    accepts the default configuration and the targets are not mixed; or it
    fails with a resource error, the user accepts the installation and both
    installations succeed. *)
Definition recovered (E : Env) (options : CreateAnalyzerOptions) (targets : list URL)
    (h : list Effect) (c : UserConfig) : bool :=
  match createAnalyzer E h c options with
  | inl (ConfigurationError _) =>
      askQuestion E (h ++ [ECreateAnalyzer c options]) DefaultConfigurationQuestion
      && negb (negb (areFiles targets) && anyFile targets)
  | inl (ResourceError resources _) =>
      installAccepted E resources (h ++ [ECreateAnalyzer c options])
      && missingInstalled E resources (h ++ [ECreateAnalyzer c options])
      && incompatibleInstalled E resources (h ++ [ECreateAnalyzer c options])
  | _ => false
  end.

(** Where the attempt after a recovered one starts: the configuration it is
    made with and the world it is made in. *)
Definition retry (E : Env) (options : CreateAnalyzerOptions) (targets : list URL)
    (c : UserConfig) (w : World) : UserConfig * World :=
  match createAnalyzer E (trace w) c options with
  | inl (ConfigurationError _) =>
      (defaultFor E targets,
       mkWorld (configStore w) (insights w)
               (trace w ++ [ECreateAnalyzer c options;
                            EAsk DefaultConfigurationQuestion true;
                            EPrintFrame DefaultMessage]))
  | inl (ResourceError resources _) =>
      (c,
       mkWorld (configStore w) (insights w)
               (trace w ++ ECreateAnalyzer c options ::
                  announcement resources ++ installation resources true true true))
  | _ => (c, w)
  end.

(** Where the attempt after [n] recovered ones starts; [None] when one of
    the [n] is not recovered. *)
Fixpoint afterRetries (E : Env) (options : CreateAnalyzerOptions) (targets : list URL)
    (n : nat) (c : UserConfig) (w : World) : option (UserConfig * World) :=
  match n with
  | O => Some (c, w)
  | S n =>
      if recovered E options targets (trace w) c
      then afterRetries E options targets n
             (retry E options targets c w).1 (retry E options targets c w).2
      else None
  end.

(** The language a resolved configuration gets: that of the command line,
    else its own, else that of the operating system. *)
Definition languageFor (E : Env) (actions : CLIOptions) (config : UserConfig) : string :=
  match truthy (cli_language actions) with
  | Some l => l
  | None =>
      match truthy (language config) with
      | Some l => l
      | None => osLocale E
      end
  end.

(** Whether a history holds a call of the analyzer. *)
Definition analysisStarted (t : list Effect) : bool :=
  existsb (fun e => match e with EAnalyze _ => true | _ => false end) t.

(** ** The telemetry of the browser extension

    The second telemetry client of the repository: the module of the
    browser extension that keeps the consent in the extension's storage and
    hands events to an Application Insights client.  Its state is the
    storage it is given, the module's [appInsights] handle, and what has
    been handed to the handle's [track]. *)

Module Extension.

(** The storage the functions are given ([s = storage]): the interface they
    use of it. *)
Class Storage (S : Type) := {
  getItem : S -> string -> option Json;
  setItem : S -> string -> Json -> S }.

(** What the functions rely on: an item reads back as it was written, and
    writing one key leaves the others alone. *)
Class StorageLaws (S : Type) `{Storage S} : Prop := {
  getItem_setItem : forall s key v, getItem (setItem s key v) key = Some v;
  getItem_setItem_other :
    forall s key key' v, key <> key' -> getItem (setItem s key v) key' = getItem s key' }.

(** JavaScript truthiness of what [getItem] gives ([None] is [undefined]). *)
Definition jsTruthy (v : option Json) : bool :=
  match v with
  | None | Some JNull => false
  | Some (JBool b) => b
  | Some (JNum n) => negb (Z.eqb n 0)
  | Some (JStr s) => negb (String.eqb s "")
  | Some (JArr _) | Some (JObj _) => true
  end.

(** The envelope handed to [appInsights.track]. *)
Record Item := mkItem {
  item_measurements : option (gmap string Z);
  item_event : string;                    (* baseData.name *)
  item_properties : gmap string string;   (* baseData.properties *)
  item_baseType : string;
  item_name : string }.

Record Client := mkClient {
  appInsights : bool;                     (* the handle is not [null] *)
  sent : list Item;                       (* oldest first *)
  console : list string }.

Record ErrorData := mkErrorData {
  error_message : string;
  error_stack : option string }.

Definition storageKey : string := "webhint-telemetry".
Definition alreadyOptInKey : string := "webhint-already-opt-in".
Definition instrumentationKey : string := "8ef2b55b-2ce9-4c33-a09a-2c3ef605c97d".

Section Functions.

Context {S : Type} {storage : Storage S}.

(** [manifest.version], and [determineHintStatus] of [./hints] with the
    types of its arguments. *)
Variable version : string.
Variables Config Results : Type.
Variable determineHintStatus : Config -> Results -> gmap string string.

Definition trackEvent (name : string) (properties : option (gmap string string))
    (measurements : option (gmap string Z)) (c : Client) : Client :=
  if negb (appInsights c) then c
  else
    let properties := <["extension-version" := version]> (default ∅ properties) in
    mkClient (appInsights c)
      (sent c ++ [mkItem measurements name properties "EventData"
                    ("Microsoft.ApplicationInsights." +:+ instrumentationKey +:+ ".Event")])
      (console c).

Definition showOptIn (s : S) : bool :=
  match getItem s storageKey with
  | None => true
  | Some _ => false
  end.

Definition setup (s : S) (c : Client) : Client :=
  let telemetry := getItem s storageKey in
  if negb (jsTruthy telemetry) then
    mkClient false (sent c) (console c ++ ["telemetry disabled"])
  else
    mkClient true (sent c) (console c ++ ["telemetry enabled"]).

Definition enabled (s : S) : bool := jsTruthy (getItem s storageKey).

Definition enable (s : S) (c : Client) : S * Client :=
  let s := setItem s storageKey (JBool true) in
  let c := setup s c in
  if negb (jsTruthy (getItem s alreadyOptInKey)) then
    let s := setItem s alreadyOptInKey (JBool true) in
    (s, trackEvent "f12-telemetry" None None c)
  else (s, c).

Definition disable (s : S) (c : Client) : S * Client :=
  let s := setItem s storageKey (JBool false) in
  (s, setup s c).

Definition trackCancel (duration : Z) : Client -> Client :=
  trackEvent "f12-cancel" None (Some {[ "f12-cancel-duration" := duration ]}).

Definition trackError (error : ErrorData) : Client -> Client :=
  trackEvent "f12-error" (Some {[ "message" := error_message error ]}) None.

Definition trackFinish (config : Config) (results : Results) (duration : Z)
  : Client -> Client :=
  let properties := determineHintStatus config results in
  trackEvent "f12-finish" (Some properties) (Some {[ "f12-finish-duration" := duration ]}).

Definition trackShow : Client -> Client := trackEvent "f12-show" None None.

Definition trackStart : Client -> Client := trackEvent "f12-start" None None.

Definition trackTimeout (duration : Z) : Client -> Client :=
  trackEvent "f12-timeout" None (Some {[ "f12-timeout-duration" := duration ]}).

(** A call of one of the exported functions, all on the same storage. *)
Inductive Call :=
| CallSetup
| CallEnable
| CallDisable
| CallCancel (duration : Z)
| CallError (error : ErrorData)
| CallFinish (config : Config) (results : Results) (duration : Z)
| CallShow
| CallStart
| CallTimeout (duration : Z).

Definition call (k : Call) (sc : S * Client) : S * Client :=
  let (s, c) := sc in
  match k with
  | CallSetup => (s, setup s c)
  | CallEnable => enable s c
  | CallDisable => disable s c
  | CallCancel d => (s, trackCancel d c)
  | CallError e => (s, trackError e c)
  | CallFinish cfg r d => (s, trackFinish cfg r d c)
  | CallShow => (s, trackShow c)
  | CallStart => (s, trackStart c)
  | CallTimeout d => (s, trackTimeout d c)
  end.

(** A session: calls in order. *)
Definition calls (ks : list Call) (sc : S * Client) : S * Client :=
  fold_left (fun sc k => call k sc) ks sc.

Definition isEnable (k : Call) : bool :=
  match k with CallEnable => true | _ => false end.

(** The same call with the stack of its error, if it has one, taken away. *)
Definition withoutStack (k : Call) : Call :=
  match k with
  | CallError e => CallError (mkErrorData (error_message e) None)
  | other => other
  end.

(** The opt-in events of a log. *)
Definition optIns (l : list Item) : list Item :=
  List.filter (fun i => String.eqb (item_event i) "f12-telemetry") l.

(** What every item of the log is to look like. *)
Definition stamped (i : Item) : Prop :=
  item_properties i !! "extension-version" = Some version
  /\ item_baseType i = "EventData"
  /\ item_name i = "Microsoft.ApplicationInsights." +:+ instrumentationKey +:+ ".Event".

(** What every item of the log is to look like, and what an error item
    holds: a message and the version, nothing else. *)
Definition wellFormed (i : Item) : Prop :=
  stamped i
  /\ (item_event i = "f12-error" ->
      exists message,
        item_properties i = <["extension-version" := version]> {[ "message" := message ]}).

(** The item [trackError] hands to the client. *)
Definition errorItem (error : ErrorData) : Item :=
  mkItem None "f12-error"
         (<["extension-version" := version]> {[ "message" := error_message error ]})
         "EventData"
         ("Microsoft.ApplicationInsights." +:+ instrumentationKey +:+ ".Event").

End Functions.

Arguments trackFinish version {Config Results} determineHintStatus config results duration.
Arguments call {S storage} version {Config Results} determineHintStatus k sc.
Arguments calls {S storage} version {Config Results} determineHintStatus ks sc.
Arguments CallSetup {Config Results}.
Arguments CallEnable {Config Results}.
Arguments CallDisable {Config Results}.
Arguments CallCancel {Config Results} duration.
Arguments CallError {Config Results} error.
Arguments CallFinish {Config Results} config results duration.
Arguments CallShow {Config Results}.
Arguments CallStart {Config Results}.
Arguments CallTimeout {Config Results} duration.
Arguments isEnable {Config Results} k.
Arguments withoutStack {Config Results} k.

(** The storage of the samples: a finite map. *)
#[global] Instance mapStorage : Storage (gmap string Json) := {
  getItem s key := s !! key;
  setItem s key v := <[key := v]> s }.

#[global] Instance mapStorageLaws : StorageLaws (gmap string Json).
Proof.
  split.
  - intros s key v. apply lookup_insert_eq.
  - intros s key key' v Hne. by apply lookup_insert_ne.
Qed.

End Extension.

(** ** Sample inputs *)

Definition emptyWorld : World := mkWorld ∅ None [].

Definition noActions : CLIOptions := mkCLI [] None false None None None None None.

Definition actionsFor (targets : list string) (debug : bool) : CLIOptions :=
  mkCLI targets None debug None None None None None.

Definition fileUrl : URL := mkURL "file:" "file:///site/index.html".
Definition webUrl : URL := mkURL "https:" "https://example.com/".

(** A stand-in for [getAsUris]: a name that starts with [/] is a local
    path, anything else a web address. *)
Definition sampleUris (l : list string) : list URL :=
  map (fun s => match s with
                | String c _ =>
                    if Ascii.eqb c (Ascii.ascii_of_nat 47) then mkURL "file:" ("file://" +:+ s)
                    else mkURL "https:" s
                | EmptyString => mkURL "https:" s
                end) l.

Definition analyzerOf (run : EngineRun) : Analyzer :=
  mkAnalyzer (mkResources [] []) (fun _ => run).

Definition sampleEnv (ci : bool) (userConfig : option UserConfig)
    (answers : list Effect -> Question -> bool)
    (installs : list Effect -> list string -> bool)
    (create : list Effect -> UserConfig -> CreateAnalyzerOptions -> Exception + Analyzer)
  : Env :=
  {| isCI := ci;
     osLocale := "en-US";
     getAsUris := sampleUris;
     getUserConfig := fun _ => inr userConfig;
     mergeEnvWithOptions := fun c => c;
     resolveOutput := fun p => p;
     hintVersion := "5.0.0";
     askQuestion := answers;
     installPackages := installs;
     createAnalyzer := create;
     getHintsFromConfiguration := hints;
     normalizeHints := fun h => match h with HintsObject o => o | HintsArray _ => ∅ end |}.

Definition yes {A B} : A -> B -> bool := fun _ _ => true.
Definition no {A B} : A -> B -> bool := fun _ _ => false.

Definition webRecommended : UserConfig :=
  mkConfig None None (Some ["web-recommended"]) None None None None None None.

(** An environment with a valid configuration and an analyzer that is built
    at once and runs as [run]. *)
Definition readyEnv (ci : bool) (run : EngineRun) : Env :=
  sampleEnv ci (Some webRecommended) no no (fun _ _ _ => inr (analyzerOf run)).

(** Construction fails with a configuration error for the first [n]
    attempts and succeeds afterwards; the user accepts every prompt. *)
Definition stubbornEnv (n : nat) : Env :=
  sampleEnv false (Some webRecommended) yes yes
    (fun h _ _ =>
       if bool_decide (length (attempts h) < n)%nat
       then inl (ConfigurationError "invalid configuration")
       else inr (analyzerOf (mkRun [] None))).

(** Construction fails with a configuration error however often it is tried. *)
Definition hopelessEnv : Env :=
  sampleEnv false (Some webRecommended) yes yes
    (fun _ _ _ => inl (ConfigurationError "invalid configuration")).

(** Construction fails with a configuration error every time and the user
    refuses the default configuration. *)
Definition refusingEnv : Env :=
  sampleEnv false (Some webRecommended) no no
    (fun _ _ _ => inl (ConfigurationError "invalid configuration")).

Definition finalWorld {A} (r : option (Completion A * World)) : World :=
  match r with
  | Some (_, w) => w
  | None => emptyWorld
  end.

Definition noOptions : CreateAnalyzerOptions := actionsToOptions noActions.

Definition oneErrorRun : EngineRun :=
  mkRun [TargetStart "https://example.com/" 100;
         TargetEnd "https://example.com/"
           [mkProblem Severity.warning "no viewport";
            mkProblem Severity.error "no doctype";
            mkProblem Severity.warning "no lang"] 160]
        None.

Definition problems_of (run : EngineRun) : list Problem :=
  flat_map (fun ev => match ev with TargetEnd _ ps _ => ps | _ => [] end) (events run).

Definition rejectedRun : EngineRun :=
  mkRun [TargetStart "https://example.com/" 100] (Some (OtherError "navigation failed")).

(** Construction fails with a hint error. *)
Definition invalidHintEnv : Env :=
  sampleEnv false (Some webRecommended) no no
    (fun _ _ _ => inl (HintError ["no-such-hint"] "invalid hint")).

Definition axeResources : HintResources := mkResources ["hint-axe"] ["connector-puppeteer"].

(** Construction fails with a resource error until something was installed;
    the user accepts and the installations succeed. *)
Definition missingPackageEnv : Env :=
  sampleEnv false (Some webRecommended) yes yes
    (fun h _ _ =>
       match installed h with
       | [] => inl (ResourceError axeResources "missing packages")
       | _ => inr (analyzerOf (mkRun [] None))
       end).

(** No configuration file is found. *)
Definition noConfigEnv : Env :=
  sampleEnv false None no no (fun _ _ _ => inr (analyzerOf (mkRun [] None))).

Definition mixedTargets : list URL := [fileUrl; webUrl].



Definition plainConfig : UserConfig :=
  mkConfig (Some ["defaults"]) (Some (ConnectorName "puppeteer"))
           (Some ["web-recommended"]) (Some ["html"])
           (Some (HintsObject {[ "axe" := HintWithOptions (SeverityName "error") JNull ]}))
           (Some 5000) None (Some "en") (Some ["html"]).


(** A later run of a user who opted in. *)
Definition optedInWorld : World := mkWorld {[ alreadyRunKey := true ]} (Some true) [].

(** Three targets: the first ends clean, the second with an error, the
    third clean again. *)
Definition errorInTheMiddleRun : EngineRun :=
  mkRun [TargetStart "https://a.example/" 100;
         TargetEnd "https://a.example/" [mkProblem Severity.warning "no lang"] 150;
         TargetStart "https://b.example/" 160;
         Update "fetching";
         TargetEnd "https://b.example/" [mkProblem Severity.error "no doctype"] 220;
         TargetStart "https://c.example/" 230;
         TargetEnd "https://c.example/" [] 290]
        None.

(** A session of the extension on an empty storage: the user opts in,
    analyzes, hits an error, opts out, looks at the tab, opts in again and
    finishes an analysis. *)
Definition sampleStatus : unit -> unit -> gmap string string :=
  fun _ _ => {[ "hint-axe" := "passed" ]}.

Definition freshClient : Extension.Client := Extension.mkClient false [] [].

Definition sampleError : Extension.ErrorData :=
  Extension.mkErrorData "boom" (Some "at /home/ada/site/index.js:1:1").

Definition sampleSession : list (Extension.Call unit unit) :=
  [Extension.CallEnable; Extension.CallStart; Extension.CallError sampleError;
   Extension.CallDisable; Extension.CallShow; Extension.CallEnable;
   Extension.CallFinish tt tt 1200].

(** A session in which telemetry is never enabled. *)
Definition quietSession : list (Extension.Call unit unit) :=
  [Extension.CallSetup; Extension.CallStart; Extension.CallError sampleError;
   Extension.CallCancel 300; Extension.CallDisable; Extension.CallTimeout 900].

(** A later run of a user who was never asked, and a user who agrees to
    whatever is asked. *)
Definition laterRunWorld : World := mkWorld {[ alreadyRunKey := true ]} None [].

Definition agreeingEnv : Env :=
  sampleEnv false (Some webRecommended) yes yes (fun _ _ _ => inr (analyzerOf (mkRun [] None))).

(** A connector given as an object without a name. *)
Definition namelessConnector : ConnectorConfig :=
  mkConnector "" (JObj [("userDataDir", JStr "/home/ada/profile")]).

Definition namelessConnectorConfig : UserConfig :=
  mkConfig None (Some (ConnectorObject namelessConnector)) (Some ["web-recommended"])
           None None None None None None.

(** ** Proof steps *)

(** Brings [since w (m w).2] to the list of effects [m] added. *)
Ltac since_simpl :=
  unfold since; cbn; rewrite <- ?app_assoc; rewrite ?drop_app_length; cbn.

Ltac adds_tac := first [ symmetry; apply app_nil_r | rewrite <- ?app_assoc; reflexivity ].

(** ** Properties *)

Section Properties.

Variable E : Env.

(** [since] recovers what a step added. *)
Lemma since_extends (w w' : World) (d : list Effect) :
  trace w' = (trace w ++ d)%list -> since w w' = d.
Proof. intros H. unfold since. rewrite H. apply drop_app_length. Qed.

Lemma since_refl (w : World) : since w w = [].
Proof. apply since_extends. by rewrite app_nil_r. Qed.

(** *** Telemetry gate *)

(** C6.  On a first run (the store has no true [run] entry) the gate sets
    the entry and asks nothing, whatever the telemetry consent is; whenever
    the gate does ask, the run is a later one and is not under CI (and
    consent was never recorded). *)
Theorem first_run_never_prompts (userConfig : UserConfig) (w : World) :
  let w' := (sendTelemetryIfEnabled E userConfig w).2 in
  (default false (configStore w !! alreadyRunKey) = false ->
     configStore w' !! alreadyRunKey = Some true /\ asked (since w w') = [])
  /\ (asked (since w w') <> [] ->
     configStore w !! alreadyRunKey = Some true /\ isCI E = false /\ insights w = None).
Proof.
  unfold sendTelemetryIfEnabled, askForTelemetryConfirmation, ask,
    appInsights_isConfigured, appInsights_isEnabled, appInsights_enable,
    appInsights_disable, configStore_get, configStore_set, trackEvent,
    showCITelemetryMessage, showTelemetryMessage, printFrame, history,
    when, emit, bind, ret.
  cbn.
  destruct (insights w) as [enabled|] eqn:Hi;
    destruct (configStore w !! alreadyRunKey) as [[]|] eqn:Hrun;
    destruct (isCI E) eqn:Hci; cbn.
  all: try destruct enabled; cbn.
  all: try destruct (askQuestion E _ _); cbn.
  all: split; [intros Hfirst | intros Hasked].
  all: try discriminate Hfirst.
  all: try (split; [apply lookup_insert_eq|]).
  all: revert Hasked || idtac.
  all: since_simpl.
  all: try congruence.
  all: auto.
Qed.

(** What the gate does, whatever the state: it returns, it reads the
    first-run marker once, and the only events it can track are the opt-in
    event and the run summary built from the pruned configuration. *)
Lemma sendTelemetryIfEnabled_spec (userConfig : UserConfig) (w : World) :
  exists d w',
    sendTelemetryIfEnabled E userConfig w = (Returned tt, w')
    /\ trace w' = (trace w ++ d)%list
    /\ gateReads d = 1%nat
    /\ Forall (fun np => np = ("cli-telemetry", NoProperties) \/
                         np = ("cli-analyze",
                               AnalyzeSummary (isCI E) (configStore w !! alreadyRunKey)
                                              (pruneUserConfig E userConfig)))
              (tracked d).
Proof.
  unfold sendTelemetryIfEnabled, askForTelemetryConfirmation, ask,
    appInsights_isConfigured, appInsights_isEnabled, appInsights_enable,
    appInsights_disable, configStore_get, configStore_set, trackEvent,
    showCITelemetryMessage, showTelemetryMessage, printFrame, history,
    when, emit, bind, ret.
  cbn.
  destruct (insights w) as [enabled|];
    destruct (configStore w !! alreadyRunKey) as [[]|];
    destruct (isCI E); cbn.
  all: try destruct enabled; cbn.
  all: try destruct (askQuestion E _ _); cbn.
  all: eexists _, _; split; [reflexivity|]; cbn.
  all: rewrite <- ?app_assoc; cbn.
  all: split; [reflexivity|]; cbn.
  all: split; [reflexivity|].
  all: repeat (apply Forall_cons_2; [by (left + right)|]).
  all: apply Forall_nil_2.
Qed.




(** *** Configuration resolver *)

Lemma anyFile_elem (targets : list URL) (t : URL) :
  t ∈ targets -> protocol t = "file:" -> anyFile targets = true.
Proof.
  intros Hin Hp. apply existsb_exists. exists t. split.
  - by apply list_elem_of_In.
  - unfold isFile. by apply bool_decide_eq_true.
Qed.

Lemma areFiles_elem (targets : list URL) (t : URL) :
  t ∈ targets -> protocol t <> "file:" -> areFiles targets = false.
Proof.
  intros Hin Hp. destruct (areFiles targets) eqn:Hall; [|done].
  unfold areFiles in Hall. rewrite forallb_forall in Hall.
  specialize (Hall t (proj1 (list_elem_of_In _ _) Hin)).
  unfold isFile in Hall. apply bool_decide_eq_true in Hall. done.
Qed.

(** C4, as the code has it.  When no user configuration is found, a target
    list with a [file:] target and a target of another scheme makes the
    resolver throw the usage error; all it has done by then is look for the
    configuration and print the default-configuration frame, and no preset
    has been chosen.  When a user configuration is found, the resolver
    returns it with its language set and the environment merged in, whatever
    the targets are, mixed ones included: it has only looked for the
    configuration, and the targets have no part in the result. *)
Theorem mixed_targets_rejected_before_default
    (actions : CLIOptions) (targets : list URL) (w : World) :
  (forall t1 t2,
     t1 ∈ targets -> t2 ∈ targets ->
     protocol t1 = "file:" -> protocol t2 <> "file:" ->
     getUserConfig E (cli_config actions) = inr None ->
     getDefaultConfiguration E targets w =
       (Thrown (OtherError mixedTargetsMessage),
        mkWorld (configStore w) (insights w) (trace w ++ [EPrintFrame DefaultMessage]))
     /\ loadUserConfig E actions targets w =
       (Thrown (OtherError mixedTargetsMessage),
        mkWorld (configStore w) (insights w)
                (trace w ++ [EGetUserConfig (cli_config actions); EPrintFrame DefaultMessage])))
  /\ (forall config,
        getUserConfig E (cli_config actions) = inr (Some config) ->
        loadUserConfig E actions targets w =
          (Returned (mergeEnvWithOptions E
                       (withLanguage config (languageFor E actions config))),
           mkWorld (configStore w) (insights w)
                   (trace w ++ [EGetUserConfig (cli_config actions)]))).
Proof.
  split.
  - intros t1 t2 H1 H2 Hf Hn Hcfg.
    pose proof (anyFile_elem _ _ H1 Hf) as Hany.
    pose proof (areFiles_elem _ _ H2 Hn) as Hall.
    unfold loadUserConfig, getDefaultConfiguration, showDefaultMessage, printFrame,
      emit, bind, throw.
    rewrite Hcfg, Hall, Hany. cbn. rewrite <- app_assoc. done.
  - intros config Hcfg.
    unfold loadUserConfig, getLanguage, languageFor, emit, bind, ret.
    rewrite Hcfg. cbn.
    destruct (truthy (cli_language actions)); [done|].
    by destruct (truthy (language config)).
Qed.

(** *** Top level *)

Lemma zero_targets_no_effects_eq (fuel : nat) (actions : CLIOptions) (w : World) :
  getAsUris E (cli_targets actions) = [] ->
  analyze E fuel actions w = Some (Returned false, w).
Proof. intros H. unfold analyze. by rewrite H. Qed.

(** C9.  With no target the run returns false at once and the world is what
    it was: nothing was loaded, asked, constructed, tracked or stored. *)
Theorem zero_targets_no_effects (fuel : nat) (actions : CLIOptions) (w : World) :
  getAsUris E (cli_targets actions) = [] ->
  analyze E fuel actions w = Some (Returned false, w).
Proof. intros H. unfold analyze. by rewrite H. Qed.

(** *** Analyzer bootstrap *)

Lemma attempts_app (a b : list Effect) : attempts (a ++ b) = (attempts a ++ attempts b)%list.
Proof. apply omap_app. Qed.

Lemma asked_app (a b : list Effect) : asked (a ++ b) = (asked a ++ asked b)%list.
Proof. apply omap_app. Qed.

Lemma tracked_app (a b : list Effect) : tracked (a ++ b) = (tracked a ++ tracked b)%list.
Proof. apply omap_app. Qed.

Lemma storeAccesses_app (a b : list Effect) :
  storeAccesses (a ++ b) = (storeAccesses a ++ storeAccesses b)%list.
Proof. apply List.filter_app. Qed.

(** Steps compose. *)
Lemma adds_trans (w w1 w2 : World) (d1 d2 : list Effect) :
  adds w w1 d1 -> adds w1 w2 d2 -> adds w w2 (d1 ++ d2).
Proof.
  intros (Ht1 & Hs1 & Hi1) (Ht2 & Hs2 & Hi2). repeat split.
  - by rewrite Ht2, Ht1, app_assoc.
  - congruence.
  - congruence.
Qed.

(** One resource recovery: the announcement, then the question and the
    installations; the result is true when the answer and both results are. *)
Lemma askToInstallPackages_spec (resources : HintResources) (w : World) :
  exists (accepted ok1 ok2 : bool) (w1 : World),
    askToInstallPackages E resources w = (Returned (accepted && ok1 && ok2), w1)
    /\ adds w w1 (announcement resources ++ installation resources accepted ok1 ok2).
Proof.
  unfold askToInstallPackages, askUserToInstallDependencies,
    showMissingAndIncompatiblePackages, announcement, installation,
    andM, install, ask, trackEvent, logger_log, history, when, emit, bind, ret, adds.
  destruct (nonEmpty (missing resources)), (nonEmpty (incompatible resources)); cbn.
  all: destruct (askQuestion E _ _) eqn:Ha; cbn;
    [destruct (installPackages E _ (missingPackages resources)) eqn:H1; cbn;
      [destruct (installPackages E _ (incompatiblePackages resources)) eqn:H2; cbn|]|].
  all: first
    [ solve [exists true, true, true; eexists; cbn; rewrite <- ?app_assoc; cbn; done]
    | solve [exists true, true, false; eexists; cbn; rewrite <- ?app_assoc; cbn; done]
    | solve [exists true, false, false; eexists; cbn; rewrite <- ?app_assoc; cbn; done]
    | solve [exists false, false, false; eexists; cbn; rewrite <- ?app_assoc; cbn; done] ].
Qed.

(** The same, with the answers named by the collaborators that give them. *)
Lemma askToInstallPackages_eq (resources : HintResources) (w : World) :
  askToInstallPackages E resources w =
    (Returned (installAccepted E resources (trace w)
               && missingInstalled E resources (trace w)
               && incompatibleInstalled E resources (trace w)),
     mkWorld (configStore w) (insights w)
             (trace w ++ announcement resources ++
                installation resources
                  (installAccepted E resources (trace w))
                  (missingInstalled E resources (trace w))
                  (incompatibleInstalled E resources (trace w)))).
Proof.
  unfold askToInstallPackages, askUserToInstallDependencies,
    showMissingAndIncompatiblePackages, installAccepted, missingInstalled,
    incompatibleInstalled, installQuestion, announcement, installation,
    andM, install, ask, trackEvent, logger_log, history, when, emit, bind, ret.
  destruct (nonEmpty (missing resources)), (nonEmpty (incompatible resources)); cbn.
  all: rewrite <- ?app_assoc, ?app_nil_r; cbn.
  all: destruct (askQuestion E _ _) eqn:Ha; cbn;
    rewrite <- ?app_assoc, ?app_nil_r; cbn; [|done].
  all: destruct (installPackages E _ (missingPackages resources)) eqn:H1; cbn;
    rewrite <- ?app_assoc; cbn; [|done].
  all: destruct (installPackages E _ (incompatiblePackages resources)) eqn:H2; cbn;
    rewrite <- ?app_assoc; cbn; done.
Qed.

(** One configuration recovery asks one question, builds no analyzer and
    stays away from the store and from telemetry. *)
Lemma askUserToUseDefaultConfiguration_spec (targets : list URL) (w : World) :
  exists (r : Completion (option UserConfig)) (w1 : World) (d : list Effect),
    askUserToUseDefaultConfiguration E targets w = (r, w1)
    /\ adds w w1 d
    /\ asked d = [DefaultConfigurationQuestion]
    /\ attempts d = [] /\ storeAccesses d = [] /\ tracked d = [].
Proof.
  unfold askUserToUseDefaultConfiguration, getDefaultConfiguration,
    showDefaultMessage, printFrame, ask, history, emit, bind, ret, throw, adds.
  cbn. destruct (askQuestion E _ _); cbn.
  - destruct (negb (areFiles targets) && anyFile targets); cbn;
      eexists _, _, _; (split; [reflexivity|]); cbn; rewrite <- ?app_assoc; cbn; done.
  - eexists _, _, _; (split; [reflexivity|]); cbn; done.
Qed.

(** A resource recovery asks one question and builds no analyzer. *)
Lemma installation_counts (resources : HintResources) (accepted ok1 ok2 : bool) :
  let d := (announcement resources ++ installation resources accepted ok1 ok2)%list in
  asked d = [InstallQuestion (incompatible resources ++ missing resources)]
  /\ attempts d = [] /\ storeAccesses d = [].
Proof.
  unfold announcement, installation.
  destruct (nonEmpty (missing resources)), (nonEmpty (incompatible resources)),
    accepted, ok1; cbn; done.
Qed.

(** The history a bootstrap leaves when it ends.  Every attempt is one call
    of [createAnalyzer]; every attempt but the last was followed by one
    question, and the last by at most one. *)
Lemma getAnalyzer_history (options : CreateAnalyzerOptions) (targets : list URL) (fuel : nat) :
  forall (userConfig : UserConfig) (w : World) (r : Completion Analyzer) (w' : World),
    getAnalyzer E fuel userConfig options targets w = Some (r, w') ->
    exists d,
      adds w w' d
      /\ storeAccesses d = []
      /\ (1 <= length (attempts d) <= fuel)%nat
      /\ (length (asked d) <= length (attempts d) <= S (length (asked d)))%nat
      /\ (forall a, r = Returned a -> length (attempts d) = S (length (asked d))).
Proof.
  induction fuel as [|fuel IH]; intros userConfig w r w' H; [discriminate|].
  cbn [getAnalyzer] in H.
  set (w0 := mkWorld (configStore w) (insights w)
                     (trace w ++ [ECreateAnalyzer userConfig options])) in H.
  assert (adds w w0 [ECreateAnalyzer userConfig options]) as Hw0 by done.
  destruct (createAnalyzer E (trace w) userConfig options) as [e|webhint].
  - destruct e as [msg|resources msg|invalid msg|msg|msg].
    + destruct (askUserToUseDefaultConfiguration_spec targets w0)
        as (r0 & w1 & d0 & Heq & Hadds & Hasked & Hatt & Hst & _).
      rewrite Heq in H.
      pose proof (adds_trans _ _ _ _ _ Hw0 Hadds) as Hw1.
      destruct r0 as [[config|]|e'].
      * apply IH in H as (d & Hd & Hs & Hn & Hq & Hr).
        exists (([ECreateAnalyzer userConfig options] ++ d0) ++ d)%list.
        split; [by eapply adds_trans|].
        rewrite !storeAccesses_app, !attempts_app, !asked_app, !length_app.
        rewrite Hasked, Hatt, Hst, Hs. cbn.
        repeat split; try lia. intros a Ha. specialize (Hr a Ha). lia.
      * injection H as <- <-.
        exists ([ECreateAnalyzer userConfig options] ++ d0)%list.
        split; [done|].
        rewrite !storeAccesses_app, !attempts_app, !asked_app, !length_app.
        rewrite Hasked, Hatt, Hst. cbn. repeat split; try lia; try discriminate.
      * injection H as <- <-.
        exists ([ECreateAnalyzer userConfig options] ++ d0)%list.
        split; [done|].
        rewrite !storeAccesses_app, !attempts_app, !asked_app, !length_app.
        rewrite Hasked, Hatt, Hst. cbn. repeat split; try lia; try discriminate.
    + destruct (askToInstallPackages_spec resources w0)
        as (accepted & ok1 & ok2 & w1 & Heq & Hadds).
      destruct (installation_counts resources accepted ok1 ok2) as (Hasked & Hatt & Hst).
      remember (announcement resources ++ installation resources accepted ok1 ok2)%list
        as d0 eqn:Hd0.
      rewrite Heq in H.
      pose proof (adds_trans _ _ _ _ _ Hw0 Hadds) as Hw1.
      destruct (accepted && ok1 && ok2).
      * apply IH in H as (d & Hd & Hs & Hn & Hq & Hr).
        exists (([ECreateAnalyzer userConfig options] ++ d0) ++ d)%list.
        split; [by eapply adds_trans|].
        rewrite !storeAccesses_app, !attempts_app, !asked_app, !length_app.
        rewrite Hasked, Hatt, Hst, Hs. cbn.
        repeat split; try lia. intros a Ha. specialize (Hr a Ha). lia.
      * injection H as <- <-.
        exists ([ECreateAnalyzer userConfig options] ++ d0)%list.
        split; [done|].
        rewrite !storeAccesses_app, !attempts_app, !asked_app, !length_app.
        rewrite Hasked, Hatt, Hst. cbn. repeat split; try lia; try discriminate.
    + injection H as <- <-.
      exists [ECreateAnalyzer userConfig options; ELogError (InvalidHintsLine invalid)].
      unfold adds. cbn. rewrite <- app_assoc. repeat split; try lia; try discriminate.
    + injection H as <- <-.
      exists [ECreateAnalyzer userConfig options; ELogError InvalidConnectorLine].
      unfold adds. cbn. rewrite <- app_assoc. repeat split; try lia; try discriminate.
    + injection H as <- <-.
      exists [ECreateAnalyzer userConfig options; ELogError (ErrorLine msg)].
      unfold adds. cbn. rewrite <- app_assoc. repeat split; try lia; try discriminate.
  - injection H as <- <-.
    exists [ECreateAnalyzer userConfig options].
    split; [done|]. cbn. repeat split; lia.
Qed.

(** More fuel does not change what a bootstrap that ended has done. *)
Lemma getAnalyzer_more_fuel (options : CreateAnalyzerOptions) (targets : list URL) (fuel : nat) :
  forall (userConfig : UserConfig) (w : World) (res : Completion Analyzer * World) (more : nat),
    getAnalyzer E fuel userConfig options targets w = Some res ->
    getAnalyzer E (fuel + more) userConfig options targets w = Some res.
Proof.
  induction fuel as [|fuel IH]; intros userConfig w res more H; [discriminate|].
  cbn [getAnalyzer Nat.add] in *.
  destruct (createAnalyzer E (trace w) userConfig options) as [[]|]; try done.
  - destruct (askUserToUseDefaultConfiguration E targets _) as [[[config|]|e'] w1]; auto.
  - destruct (askToInstallPackages E resources _) as [[[]|e'] w1]; auto.
Qed.


(** A bootstrap ends once construction has stopped failing in a way it
    recovers from: if that is so from the [n]-th attempt on, [n] attempts
    and one more are enough. *)
Lemma getAnalyzer_terminates (options : CreateAnalyzerOptions) (targets : list URL) (n : nat) :
  (forall h c, (n <= length (attempts h))%nat ->
               recoverable (createAnalyzer E h c options) = false) ->
  forall (fuel : nat) (userConfig : UserConfig) (w : World),
    (n <= length (attempts (trace w)) + fuel)%nat ->
    is_Some (getAnalyzer E (S fuel) userConfig options targets w).
Proof.
  intros Hstop. induction fuel as [|fuel IH]; intros userConfig w Hn.
  - specialize (Hstop (trace w) userConfig ltac:(lia)).
    cbn [getAnalyzer].
    destruct (createAnalyzer E (trace w) userConfig options) as [[]|]; try discriminate Hstop;
      cbn; eauto.
  - cbn [getAnalyzer].
    set (w0 := mkWorld (configStore w) (insights w)
                       (trace w ++ [ECreateAnalyzer userConfig options])).
    destruct (createAnalyzer E (trace w) userConfig options)
      as [[msg|resources msg|invalid msg|msg|msg]|webhint]; try (cbn; by eauto).
    + destruct (askUserToUseDefaultConfiguration_spec targets w0)
        as (r0 & w1 & d0 & Heq & (Ht & _ & _) & _ & Hatt & _).
      rewrite Heq. destruct r0 as [[config|]|e']; try by eauto.
      apply IH. rewrite Ht. cbn [trace w0]. rewrite !attempts_app, Hatt, !length_app. cbn. lia.
    + destruct (askToInstallPackages_spec resources w0)
        as (accepted & ok1 & ok2 & w1 & Heq & Hadds).
      destruct (installation_counts resources accepted ok1 ok2) as (_ & Hatt & _).
      remember (announcement resources ++ installation resources accepted ok1 ok2)%list
        as d0 eqn:Hd0.
      destruct Hadds as (Ht & _ & _).
      rewrite Heq. destruct (accepted && ok1 && ok2); [|by eauto].
      apply IH. rewrite Ht. cbn [trace w0]. rewrite !attempts_app, Hatt, !length_app. cbn. lia.
Qed.

Lemma attempts_cons (c : UserConfig) (options : CreateAnalyzerOptions) (d : list Effect) :
  attempts (ECreateAnalyzer c options :: d) = c :: attempts d.
Proof. reflexivity. Qed.

Lemma asked_cons (c : UserConfig) (options : CreateAnalyzerOptions) (d : list Effect) :
  asked (ECreateAnalyzer c options :: d) = asked d.
Proof. reflexivity. Qed.

(** An attempt that is recovered is followed by the next one, made where
    [retry] says, after one question. *)
Lemma getAnalyzer_retry (options : CreateAnalyzerOptions) (targets : list URL)
    (userConfig : UserConfig) (w : World) :
  recovered E options targets (trace w) userConfig = true ->
  (forall fuel,
     getAnalyzer E (S fuel) userConfig options targets w
     = getAnalyzer E fuel (retry E options targets userConfig w).1 options targets
                   (retry E options targets userConfig w).2)
  /\ exists d,
       adds w (retry E options targets userConfig w).2
            (ECreateAnalyzer userConfig options :: d)
       /\ attempts d = [] /\ length (asked d) = 1%nat.
Proof.
  unfold recovered, retry. intros Hrec.
  destruct (createAnalyzer E (trace w) userConfig options)
    as [[msg|resources msg|invalid msg|msg|msg]|webhint] eqn:Hcreate; try discriminate Hrec.
  - apply andb_prop in Hrec as [Hyes Hsame]. apply negb_true_iff in Hsame.
    split.
    + intros fuel. cbn [getAnalyzer]. rewrite Hcreate.
      unfold askUserToUseDefaultConfiguration, getDefaultConfiguration, defaultFor,
        showDefaultMessage, printFrame, ask, history, emit, bind, ret, throw.
      cbn. rewrite Hyes. cbn. rewrite Hsame. cbn. rewrite <- !app_assoc. cbn.
      by destruct (isCI E).
    + exists [EAsk DefaultConfigurationQuestion true; EPrintFrame DefaultMessage].
      cbn. done.
  - apply andb_prop in Hrec as [Hrec Hok2]. apply andb_prop in Hrec as [Hyes Hok1].
    split.
    + intros fuel. cbn [getAnalyzer]. rewrite Hcreate, askToInstallPackages_eq.
      cbn [trace configStore insights]. rewrite Hyes, Hok1, Hok2. cbn [andb fst snd].
      by rewrite <- app_assoc.
    + exists (announcement resources ++ installation resources true true true)%list.
      split; [done|].
      destruct (installation_counts resources true true true) as (Hasked & Hatt & _).
      by rewrite Hasked, Hatt.
Qed.

(** An attempt that is not recovered is the last one: the bootstrap ends
    with it, whatever fuel is left, after at most one question. *)
Lemma getAnalyzer_last (options : CreateAnalyzerOptions) (targets : list URL)
    (userConfig : UserConfig) (w : World) :
  recovered E options targets (trace w) userConfig = false ->
  exists r w' d,
    (forall fuel, getAnalyzer E (S fuel) userConfig options targets w = Some (r, w'))
    /\ adds w w' (ECreateAnalyzer userConfig options :: d)
    /\ attempts d = [] /\ (length (asked d) <= 1)%nat.
Proof.
  unfold recovered. intros Hrec.
  destruct (createAnalyzer E (trace w) userConfig options)
    as [[msg|resources msg|invalid msg|msg|msg]|webhint] eqn:Hcreate.
  - destruct (askQuestion E (trace w ++ [ECreateAnalyzer userConfig options])
                DefaultConfigurationQuestion) eqn:Hyes.
    + cbn in Hrec. apply negb_false_iff in Hrec.
      eexists _, _, [EAsk DefaultConfigurationQuestion true; EPrintFrame DefaultMessage].
      split.
      { intros fuel. cbn [getAnalyzer]. rewrite Hcreate.
      unfold askUserToUseDefaultConfiguration, getDefaultConfiguration,
        showDefaultMessage, printFrame, ask, history, emit, bind, ret, throw.
      cbn. rewrite Hyes. cbn. rewrite Hrec. cbn. rewrite <- !app_assoc. cbn. reflexivity. }
      cbn. split; [done|]. split; [done|lia].
    + eexists _, _, [EAsk DefaultConfigurationQuestion false].
      split.
      { intros fuel. cbn [getAnalyzer]. rewrite Hcreate.
      unfold askUserToUseDefaultConfiguration, ask, history, emit, bind, ret.
      cbn. rewrite Hyes. cbn. rewrite <- !app_assoc. cbn. reflexivity. }
      cbn. split; [done|]. split; [done|lia].
  - eexists _, _, (announcement resources ++
                   installation resources
                     (installAccepted E resources (trace w ++ [ECreateAnalyzer userConfig options]))
                     (missingInstalled E resources (trace w ++ [ECreateAnalyzer userConfig options]))
                     (incompatibleInstalled E resources
                        (trace w ++ [ECreateAnalyzer userConfig options])))%list.
    split; [|split; [|split]].
    + intros fuel. cbn [getAnalyzer]. rewrite Hcreate, askToInstallPackages_eq.
      cbn [trace configStore insights]. rewrite Hrec. rewrite <- app_assoc. reflexivity.
    + done.
    + by destruct (installation_counts resources
                     (installAccepted E resources (trace w ++ [ECreateAnalyzer userConfig options]))
                     (missingInstalled E resources (trace w ++ [ECreateAnalyzer userConfig options]))
                     (incompatibleInstalled E resources
                        (trace w ++ [ECreateAnalyzer userConfig options])))
        as (_ & Hatt & _).
    + destruct (installation_counts resources
                  (installAccepted E resources (trace w ++ [ECreateAnalyzer userConfig options]))
                  (missingInstalled E resources (trace w ++ [ECreateAnalyzer userConfig options]))
                  (incompatibleInstalled E resources
                     (trace w ++ [ECreateAnalyzer userConfig options])))
        as (Hasked & _). rewrite Hasked. cbn. lia.
  - eexists _, _, [ELogError (InvalidHintsLine invalid)].
    split.
    { intros fuel. cbn [getAnalyzer]. rewrite Hcreate.
    unfold logger_error, emit, bind, throw. cbn. rewrite <- app_assoc. reflexivity. }
    cbn. split; [done|]. split; [done|lia].
  - eexists _, _, [ELogError InvalidConnectorLine].
    split.
    { intros fuel. cbn [getAnalyzer]. rewrite Hcreate.
    unfold logger_error, emit, bind, throw. cbn. rewrite <- app_assoc. reflexivity. }
    cbn. split; [done|]. split; [done|lia].
  - eexists _, _, [ELogError (ErrorLine msg)].
    split.
    { intros fuel. cbn [getAnalyzer]. rewrite Hcreate.
    unfold logger_error, emit, bind, throw. cbn. rewrite <- app_assoc. reflexivity. }
    cbn. split; [done|]. split; [done|lia].
  - eexists _, _, [].
    split.
    { intros fuel. cbn [getAnalyzer]. rewrite Hcreate. reflexivity. }
    cbn. split; [done|]. split; [done|lia].
Qed.

(** After [n] recovered attempts and one that is not, the bootstrap has
    ended: with fuel for [n] attempts and one more, not with less. *)
Lemma afterRetries_ends (options : CreateAnalyzerOptions) (targets : list URL) (n : nat) :
  forall (userConfig : UserConfig) (w : World) (c' : UserConfig) (w' : World),
    afterRetries E options targets n userConfig w = Some (c', w') ->
    recovered E options targets (trace w') c' = false ->
    exists r w'',
      (forall more,
         getAnalyzer E (S n + more) userConfig options targets w = Some (r, w''))
      /\ getAnalyzer E n userConfig options targets w = None
      /\ length (attempts (since w w'')) = S n
      /\ (n <= length (asked (since w w'')) <= S n)%nat.
Proof.
  induction n as [|n IH]; intros userConfig w c' w' Hafter Hlast.
  - injection Hafter as <- <-.
    destruct (getAnalyzer_last options targets userConfig w Hlast)
      as (r & w'' & d & Hrun & (Ht & _ & _) & Hatt & Hasked).
    exists r, w''. split; [intros more; apply Hrun|]. split; [done|].
    rewrite (since_extends _ _ _ Ht), attempts_cons, asked_cons, Hatt.
    cbn [length]. split; [done|lia].
  - cbn [afterRetries] in Hafter.
    destruct (recovered E options targets (trace w) userConfig) eqn:Hrec; [|discriminate].
    destruct (getAnalyzer_retry options targets userConfig w Hrec)
      as (Hstep & d & (Ht & _ & _) & Hatt & Hasked).
    destruct (IH _ _ _ _ Hafter Hlast) as (r & w'' & Hrun & Hshort & Hn & Hq).
    exists r, w''.
    split; [intros more; cbn [Nat.add]; rewrite Hstep; apply Hrun|].
    split; [by rewrite Hstep|].
    destruct (getAnalyzer_history options targets _ _ _ _ _ (Hrun 0%nat))
      as (d' & (Ht' & _ & _) & _).
    rewrite (since_extends _ _ _ Ht') in Hn, Hq.
    rewrite (since_extends w w'' ((ECreateAnalyzer userConfig options :: d) ++ d')%list)
      by (by rewrite Ht', Ht, app_assoc).
    rewrite attempts_app, asked_app, attempts_cons, asked_cons, !length_app, Hatt.
    cbn [length]. lia.
Qed.

(** When every attempt is recovered the bootstrap does not end. *)
Lemma afterRetries_forever (options : CreateAnalyzerOptions) (targets : list URL)
    (fuel : nat) :
  forall (userConfig : UserConfig) (w : World),
    (forall n, is_Some (afterRetries E options targets n userConfig w)) ->
    getAnalyzer E fuel userConfig options targets w = None.
Proof.
  induction fuel as [|fuel IH]; intros userConfig w Hall; [done|].
  pose proof (Hall 1%nat) as Hfirst. cbn [afterRetries] in Hfirst.
  destruct (recovered E options targets (trace w) userConfig) eqn:Hrec;
    [|by destruct Hfirst].
  destruct (getAnalyzer_retry options targets userConfig w Hrec) as (Hstep & _).
  rewrite Hstep. apply IH. intros n. specialize (Hall (S n)).
  cbn [afterRetries] in Hall. by rewrite Hrec in Hall.
Qed.

(** C2, as the code has it.  An attempt is recovered when construction
    fails with a configuration error and the user accepts the default
    configuration (for targets that are not mixed), or fails with a resource
    error and the user accepts the installation and both installations
    succeed.  A recovered attempt is followed, after its one question, by
    exactly one new attempt; any other attempt is the last.  So after [n]
    recovered attempts and one that is not, the bootstrap has ended with
    [n + 1] calls of [createAnalyzer], and it cannot end with fewer; when
    every attempt is recovered it never ends: the code has no bound of its
    own.  A bootstrap that ends has asked one question after every call but
    possibly the last, and more fuel does not change its result.  After a
    configuration error recovered with the default configuration, the next
    attempt uses that configuration, and when it succeeds nothing more is
    asked. *)
Theorem bootstrap_one_retry_per_recovery
    (options : CreateAnalyzerOptions) (targets : list URL) :
  (forall (fuel : nat) (userConfig : UserConfig) (w : World),
     recovered E options targets (trace w) userConfig = true ->
     getAnalyzer E (S fuel) userConfig options targets w
       = getAnalyzer E fuel (retry E options targets userConfig w).1 options targets
                     (retry E options targets userConfig w).2
     /\ attempts (since w (retry E options targets userConfig w).2) = [userConfig]
     /\ length (asked (since w (retry E options targets userConfig w).2)) = 1%nat)
  /\ (forall (n : nat) (userConfig : UserConfig) (w : World) (c' : UserConfig) (w' : World),
        afterRetries E options targets n userConfig w = Some (c', w') ->
        recovered E options targets (trace w') c' = false ->
        exists r w'',
          (forall more,
             getAnalyzer E (S n + more) userConfig options targets w = Some (r, w''))
          /\ getAnalyzer E n userConfig options targets w = None
          /\ length (attempts (since w w'')) = S n
          /\ (n <= length (asked (since w w'')) <= S n)%nat)
  /\ (forall (userConfig : UserConfig) (w : World),
        (forall n, is_Some (afterRetries E options targets n userConfig w)) ->
        forall fuel, getAnalyzer E fuel userConfig options targets w = None)
  /\ forall (fuel : nat) (userConfig : UserConfig) (w : World)
            (r : Completion Analyzer) (w' : World),
       getAnalyzer E fuel userConfig options targets w = Some (r, w') ->
       (1 <= length (attempts (since w w')) <= fuel)%nat
       /\ (length (asked (since w w')) <= length (attempts (since w w'))
           <= S (length (asked (since w w'))))%nat
       /\ (forall a, r = Returned a ->
             length (attempts (since w w')) = S (length (asked (since w w'))))
       /\ (forall more,
             getAnalyzer E (fuel + more) userConfig options targets w = Some (r, w'))
       /\ (forall msg config w1 webhint,
             createAnalyzer E (trace w) userConfig options = inl (ConfigurationError msg) ->
             askUserToUseDefaultConfiguration E targets
               (mkWorld (configStore w) (insights w)
                        (trace w ++ [ECreateAnalyzer userConfig options]))
               = (Returned (Some config), w1) ->
             createAnalyzer E (trace w1) config options = inr webhint ->
             r = Returned webhint
             /\ attempts (since w w') = [userConfig; config]
             /\ asked (since w w') = [DefaultConfigurationQuestion]).
Proof.
  split.
  { intros fuel userConfig w Hrec.
    destruct (getAnalyzer_retry options targets userConfig w Hrec)
      as (Hstep & d & (Ht & _ & _) & Hatt & Hasked).
    split; [apply Hstep|].
    by rewrite (since_extends _ _ _ Ht), attempts_cons, asked_cons, Hatt, Hasked. }
  split; [intros n; apply afterRetries_ends|].
  split; [intros userConfig w Hall fuel; by apply afterRetries_forever|].
  intros fuel userConfig w r w' H.
  destruct (getAnalyzer_history _ _ _ _ _ _ _ H) as (d & (Ht & _ & _) & _ & Hn & Hq & Hr).
  rewrite (since_extends _ _ _ Ht).
  split; [lia|]. split; [lia|]. split; [exact Hr|].
  split; [intros more; by apply getAnalyzer_more_fuel|].
  intros msg config w1 webhint Hcreate Hask Hretry.
  destruct (askUserToUseDefaultConfiguration_spec targets
              (mkWorld (configStore w) (insights w)
                       (trace w ++ [ECreateAnalyzer userConfig options])))
    as (r0 & w1' & d0 & Heq & (Ht0 & _ & _) & Hasked & Hatt & _).
  rewrite Hask in Heq. injection Heq as <- <-.
  destruct fuel as [|[|fuel]]; [discriminate| |];
    cbn [getAnalyzer] in H; rewrite Hcreate, Hask in H; [discriminate|].
  cbn [getAnalyzer] in H. rewrite Hretry in H. injection H as <- <-.
  cbn [trace] in Ht. rewrite Ht0 in Ht. cbn [trace] in Ht.
  rewrite <- !app_assoc in Ht. apply app_inv_head in Ht. subst d.
  rewrite !attempts_app, !asked_app, Hatt, Hasked. done.
Qed.

(** *** Run and progress reporter *)

Lemma gateReads_app (a b : list Effect) : gateReads (a ++ b) = (gateReads a + gateReads b)%nat.
Proof. unfold gateReads. by rewrite List.filter_app, length_app. Qed.

Lemma spinnerCalls_app (a b : list Effect) :
  spinnerCalls (a ++ b) = (spinnerCalls a ++ spinnerCalls b)%list.
Proof. apply List.filter_app. Qed.

Lemma reports_app (a b : list Effect) : reports (a ++ b) = (reports a ++ reports b)%list.
Proof. apply omap_app. Qed.

(** One callback: it returns, stays away from the store and from telemetry,
    touches the spinner only outside debug mode, raises the exit code on a
    finding of severity [error], and keeps the start-time map in step with
    the events seen. *)
Lemma callback_spec (actions : CLIOptions) (userConfig : UserConfig) (webhint : Analyzer)
    (st : ReporterState) (ev : EngineEvent) (w : World) :
  exists st' w' d,
    callback E actions userConfig webhint st ev w = (Returned st', w')
    /\ adds w w' d
    /\ storeAccesses d = [] /\ tracked d = [] /\ gateReads d = 0%nat
    /\ (cli_debug actions = true -> spinnerCalls d = [])
    /\ exitCode st' = (if endsWithError ev then 1 else exitCode st)
    /\ (forall past, (forall url, scanStart st !! url = ownStart url past) ->
          reports d = expectedReports past [ev]
          /\ forall url, scanStart st' !! url = ownStart url (ev :: past)).
Proof.
  destruct ev as [url now|msg|url problems now]; cbn;
    unfold targetStartCallback, updateCallback, targetEndCallback, endSpinner, print,
      when, emit, bind, ret; cbn.
  - destruct (cli_debug actions); cbn.
    all: eexists _, _, _; (split; [reflexivity|]).
    all: split; [unfold adds; cbn; split; [adds_tac | done] |]; cbn.
    all: do 5 (split; [done|]).
    all: intros past Hpast; split; [done|].
    all: intros url'; cbn; rewrite lookup_insert.
    all: destruct (decide (url = url')); [done | apply Hpast].
  - destruct (cli_debug actions); cbn.
    all: eexists _, _, _; (split; [reflexivity|]).
    all: split; [unfold adds; cbn; split; [adds_tac | done] |]; cbn.
    all: do 5 (split; [done|]).
    all: intros past Hpast; split; [done | apply Hpast].
  - destruct (cli_debug actions), (hasError problems); cbn.
    all: try destruct (bool_decide (exitCode st = 0)); cbn.
    all: eexists _, _, _; (split; [reflexivity|]).
    all: split; [unfold adds; cbn; split; [adds_tac | done] |]; cbn.
    all: do 5 (split; [done|]).
    all: intros past Hpast; split; [by rewrite Hpast | apply Hpast].
Qed.

(** The same for all the callbacks of a run. *)
Lemma deliver_spec (actions : CLIOptions) (userConfig : UserConfig) (webhint : Analyzer)
    (evs : list EngineEvent) :
  forall (st : ReporterState) (w : World),
  exists st' w' d,
    deliver E actions userConfig webhint evs st w = (Returned st', w')
    /\ adds w w' d
    /\ storeAccesses d = [] /\ tracked d = [] /\ gateReads d = 0%nat
    /\ (cli_debug actions = true -> spinnerCalls d = [])
    /\ exitCode st' = (if existsb endsWithError evs then 1 else exitCode st)
    /\ (forall past, (forall url, scanStart st !! url = ownStart url past) ->
          reports d = expectedReports past evs).
Proof.
  induction evs as [|ev evs IH]; intros st w.
  - exists st, w, []. cbn. repeat split; try done. unfold adds. by rewrite app_nil_r.
  - destruct (callback_spec actions userConfig webhint st ev w)
      as (st1 & w1 & d1 & Heq1 & Hadds1 & Hs1 & Ht1 & Hg1 & Hsp1 & He1 & Hr1).
    destruct (IH st1 w1) as (st2 & w2 & d2 & Heq2 & Hadds2 & Hs2 & Ht2 & Hg2 & Hsp2 & He2 & Hr2).
    exists st2, w2, (d1 ++ d2)%list.
    split; [cbn [deliver]; unfold bind; by rewrite Heq1|].
    split; [by eapply adds_trans|].
    rewrite storeAccesses_app, tracked_app, gateReads_app, spinnerCalls_app, Hs1, Hs2, Ht1, Ht2, Hg1, Hg2.
    do 3 (split; [done|]).
    split; [intros Hd; by rewrite Hsp1, Hsp2|].
    split.
    + rewrite He2, He1. cbn [existsb]. by destruct (endsWithError ev), (existsb endsWithError evs).
    + intros past Hpast. destruct (Hr1 past Hpast) as [Hrep Hnext].
      rewrite reports_app, Hrep, (Hr2 _ Hnext). cbn [expectedReports]. by rewrite app_nil_r.
Qed.

(** C7.  The reporter hands the formatter, for every end event, the time
    elapsed since the start recorded for that very URL (zero when none was
    recorded), whatever the order in which targets start and end.  With two
    distinct targets [a] and [b] that end in the order [b], [a], each report
    is timed from its own start. *)
Theorem reporter_times_each_target_by_its_own_start
    (actions : CLIOptions) (userConfig : UserConfig) (webhint : Analyzer) (w : World) :
  (forall evs,
     reports (since w (deliver E actions userConfig webhint evs (mkReporter ∅ 0) w).2)
     = expectedReports [] evs)
  /\ (forall (a b : string) (ta tb ea eb : Z) (pa pb : list Problem),
        a <> b ->
        reports (since w (deliver E actions userConfig webhint
                            [TargetStart a ta; TargetStart b tb;
                             TargetEnd b pb eb; TargetEnd a pa ea]
                            (mkReporter ∅ 0) w).2)
        = [(b, eb - tb, tb); (a, ea - ta, ta)]).
Proof.
  assert (forall evs,
     reports (since w (deliver E actions userConfig webhint evs (mkReporter ∅ 0) w).2)
     = expectedReports [] evs) as Hall.
  { intros evs.
    destruct (deliver_spec actions userConfig webhint evs (mkReporter ∅ 0) w)
      as (st' & w' & d & Heq & (Ht & _) & _ & _ & _ & _ & _ & Hrep).
    rewrite Heq. cbn [snd]. rewrite (since_extends _ _ _ Ht).
    apply Hrep. intros url. cbn. apply lookup_empty. }
  split; [exact Hall|].
  intros a b ta tb ea eb pa pb Hab. rewrite Hall. cbn.
  destruct (decide (b = b)) as [_|]; [|done].
  destruct (decide (b = a)) as [->|_]; [done|].
  destruct (decide (a = a)) as [_|]; [|done].
  done.
Qed.

(** [hasError] on the end events, in words. *)
Lemma existsb_endsWithError (evs : list EngineEvent) :
  existsb endsWithError evs = true <->
  exists url problems t p,
    TargetEnd url problems t ∈ evs /\ p ∈ problems /\ severity p = Severity.error.
Proof.
  rewrite existsb_exists. split.
  - intros ([url t|msg|url problems t] & Hin & Herr); cbn in Herr; try discriminate.
    unfold hasError in Herr. apply existsb_exists in Herr as (p & Hp & Hsev).
    exists url, problems, t, p. repeat split.
    + by apply list_elem_of_In.
    + by apply list_elem_of_In.
    + by destruct (severity p).
  - intros (url & problems & t & p & Hin & Hp & Hsev).
    exists (TargetEnd url problems t). split; [by apply list_elem_of_In|].
    cbn. unfold hasError. apply existsb_exists. exists p.
    split; [by apply list_elem_of_In|]. by rewrite Hsev.
Qed.

(** The run from a ready analyzer on: the callbacks, then either the gate
    and the exit code of the callbacks, or the [catch]. *)
Lemma runAnalysis_spec (actions : CLIOptions) (userConfig : UserConfig)
    (webhint : Analyzer) (targets : list URL) (w : World) :
  exists st w1 d,
    adds w w1 (EAnalyze targets :: d)
    /\ storeAccesses d = [] /\ tracked d = [] /\ gateReads d = 0%nat
    /\ (cli_debug actions = true -> spinnerCalls d = [])
    /\ exitCode st =
         (if existsb endsWithError (events (analyzer_run webhint targets)) then 1 else 0)
    /\ runAnalysis E actions userConfig webhint targets w =
         match rejected (analyzer_run webhint targets) with
         | None => (Returned (bool_decide (exitCode st = 0)),
                    (sendTelemetryIfEnabled E userConfig w1).2)
         | Some _ => (Returned false,
                      if cli_debug actions then w1
                      else mkWorld (configStore w1) (insights w1)
                                   (trace w1 ++ [ESpinnerFail]))
         end.
Proof.
  set (w0 := mkWorld (configStore w) (insights w) (trace w ++ [EAnalyze targets])).
  destruct (deliver_spec actions userConfig webhint
              (events (analyzer_run webhint targets)) (mkReporter ∅ 0) w0)
    as (st & w1 & d & Heq & Hadds & Hs & Ht & Hg & Hsp & He & _).
  exists st, w1, d.
  split; [apply (adds_trans w w0 w1 [EAnalyze targets] d); done|].
  do 5 (split; [done|]).
  unfold runAnalysis, webhint_analyze, try_catch, bind, emit.
  cbn -[sendTelemetryIfEnabled deliver]. fold w0.
  rewrite Heq.
  destruct (rejected (analyzer_run webhint targets)) as [e|];
    cbn -[sendTelemetryIfEnabled deliver].
  - unfold endSpinner, when, emit, bind, ret. by destruct (cli_debug actions).
  - destruct (sendTelemetryIfEnabled_spec userConfig w1) as (dt & wt & Heqt & _).
    rewrite Heqt. done.
Qed.

(** C8, as the code has it.  From a ready analyzer on, the callbacks of the
    whole run come first and read nothing from the store and track nothing.
    If the analyzer's promise is fulfilled, the gate runs once, on the world
    the callbacks left.  If it is rejected, the run returns false, the gate
    does not run, nothing is tracked, and the spinner is told to fail,
    unless the run is in debug mode, where the spinner is never touched. *)
Theorem telemetry_gate_once_per_run
    (actions : CLIOptions) (userConfig : UserConfig) (webhint : Analyzer)
    (targets : list URL) (w : World) :
  exists st w1 d,
    adds w w1 (EAnalyze targets :: d)
    /\ gateReads d = 0%nat /\ tracked d = []
    /\ match rejected (analyzer_run webhint targets) with
       | None =>
           runAnalysis E actions userConfig webhint targets w
           = (Returned (bool_decide (exitCode st = 0)),
              (sendTelemetryIfEnabled E userConfig w1).2)
           /\ gateReads (since w (runAnalysis E actions userConfig webhint targets w).2) = 1%nat
       | Some _ =>
           (runAnalysis E actions userConfig webhint targets w).1 = Returned false
           /\ gateReads (since w (runAnalysis E actions userConfig webhint targets w).2) = 0%nat
           /\ tracked (since w (runAnalysis E actions userConfig webhint targets w).2) = []
           /\ since w1 (runAnalysis E actions userConfig webhint targets w).2
              = (if cli_debug actions then [] else [ESpinnerFail])
           /\ (cli_debug actions = true ->
               spinnerCalls (since w (runAnalysis E actions userConfig webhint targets w).2) = [])
       end.
Proof.
  destruct (runAnalysis_spec actions userConfig webhint targets w)
    as (st & w1 & d & Hadds & Hs & Ht & Hg & Hsp & He & Hrun).
  exists st, w1, d. do 3 (split; [done|]).
  destruct Hadds as (Htr & _ & _).
  rewrite Hrun. destruct (rejected (analyzer_run webhint targets)) as [e|]; cbn [fst snd].
  - split; [done|].
    destruct (cli_debug actions) eqn:Hdebug.
    + rewrite (since_extends _ _ _ Htr), since_refl.
      change (gateReads (EAnalyze targets :: d)) with (gateReads d).
      change (tracked (EAnalyze targets :: d)) with (tracked d).
      change (spinnerCalls (EAnalyze targets :: d)) with (spinnerCalls d).
      rewrite Hg, Ht. repeat split; try done; intros _; by apply Hsp.
    + rewrite (since_extends w _ ((EAnalyze targets :: d) ++ [ESpinnerFail]))
        by (cbn [trace]; by rewrite Htr, <- app_assoc).
      rewrite (since_extends w1 _ [ESpinnerFail]) by done.
      rewrite gateReads_app, tracked_app.
      change (gateReads (EAnalyze targets :: d)) with (gateReads d).
      change (tracked (EAnalyze targets :: d)) with (tracked d).
      rewrite Hg, Ht. done.
  - split; [done|].
    destruct (sendTelemetryIfEnabled_spec userConfig w1) as (dt & wt & Heqt & Htt & Hgt & _).
    rewrite Heqt. cbn [snd].
    rewrite (since_extends w wt ((EAnalyze targets :: d) ++ dt)).
    + rewrite gateReads_app. change (gateReads (EAnalyze targets :: d)) with (gateReads d).
      by rewrite Hg, Hgt.
    + by rewrite Htt, Htr, app_assoc.
Qed.

(** Resolving the configuration stays away from the store. *)
Lemma loadUserConfig_adds (actions : CLIOptions) (targets : list URL) (w : World) :
  exists d, adds w (loadUserConfig E actions targets w).2 d /\ storeAccesses d = [].
Proof.
  unfold loadUserConfig, getDefaultConfiguration, getLanguage, showDefaultMessage,
    printFrame, emit, bind, ret, throw, adds.
  cbn. destruct (getUserConfig E (cli_config actions)) as [e|[config|]]; cbn.
  3: destruct (negb (areFiles targets) && anyFile targets); cbn.
  all: repeat (match goal with |- context [truthy ?x] => destruct (truthy x); cbn end).
  all: eexists; (split; [split; [adds_tac|done]|]); done.
Qed.

(** The run gives a result unless its bootstrap does not end, and a run
    that is fulfilled is so with false exactly when it had no target, or its
    bootstrap failed, or a target ended with a finding of severity [error],
    or the promise of the analyzer was rejected. *)
Lemma analyze_result_cases (fuel : nat) (actions : CLIOptions) (w : World) :
  (analyze E fuel actions w = None <->
     exists userConfig w1,
       length (getAsUris E (cli_targets actions)) <> 0%nat
       /\ loadUserConfig E actions (getAsUris E (cli_targets actions)) w
            = (Returned userConfig, w1)
       /\ getAnalyzer E fuel userConfig (actionsToOptions actions)
            (getAsUris E (cli_targets actions)) w1 = None)
  /\ forall (ok : bool) (w' : World),
       analyze E fuel actions w = Some (Returned ok, w') ->
       ok = false <->
         getAsUris E (cli_targets actions) = []
         \/ (exists userConfig w1 e w2,
               loadUserConfig E actions (getAsUris E (cli_targets actions)) w
                 = (Returned userConfig, w1)
               /\ getAnalyzer E fuel userConfig (actionsToOptions actions)
                    (getAsUris E (cli_targets actions)) w1 = Some (Thrown e, w2))
         \/ (exists userConfig w1 webhint w2,
               loadUserConfig E actions (getAsUris E (cli_targets actions)) w
                 = (Returned userConfig, w1)
               /\ getAnalyzer E fuel userConfig (actionsToOptions actions)
                    (getAsUris E (cli_targets actions)) w1 = Some (Returned webhint, w2)
               /\ ((exists url problems t p,
                      TargetEnd url problems t
                        ∈ events (analyzer_run webhint (getAsUris E (cli_targets actions)))
                      /\ p ∈ problems /\ severity p = Severity.error)
                   \/ is_Some (rejected (analyzer_run webhint
                                           (getAsUris E (cli_targets actions)))))).
Proof.
  unfold analyze. set (targets := getAsUris E (cli_targets actions)).
  destruct (bool_decide (length targets = 0%nat)) eqn:Hempty.
  { apply bool_decide_eq_true in Hempty. split.
    - split; [done|]. by intros (c & x1 & Hne & _).
    - intros ok w' [= <- <-]. split; [|done]. intros _. left. by destruct targets. }
  apply bool_decide_eq_false in Hempty.
  assert (targets <> []) as Hne by (intros Heq; by rewrite Heq in Hempty).
  destruct (loadUserConfig E actions targets w) as [[userConfig|e] w1] eqn:Hload.
  2: { split; [|done]. split; [done|]. by intros (c & x1 & _ & [=] & _). }
  destruct (getAnalyzer E fuel userConfig (actionsToOptions actions) targets w1)
    as [[[webhint|e] w2]|] eqn:Hboot.
  - split.
    { split; [done|]. intros (c & x1 & _ & [= <- <-] & Hnone). by rewrite Hboot in Hnone. }
    destruct (runAnalysis_spec actions userConfig webhint targets w2)
      as (st & w3 & d & _ & _ & _ & _ & _ & He & Hrun).
    rewrite Hrun. intros ok w' H.
    assert (ok = false <->
            existsb endsWithError (events (analyzer_run webhint targets)) = true
            \/ is_Some (rejected (analyzer_run webhint targets))) as Hok.
    { destruct (rejected (analyzer_run webhint targets)) as [e|].
      - injection H as <- _. split; [right; by eexists|done].
      - injection H as <- _. rewrite He.
        destruct (existsb endsWithError (events (analyzer_run webhint targets))).
        + split; [by left|done].
        + split; [done|]. intros [?|[? ?]]; done. }
    rewrite Hok, existsb_endsWithError. split.
    + intros Hcase. right. right. by exists userConfig, w1, webhint, w2.
    + intros [Hnil|[(c & x1 & e & x2 & Hl & Hb)|(c & x1 & a & x2 & Hl & Hb & Hcase)]].
      * done.
      * injection Hl as <- <-. rewrite Hboot in Hb. discriminate.
      * injection Hl as <- <-. rewrite Hboot in Hb.
        injection Hb as <- <-. exact Hcase.
  - split.
    { split; [done|]. intros (c & x1 & _ & [= <- <-] & Hnone). by rewrite Hboot in Hnone. }
    intros ok w' [= <- <-]. split; [|done]. intros _. right. left.
    by exists userConfig, w1, e, w2.
  - split; [|done]. split; [|done]. intros _. by exists userConfig, w1.
Qed.

(** C1, as the code has it.  A run without targets is fulfilled with false.
    A run whose configuration cannot be resolved is rejected with the error
    of the resolution, and gives no boolean.  A run whose configuration is
    resolved gives no result only when its bootstrap does not end; when the
    bootstrap throws, the run is fulfilled with false; when the bootstrap
    gives an analyzer, the run is fulfilled with a boolean, which is false
    exactly when a target ended with a finding of severity [error] or the
    promise of the analyzer was rejected, and true otherwise. *)
Theorem analyze_fails_iff (fuel : nat) (actions : CLIOptions) (w : World) :
  (getAsUris E (cli_targets actions) = [] ->
   analyze E fuel actions w = Some (Returned false, w))
  /\ (forall e w1,
        getAsUris E (cli_targets actions) <> [] ->
        loadUserConfig E actions (getAsUris E (cli_targets actions)) w = (Thrown e, w1) ->
        analyze E fuel actions w = Some (Thrown e, w1))
  /\ (forall userConfig w1,
        getAsUris E (cli_targets actions) <> [] ->
        loadUserConfig E actions (getAsUris E (cli_targets actions)) w
          = (Returned userConfig, w1) ->
        (getAnalyzer E fuel userConfig (actionsToOptions actions)
           (getAsUris E (cli_targets actions)) w1 = None ->
         analyze E fuel actions w = None)
        /\ (forall e w2,
              getAnalyzer E fuel userConfig (actionsToOptions actions)
                (getAsUris E (cli_targets actions)) w1 = Some (Thrown e, w2) ->
              analyze E fuel actions w = Some (Returned false, w2))
        /\ (forall webhint w2,
              getAnalyzer E fuel userConfig (actionsToOptions actions)
                (getAsUris E (cli_targets actions)) w1 = Some (Returned webhint, w2) ->
              exists ok w',
                analyze E fuel actions w = Some (Returned ok, w')
                /\ (ok = false <->
                      (exists url problems t p,
                         TargetEnd url problems t
                           ∈ events (analyzer_run webhint (getAsUris E (cli_targets actions)))
                         /\ p ∈ problems /\ severity p = Severity.error)
                      \/ is_Some (rejected (analyzer_run webhint
                                              (getAsUris E (cli_targets actions)))))))
  /\ (analyze E fuel actions w = None <->
       exists userConfig w1,
         length (getAsUris E (cli_targets actions)) <> 0%nat
         /\ loadUserConfig E actions (getAsUris E (cli_targets actions)) w
              = (Returned userConfig, w1)
         /\ getAnalyzer E fuel userConfig (actionsToOptions actions)
              (getAsUris E (cli_targets actions)) w1 = None)
  /\ forall (ok : bool) (w' : World),
       analyze E fuel actions w = Some (Returned ok, w') ->
       ok = false <->
         getAsUris E (cli_targets actions) = []
         \/ (exists userConfig w1 e w2,
               loadUserConfig E actions (getAsUris E (cli_targets actions)) w
                 = (Returned userConfig, w1)
               /\ getAnalyzer E fuel userConfig (actionsToOptions actions)
                    (getAsUris E (cli_targets actions)) w1 = Some (Thrown e, w2))
         \/ (exists userConfig w1 webhint w2,
               loadUserConfig E actions (getAsUris E (cli_targets actions)) w
                 = (Returned userConfig, w1)
               /\ getAnalyzer E fuel userConfig (actionsToOptions actions)
                    (getAsUris E (cli_targets actions)) w1 = Some (Returned webhint, w2)
               /\ ((exists url problems t p,
                      TargetEnd url problems t
                        ∈ events (analyzer_run webhint (getAsUris E (cli_targets actions)))
                      /\ p ∈ problems /\ severity p = Severity.error)
                   \/ is_Some (rejected (analyzer_run webhint
                                           (getAsUris E (cli_targets actions)))))).
Proof.
  split; [apply zero_targets_no_effects_eq|].
  assert (forall targets : list URL, targets <> [] ->
            bool_decide (length targets = 0%nat) = false) as Hsome.
  { intros targets Hne. apply bool_decide_eq_false. by destruct targets. }
  split.
  { intros e w1 Hne Hload. unfold analyze. by rewrite (Hsome _ Hne), Hload. }
  split.
  { intros userConfig w1 Hne Hload.
    split; [intros Hboot; unfold analyze; by rewrite (Hsome _ Hne), Hload, Hboot|].
    split; [intros e w2 Hboot; unfold analyze; by rewrite (Hsome _ Hne), Hload, Hboot|].
    intros webhint w2 Hboot. unfold analyze. rewrite (Hsome _ Hne), Hload, Hboot.
    destruct (runAnalysis_spec actions userConfig webhint
                (getAsUris E (cli_targets actions)) w2)
      as (st & w3 & d & _ & _ & _ & _ & _ & He & Hrun).
    rewrite Hrun.
    destruct (rejected (analyzer_run webhint (getAsUris E (cli_targets actions)))) as [e|].
    - eexists _, _. split; [reflexivity|]. split; [right; by eexists|done].
    - eexists _, _. split; [reflexivity|]. rewrite <- existsb_endsWithError, He.
      destruct (existsb endsWithError
                  (events (analyzer_run webhint (getAsUris E (cli_targets actions))))).
      + split; [by left|done].
      + split; [done|]. intros [?|[? ?]]; done. }
  apply analyze_result_cases.
Qed.

(** Where a run that gives a result may touch the store: either it has not
    touched it at all, or its last step was the telemetry gate, run on a
    world whose store was still untouched. *)
Lemma analyze_store_accesses
    (fuel : nat) (actions : CLIOptions) (w : World) (out : Completion bool) (w' : World) :
  analyze E fuel actions w = Some (out, w') ->
  (exists d, adds w w' d /\ storeAccesses d = [])
  \/ (exists userConfig w3 d,
        adds w w3 d /\ storeAccesses d = []
        /\ w' = (sendTelemetryIfEnabled E userConfig w3).2).
Proof.
  unfold analyze.
  destruct (bool_decide (length (getAsUris E (cli_targets actions)) = 0%nat)).
  { intros [= <- <-]. left. exists []. unfold adds. by rewrite app_nil_r. }
  destruct (loadUserConfig_adds actions (getAsUris E (cli_targets actions)) w)
    as (d1 & Hadds1 & Hd1).
  destruct (loadUserConfig E actions (getAsUris E (cli_targets actions)) w)
    as [[userConfig|e] w1]; cbn [snd] in Hadds1.
  2: { intros [= <- <-]. left. by exists d1. }
  destruct (getAnalyzer E fuel userConfig (actionsToOptions actions)
              (getAsUris E (cli_targets actions)) w1)
    as [[[webhint|e] w2]|] eqn:Hboot; [| |done];
    destruct (getAnalyzer_history _ _ _ _ _ _ _ Hboot) as (d2 & Hadds2 & Hd2 & _).
  2: { intros [= <- <-]. left. exists (d1 ++ d2)%list.
       split; [by eapply adds_trans|]. by rewrite storeAccesses_app, Hd1, Hd2. }
  destruct (runAnalysis_spec actions userConfig webhint
              (getAsUris E (cli_targets actions)) w2)
    as (st & w3 & d3 & Hadds3 & Hd3 & _ & _ & _ & _ & Heq).
  pose proof (adds_trans _ _ _ _ _ (adds_trans _ _ _ _ _ Hadds1 Hadds2) Hadds3) as Hadds.
  assert (storeAccesses ((d1 ++ d2) ++ EAnalyze (getAsUris E (cli_targets actions)) :: d3) = [])
    as Hd by (rewrite !storeAccesses_app, Hd1, Hd2; exact Hd3).
  rewrite Heq.
  destruct (rejected (analyzer_run webhint (getAsUris E (cli_targets actions)))) as [e|].
  - intros [= <- <-]. left. destruct (cli_debug actions); [by eexists|].
    exists (((d1 ++ d2) ++ EAnalyze (getAsUris E (cli_targets actions)) :: d3)
            ++ [ESpinnerFail])%list.
    split.
    + destruct Hadds as (Ht & Hc & Hi). repeat split; cbn; try done.
      by rewrite Ht, <- !app_assoc.
    + by rewrite storeAccesses_app, Hd.
  - intros [= <- <-]. right. by eexists _, _, _.
Qed.

(** C10.  A run that ends early (no target, a configuration that cannot be
    resolved, a failed bootstrap, a rejected analysis) does end, and has
    neither read nor written the persistent store: the store and the consent
    are what they were, so the first-run marker is, too.  In any run, the
    store is read or written by the telemetry gate only, which runs last. *)
Theorem early_exit_keeps_store (fuel : nat) (actions : CLIOptions) (w : World) :
  (EarlyExit E fuel actions w ->
   exists (out : Completion bool) (w' : World),
     analyze E fuel actions w = Some (out, w')
     /\ storeAccesses (since w w') = []
     /\ configStore w' = configStore w
     /\ insights w' = insights w
     /\ configStore w' !! alreadyRunKey = configStore w !! alreadyRunKey)
  /\ (forall (out : Completion bool) (w' : World),
        analyze E fuel actions w = Some (out, w') ->
        (storeAccesses (since w w') = []
         /\ configStore w' = configStore w /\ insights w' = insights w)
        \/ (exists userConfig w3,
              storeAccesses (since w w3) = []
              /\ configStore w3 = configStore w /\ insights w3 = insights w
              /\ w' = (sendTelemetryIfEnabled E userConfig w3).2)).
Proof.
  split.
  - intros Hearly.
    assert (exists out w' d,
              analyze E fuel actions w = Some (out, w')
              /\ adds w w' d /\ storeAccesses d = [])
      as (out & w' & d & Hrun & (Ht & Hs & Hi) & Hd).
    { unfold analyze.
      destruct (bool_decide (length (getAsUris E (cli_targets actions)) = 0%nat)) eqn:Hempty.
      { exists (Returned false), w, []. unfold adds. by rewrite app_nil_r. }
      destruct (loadUserConfig_adds actions (getAsUris E (cli_targets actions)) w)
        as (d1 & Hadds1 & Hd1).
      destruct Hearly as [Hnone|e w1 Hload|userConfig w1 e w2 Hload Hboot
                          |userConfig w1 webhint w2 e Hload Hboot Hrej].
      - apply bool_decide_eq_false in Hempty. by rewrite Hnone in Hempty.
      - rewrite Hload in Hadds1 |- *. by exists (Thrown e), w1, d1.
      - rewrite Hload in Hadds1 |- *. rewrite Hboot.
        destruct (getAnalyzer_history _ _ _ _ _ _ _ Hboot) as (d2 & Hadds2 & Hd2 & _).
        exists (Returned false), w2, (d1 ++ d2)%list.
        split; [done|]. split; [by eapply adds_trans|].
        by rewrite storeAccesses_app, Hd1, Hd2.
      - rewrite Hload in Hadds1 |- *. rewrite Hboot.
        destruct (getAnalyzer_history _ _ _ _ _ _ _ Hboot) as (d2 & Hadds2 & Hd2 & _).
        destruct (runAnalysis_spec actions userConfig webhint
                    (getAsUris E (cli_targets actions)) w2)
          as (st & w3 & d3 & Hadds3 & Hd3 & _ & _ & _ & _ & Heq).
        rewrite Hrej in Heq. rewrite Heq.
        pose proof (adds_trans _ _ _ _ _ (adds_trans _ _ _ _ _ Hadds1 Hadds2) Hadds3) as Hadds.
        destruct (cli_debug actions).
        + eexists _, _, _. split; [done|]. split; [exact Hadds|].
          rewrite !storeAccesses_app, Hd1, Hd2. exact Hd3.
        + eexists _, _, (((d1 ++ d2) ++ EAnalyze (getAsUris E (cli_targets actions)) :: d3)
                  ++ [ESpinnerFail])%list.
          split; [done|]. split.
          * destruct Hadds as (Ht & Hc & Hi). repeat split; cbn; try done.
            by rewrite Ht, <- !app_assoc.
          * rewrite !storeAccesses_app, Hd1, Hd2.
            change (storeAccesses (EAnalyze (getAsUris E (cli_targets actions)) :: d3))
              with (storeAccesses d3).
            by rewrite Hd3. }
    exists out, w'. rewrite (since_extends _ _ _ Ht), Hs. done.
  - intros out w' Hrun.
    destruct (analyze_store_accesses _ _ _ _ _ Hrun)
      as [(d & (Ht & Hs & Hi) & Hd)|(c & w3 & d & (Ht & Hs & Hi) & Hd & Hw')].
    + left. by rewrite (since_extends _ _ _ Ht).
    + right. exists c, w3. by rewrite (since_extends _ _ _ Ht).
Qed.


(** *** Further properties of the resolver and the bootstrap *)

Lemma areFiles_spec (targets : list URL) :
  areFiles targets = true <-> forall t, t ∈ targets -> protocol t = "file:".
Proof.
  unfold areFiles. rewrite forallb_forall. split.
  - intros H t Hin. specialize (H t (proj1 (list_elem_of_In _ _) Hin)).
    unfold isFile in H. by apply bool_decide_eq_true in H.
  - intros H t Hin. unfold isFile. apply bool_decide_eq_true, H. by apply list_elem_of_In.
Qed.

Lemma anyFile_none (targets : list URL) :
  (forall t, t ∈ targets -> protocol t <> "file:") -> anyFile targets = false.
Proof.
  intros H. destruct (anyFile targets) eqn:Hany; [|done].
  unfold anyFile in Hany. apply existsb_exists in Hany as (t & Hin & Hfile).
  unfold isFile in Hfile. apply bool_decide_eq_true in Hfile.
  by destruct (H t (proj2 (list_elem_of_In _ _) Hin)).
Qed.

(** The default configuration.  For targets that are all local or all
    remote it extends one preset, [development] exactly when every target
    is local and [web-recommended] otherwise, and under CI it names the
    formatters [html] and [stylish]. *)
Theorem default_configuration_by_targets (targets : list URL) (w : World) :
  (forall t, t ∈ targets -> protocol t = "file:")
  \/ (forall t, t ∈ targets -> protocol t <> "file:") ->
  exists preset,
    getDefaultConfiguration E targets w =
      (Returned (mkConfig None None (Some [preset])
                          (if isCI E then Some ["html"; "stylish"] else None)
                          None None None None None),
       mkWorld (configStore w) (insights w) (trace w ++ [EPrintFrame DefaultMessage]))
    /\ (preset = "development" <-> forall t, t ∈ targets -> protocol t = "file:")
    /\ (preset = "development" \/ preset = "web-recommended").
Proof.
  intros Hkind.
  unfold getDefaultConfiguration, showDefaultMessage, printFrame, emit, bind, ret, throw.
  destruct (areFiles targets) eqn:Hall.
  - exists "development". cbn. split; [by destruct (isCI E)|].
    split; [|by left]. split; [intros _; by apply areFiles_spec|done].
  - destruct Hkind as [Hlocal|Hremote].
    { apply areFiles_spec in Hlocal. congruence. }
    rewrite (anyFile_none _ Hremote). exists "web-recommended". cbn.
    split; [by destruct (isCI E)|]. split; [|by right].
    split; [done|]. intros Hlocal. apply areFiles_spec in Hlocal. congruence.
Qed.

(** An error of construction that is neither a configuration error nor a
    resource error ends the bootstrap at once: it is logged and thrown as it
    is, after the one attempt, with no question asked. *)
Theorem fatal_errors_are_not_retried
    (fuel : nat) (userConfig : UserConfig) (options : CreateAnalyzerOptions)
    (targets : list URL) (w : World) (e : Exception) :
  createAnalyzer E (trace w) userConfig options = inl e ->
  recoverable (inl e) = false ->
  getAnalyzer E (S fuel) userConfig options targets w =
    Some (Thrown e,
          mkWorld (configStore w) (insights w)
                  (trace w ++ [ECreateAnalyzer userConfig options; ELogError (fatalLine e)])).
Proof.
  intros Hcreate Hfatal. cbn [getAnalyzer]. rewrite Hcreate.
  destruct e; try discriminate Hfatal;
    unfold logger_error, emit, bind, throw; cbn; by rewrite <- app_assoc.
Qed.

End Properties.

(** ** Further properties of the orchestrator *)

Section BootstrapProperties.

Variable E : Env.

(** *** Configuration resolver and bootstrap *)

(** What resolving the configuration does and what it can throw. *)
Lemma loadUserConfig_effects (actions : CLIOptions) (targets : list URL) (w : World) :
  exists d,
    adds w (loadUserConfig E actions targets w).2 d
    /\ Forall resolutionEffect d
    /\ forall e, (loadUserConfig E actions targets w).1 = Thrown e ->
                 getUserConfig E (cli_config actions) = inl e
                 \/ e = OtherError mixedTargetsMessage.
Proof.
  unfold loadUserConfig, getDefaultConfiguration, getLanguage, showDefaultMessage,
    printFrame, emit, bind, ret, throw, adds.
  cbn. destruct (getUserConfig E (cli_config actions)) as [e|[config|]]; cbn.
  3: destruct (negb (areFiles targets) && anyFile targets); cbn.
  all: repeat (match goal with |- context [truthy ?x] => destruct (truthy x); cbn end).
  all: eexists; (split; [split; [rewrite <- ?app_assoc; reflexivity|done]|]).
  all: split; [repeat (apply Forall_cons_2; [done|]); apply Forall_nil_2|].
  all: intros e' [= <-] || (intros e' Hthrown; discriminate Hthrown) || idtac.
  all: auto.
Qed.

(** The default-configuration question, outcome by outcome. *)
Lemma askUserToUseDefaultConfiguration_eq (targets : list URL) (w : World) :
  askUserToUseDefaultConfiguration E targets w =
    if askQuestion E (trace w) DefaultConfigurationQuestion then
      (if negb (areFiles targets) && anyFile targets
       then Thrown (OtherError mixedTargetsMessage)
       else Returned (Some (defaultFor E targets)),
       mkWorld (configStore w) (insights w)
               (trace w ++ [EAsk DefaultConfigurationQuestion true;
                            EPrintFrame DefaultMessage]))
    else
      (Returned None,
       mkWorld (configStore w) (insights w)
               (trace w ++ [EAsk DefaultConfigurationQuestion false])).
Proof.
  unfold askUserToUseDefaultConfiguration, getDefaultConfiguration, defaultFor,
    showDefaultMessage, printFrame, ask, history, emit, bind, ret, throw.
  cbn. destruct (askQuestion E _ _); cbn; [|done].
  rewrite <- app_assoc. cbn.
  by destruct (negb (areFiles targets) && anyFile targets).
Qed.

(** A configuration error: the user is asked once.  A refusal throws the
    error as it was caught.  An acceptance with local and remote targets
    mixed throws the usage error in its place.  Otherwise the next attempt
    is made with the default configuration for the targets. *)
Theorem configuration_error_recovery
    (fuel : nat) (userConfig : UserConfig) (options : CreateAnalyzerOptions)
    (targets : list URL) (w : World) (msg : string) :
  createAnalyzer E (trace w) userConfig options = inl (ConfigurationError msg) ->
  getAnalyzer E (S fuel) userConfig options targets w =
    if askQuestion E (trace w ++ [ECreateAnalyzer userConfig options])
                   DefaultConfigurationQuestion
    then
      if negb (areFiles targets) && anyFile targets then
        Some (Thrown (OtherError mixedTargetsMessage),
              mkWorld (configStore w) (insights w)
                (trace w ++ [ECreateAnalyzer userConfig options;
                             EAsk DefaultConfigurationQuestion true;
                             EPrintFrame DefaultMessage]))
      else
        getAnalyzer E fuel (defaultFor E targets) options targets
          (mkWorld (configStore w) (insights w)
             (trace w ++ [ECreateAnalyzer userConfig options;
                          EAsk DefaultConfigurationQuestion true;
                          EPrintFrame DefaultMessage]))
    else
      Some (Thrown (ConfigurationError msg),
            mkWorld (configStore w) (insights w)
              (trace w ++ [ECreateAnalyzer userConfig options;
                           EAsk DefaultConfigurationQuestion false])).
Proof.
  intros Hcreate. cbn [getAnalyzer]. rewrite Hcreate.
  rewrite askUserToUseDefaultConfiguration_eq. cbn [trace configStore insights].
  rewrite <- !app_assoc. cbn [app].
  destruct (askQuestion E _ _); [|done].
  by destruct (negb (areFiles targets) && anyFile targets).
Qed.

Lemma bootstrapEffect_default (userConfig : UserConfig) (options : CreateAnalyzerOptions)
    (targets : list URL) (d : list Effect) :
  Forall (bootstrapEffect E (defaultFor E targets) options targets) d ->
  Forall (bootstrapEffect E userConfig options targets) d.
Proof.
  intros Hall. eapply Forall_impl; [exact Hall|].
  intros [] He; cbn in *; try done.
  destruct He as [-> [->| ->]]; auto.
Qed.

Lemma installation_effects (userConfig : UserConfig) (options : CreateAnalyzerOptions)
    (targets : list URL) (resources : HintResources) (accepted ok1 ok2 : bool) :
  Forall (bootstrapEffect E userConfig options targets)
         (announcement resources ++ installation resources accepted ok1 ok2).
Proof.
  unfold announcement, installation.
  destruct (nonEmpty (missing resources)), (nonEmpty (incompatible resources)),
    accepted, ok1; cbn.
  all: repeat (apply Forall_cons_2; [cbn; auto|]); apply Forall_nil_2.
Qed.

Lemma getAnalyzer_effects
    (options : CreateAnalyzerOptions) (targets : list URL) (fuel : nat) :
  forall (userConfig : UserConfig) (w : World) (r : Completion Analyzer) (w' : World),
    getAnalyzer E fuel userConfig options targets w = Some (r, w') ->
    Forall (bootstrapEffect E userConfig options targets) (since w w').
Proof.
  induction fuel as [|fuel IH]; intros userConfig w r w' H; [discriminate|].
  destruct (getAnalyzer_history E _ _ _ _ _ _ _ H) as (d & (Ht & _ & _) & _).
  assert (bootstrapEffect E userConfig options targets (ECreateAnalyzer userConfig options))
    as Hfirst by (cbn; auto).
  cbn [getAnalyzer] in H.
  set (w0 := mkWorld (configStore w) (insights w)
                     (trace w ++ [ECreateAnalyzer userConfig options])) in H.
  destruct (createAnalyzer E (trace w) userConfig options)
    as [[msg|resources msg|invalid msg|msg|msg]|webhint].
  - rewrite askUserToUseDefaultConfiguration_eq in H.
    destruct (askQuestion E (trace w0) DefaultConfigurationQuestion).
    + destruct (negb (areFiles targets) && anyFile targets).
      * injection H as <- <-. rewrite (since_extends _ _
          [ECreateAnalyzer userConfig options; EAsk DefaultConfigurationQuestion true;
           EPrintFrame DefaultMessage]) by (cbn; by rewrite <- app_assoc).
        repeat (apply Forall_cons_2; [done|]). apply Forall_nil_2.
      * pose proof H as Hrec. apply IH in Hrec.
        destruct (getAnalyzer_history E _ _ _ _ _ _ _ H) as (d' & (Ht' & _ & _) & _).
        rewrite (since_extends _ _ _ Ht') in Hrec.
        rewrite (since_extends w w'
          ([ECreateAnalyzer userConfig options; EAsk DefaultConfigurationQuestion true;
            EPrintFrame DefaultMessage] ++ d'))
          by (rewrite Ht'; cbn; by rewrite <- !app_assoc).
        apply Forall_app. split.
        -- repeat (apply Forall_cons_2; [done|]). apply Forall_nil_2.
        -- by apply bootstrapEffect_default.
    + injection H as <- <-. rewrite (since_extends _ _
        [ECreateAnalyzer userConfig options; EAsk DefaultConfigurationQuestion false])
        by (cbn; by rewrite <- app_assoc).
      repeat (apply Forall_cons_2; [done|]). apply Forall_nil_2.
  - destruct (askToInstallPackages_spec E resources w0)
      as (accepted & ok1 & ok2 & w1 & Heq & (Ht1 & _ & _)).
    pose proof (installation_effects userConfig options targets resources accepted ok1 ok2)
      as Hinst.
    rewrite Heq in H. destruct (accepted && ok1 && ok2).
    + pose proof H as Hrec. apply IH in Hrec.
      destruct (getAnalyzer_history E _ _ _ _ _ _ _ H) as (d' & (Ht' & _ & _) & _).
      rewrite (since_extends _ _ _ Ht') in Hrec.
      rewrite (since_extends w w'
        (([ECreateAnalyzer userConfig options]
          ++ (announcement resources ++ installation resources accepted ok1 ok2)) ++ d'))
        by (rewrite Ht', Ht1; cbn; by rewrite <- !app_assoc).
      apply Forall_app. split; [|done]. apply Forall_app. split; [|done].
      by apply Forall_singleton.
    + injection H as <- <-. rewrite (since_extends w w1
        ([ECreateAnalyzer userConfig options]
          ++ (announcement resources ++ installation resources accepted ok1 ok2)))
        by (rewrite Ht1; cbn; by rewrite <- !app_assoc).
      apply Forall_app. split; [|done]. by apply Forall_singleton.
  - injection H as <- <-.
    rewrite (since_extends _ _
      [ECreateAnalyzer userConfig options; ELogError (InvalidHintsLine invalid)])
      by (cbn; by rewrite <- app_assoc).
    repeat (apply Forall_cons_2; [done|]). apply Forall_nil_2.
  - injection H as <- <-.
    rewrite (since_extends _ _
      [ECreateAnalyzer userConfig options; ELogError InvalidConnectorLine])
      by (cbn; by rewrite <- app_assoc).
    repeat (apply Forall_cons_2; [done|]). apply Forall_nil_2.
  - injection H as <- <-.
    rewrite (since_extends _ _
      [ECreateAnalyzer userConfig options; ELogError (ErrorLine msg)])
      by (cbn; by rewrite <- app_assoc).
    repeat (apply Forall_cons_2; [done|]). apply Forall_nil_2.
  - injection H as <- <-.
    rewrite (since_extends _ _ [ECreateAnalyzer userConfig options]) by done.
    by apply Forall_singleton.
Qed.

(** Whatever a bootstrap does is one of the things a bootstrap may do: it
    builds analyzers only from the options it was given and from the
    configuration it was given or the default one for the targets, asks only
    its two questions, and tells telemetry only the names of packages.  It
    reads no configuration, starts no analysis, and touches neither the
    spinner nor the formatters nor the store. *)
Theorem bootstrap_effects
    (options : CreateAnalyzerOptions) (targets : list URL) (fuel : nat)
    (userConfig : UserConfig) (w : World) (r : Completion Analyzer) (w' : World) :
  getAnalyzer E fuel userConfig options targets w = Some (r, w') ->
  Forall (bootstrapEffect E userConfig options targets) (since w w').
Proof. apply getAnalyzer_effects. Qed.

End BootstrapProperties.

Section ReporterProperties.

Variable E : Env.

(** *** Reporter *)

Lemma formatted_app (a b : list Effect) :
  formatted (a ++ b) = (formatted a ++ formatted b)%list.
Proof. apply omap_app. Qed.

Lemma spinnerOutcomes_app (a b : list Effect) :
  spinnerOutcomes (a ++ b) = (spinnerOutcomes a ++ spinnerOutcomes b)%list.
Proof. apply omap_app. Qed.

(** One callback: its formatter call, its spinner outcome, its exit code. *)
Lemma callback_calls (actions : CLIOptions) (userConfig : UserConfig) (webhint : Analyzer)
    (st : ReporterState) (ev : EngineEvent) (w : World) :
  exists st' w' d,
    callback E actions userConfig webhint st ev w = (Returned st', w')
    /\ trace w' = (trace w ++ d)%list
    /\ map (fun ro => (f_target ro.2, ro.1)) (formatted d) = findings [ev]
    /\ Forall (fun ro => sharedOptions E actions userConfig webhint ro.2) (formatted d)
    /\ (cli_debug actions = false ->
        spinnerOutcomes d = expectedOutcomes (negb (bool_decide (exitCode st = 0))) [ev])
    /\ negb (bool_decide (exitCode st' = 0))
       = endsWithError ev || negb (bool_decide (exitCode st = 0)).
Proof.
  destruct ev as [url now|msg|url problems now]; cbn;
    unfold targetStartCallback, updateCallback, targetEndCallback, endSpinner, print,
      when, emit, bind, ret; cbn.
  - destruct (cli_debug actions); cbn.
    all: eexists _, _, _; (split; [reflexivity|]).
    all: split; [adds_tac|]; cbn.
    all: split; [done|]; split; [by apply Forall_nil_2|]; split; done.
  - destruct (cli_debug actions); cbn.
    all: eexists _, _, _; (split; [reflexivity|]).
    all: split; [adds_tac|]; cbn.
    all: split; [done|]; split; [by apply Forall_nil_2|]; split; done.
  - destruct (cli_debug actions), (hasError problems); cbn.
    all: try destruct (bool_decide (exitCode st = 0)) eqn:Hcode; cbn.
    all: eexists _, _, _; (split; [reflexivity|]).
    all: split; [adds_tac|]; cbn.
    all: split; [done|].
    all: split; [by apply Forall_singleton|].
    all: rewrite ?Hcode; split; done.
Qed.

Lemma deliver_calls (actions : CLIOptions) (userConfig : UserConfig) (webhint : Analyzer)
    (evs : list EngineEvent) :
  forall (st : ReporterState) (w : World),
  exists st' w' d,
    deliver E actions userConfig webhint evs st w = (Returned st', w')
    /\ trace w' = (trace w ++ d)%list
    /\ map (fun ro => (f_target ro.2, ro.1)) (formatted d) = findings evs
    /\ Forall (fun ro => sharedOptions E actions userConfig webhint ro.2) (formatted d)
    /\ (cli_debug actions = false ->
        spinnerOutcomes d = expectedOutcomes (negb (bool_decide (exitCode st = 0))) evs).
Proof.
  induction evs as [|ev evs IH]; intros st w.
  - exists st, w, []. cbn. rewrite app_nil_r. repeat split; done.
  - destruct (callback_calls actions userConfig webhint st ev w)
      as (st1 & w1 & d1 & Heq1 & Ht1 & Hf1 & Ho1 & Hs1 & He1).
    destruct (IH st1 w1) as (st2 & w2 & d2 & Heq2 & Ht2 & Hf2 & Ho2 & Hs2).
    exists st2, w2, (d1 ++ d2)%list.
    split; [cbn [deliver]; unfold bind; by rewrite Heq1|].
    split; [by rewrite Ht2, Ht1, app_assoc|].
    rewrite formatted_app, map_app, Hf1, Hf2, spinnerOutcomes_app.
    split; [by destruct ev|].
    split; [by apply Forall_app|].
    intros Hdebug. rewrite (Hs1 Hdebug), (Hs2 Hdebug), He1.
    destruct ev as [url now|msg|url problems now]; cbn; try done.
Qed.

(** Every end event is formatted once, in the order of the events, with
    its own target and findings, and with the configuration, output path,
    resources and version of the run. *)
Theorem every_end_event_is_formatted_once
    (actions : CLIOptions) (userConfig : UserConfig) (webhint : Analyzer)
    (evs : list EngineEvent) (st : ReporterState) (w : World) :
  map (fun ro => (f_target ro.2, ro.1))
      (formatted (since w (deliver E actions userConfig webhint evs st w).2))
  = findings evs
  /\ Forall (fun ro => sharedOptions E actions userConfig webhint ro.2)
            (formatted (since w (deliver E actions userConfig webhint evs st w).2)).
Proof.
  destruct (deliver_calls actions userConfig webhint evs st w)
    as (st' & w' & d & Heq & Ht & Hf & Ho & _).
  rewrite Heq. cbn [snd]. by rewrite (since_extends _ _ _ Ht).
Qed.

Lemma expectedOutcomes_app (failed : bool) (a b : list EngineEvent) :
  expectedOutcomes failed (a ++ b)
  = (expectedOutcomes failed a
     ++ expectedOutcomes (existsb endsWithError a || failed) b)%list.
Proof.
  revert failed. induction a as [|ev a IH]; intros failed; [done|].
  destruct ev as [url now|msg|url problems now]; cbn; rewrite IH; try done.
  by rewrite orb_assoc, (orb_comm (existsb _ _)).
Qed.

Lemma expectedOutcomes_failed (evs : list EngineEvent) :
  expectedOutcomes true evs = replicate (length (findings evs)) fail.
Proof.
  induction evs as [|[url now|msg|url problems now] evs IH]; cbn; try done.
  rewrite orb_true_r. by rewrite IH.
Qed.

(** Outside debug mode the spinner is stopped once per end event: with
    [succeed] as long as no target has ended with a finding of severity
    [error], and with [fail] from the first such target on, also for the
    targets after it that have no such finding. *)
Theorem spinner_fails_from_first_error_on
    (actions : CLIOptions) (userConfig : UserConfig) (webhint : Analyzer) (w : World) :
  cli_debug actions = false ->
  (forall evs,
     spinnerOutcomes (since w (deliver E actions userConfig webhint evs (mkReporter ∅ 0) w).2)
     = expectedOutcomes false evs)
  /\ (forall before url problems t after,
        existsb endsWithError before = false ->
        hasError problems = true ->
        spinnerOutcomes
          (since w (deliver E actions userConfig webhint
                      (before ++ TargetEnd url problems t :: after) (mkReporter ∅ 0) w).2)
        = (replicate (length (findings before)) succeed
           ++ replicate (S (length (findings after))) fail)%list).
Proof.
  intros Hdebug.
  assert (forall evs,
     spinnerOutcomes (since w (deliver E actions userConfig webhint evs (mkReporter ∅ 0) w).2)
     = expectedOutcomes false evs) as Hall.
  { intros evs.
    destruct (deliver_calls actions userConfig webhint evs (mkReporter ∅ 0) w)
      as (st' & w' & d & Heq & Ht & _ & _ & Hs).
    rewrite Heq. cbn [snd]. rewrite (since_extends _ _ _ Ht). by apply Hs. }
  split; [exact Hall|].
  intros before url problems t after Hclean Herr.
  rewrite Hall, expectedOutcomes_app, Hclean. cbn. rewrite Herr. cbn.
  rewrite expectedOutcomes_failed. f_equal.
  clear -Hclean. induction before as [|[u n|m|u ps n] before IH]; cbn in *; try done; auto.
  apply orb_false_elim in Hclean as [-> Hclean]. cbn. f_equal. auto.
Qed.

End ReporterProperties.

Section GateProperties.

Variable E : Env.

Ltac gate_cases w :=
  unfold sendTelemetryIfEnabled, askForTelemetryConfirmation, ask,
    appInsights_isConfigured, appInsights_isEnabled, appInsights_enable,
    appInsights_disable, configStore_get, configStore_set, trackEvent,
    showCITelemetryMessage, showTelemetryMessage, printFrame, history,
    when, emit, bind, ret;
  cbn;
  destruct (insights w) as [[]|] eqn:Hconsent;
  destruct (configStore w !! alreadyRunKey) as [[]|] eqn:Hrun;
  destruct (isCI E) eqn:Hci; cbn;
  try destruct (askQuestion E _ _) eqn:Hanswer; cbn.

Lemma answers_app (a b : list Effect) :
  answers (a ++ b) = (answers a ++ answers b)%list.
Proof. apply omap_app. Qed.

(** After the gate the first-run marker is set.  The gate itself calls
    [configStore.set] for that marker only, with [true], and only when the
    marker it read was not true.  It asks at most the opt-in question; when
    it asks, it calls [appInsights.enable] on a yes and [appInsights.disable]
    on a no, once, and the recorded consent is that answer; when it does not
    ask, it calls neither and the consent is untouched. *)
Theorem gate_marks_run_and_records_answer (userConfig : UserConfig) (w : World) :
  let w' := (sendTelemetryIfEnabled E userConfig w).2 in
  configStore w' !! alreadyRunKey = Some true
  /\ storeWrites (since w w')
     = (if default false (configStore w !! alreadyRunKey) then []
        else [(alreadyRunKey, true)])
  /\ (answers (since w w') = [] /\ consentCalls (since w w') = []
      /\ insights w' = insights w
      \/ exists a, answers (since w w') = [(OptInQuestion, a)]
                   /\ consentCalls (since w w') = [a]
                   /\ insights w' = Some a).
Proof.
  gate_cases w.
  all: split; [by rewrite ?lookup_insert_eq|].
  all: since_simpl.
  all: split; [reflexivity|].
  all: try (left; split; [reflexivity|split; [reflexivity|done]]).
  all: right; eexists; split; [reflexivity|split; [reflexivity|done]].
Qed.

(** What the gate sends: nothing unless consent is recorded as given when
    it ends; then the run summary, preceded by the opt-in event exactly
    when consent was not recorded before this run.  The consent recorded
    when the gate ends is the one recorded before, if any; without one, it
    stays unrecorded under CI and on a first run, and is otherwise the
    user's answer to the opt-in question.  So under CI without recorded
    consent nothing is sent, and neither is on a first run. *)
Theorem gate_sends_only_with_consent (userConfig : UserConfig) (w : World) :
  let w' := (sendTelemetryIfEnabled E userConfig w).2 in
  tracked (since w w')
  = (if bool_decide (insights w' = Some true) then
       ((if bool_decide (insights w = None) then [("cli-telemetry", NoProperties)] else [])
        ++ [("cli-analyze",
             AnalyzeSummary (isCI E) (configStore w !! alreadyRunKey)
                            (pruneUserConfig E userConfig))])%list
     else [])
  /\ insights w'
     = match insights w with
       | Some consent => Some consent
       | None =>
           if isCI E then None
           else if default false (configStore w !! alreadyRunKey)
                then Some (optInAnswer E (trace w))
                else None
       end
  /\ (insights w = None ->
      isCI E = true \/ default false (configStore w !! alreadyRunKey) = false ->
      tracked (since w w') = [] /\ insights w' = None).
Proof.
  unfold optInAnswer. gate_cases w.
  all: since_simpl.
  all: try (rewrite <- app_assoc in Hanswer; cbn in Hanswer).
  all: rewrite ?Hrun, ?Hanswer; cbn.
  all: split; [reflexivity|].
  all: split; [reflexivity|].
  all: intros Hnone Hcase; try discriminate Hnone.
  all: try (destruct Hcase as [Hcase|Hcase]; discriminate Hcase).
  all: split; reflexivity.
Qed.

Lemma gateRuns_extends (configs : list UserConfig) :
  forall w, exists d, trace (gateRuns E configs w) = (trace w ++ d)%list.
Proof.
  induction configs as [|c configs IH]; intros w; cbn [gateRuns].
  - exists []. by rewrite app_nil_r.
  - destruct (sendTelemetryIfEnabled_spec E c w) as (d & w' & Heq & Ht & _).
    rewrite Heq. cbn [snd]. destruct (IH w') as [d' Hd'].
    exists (d ++ d')%list. by rewrite Hd', Ht, app_assoc.
Qed.

Lemma gate_with_consent (userConfig : UserConfig) (w : World) (b : bool) :
  let w' := (sendTelemetryIfEnabled E userConfig w).2 in
  insights w = Some b -> insights w' = Some b /\ asked (since w w') = [].
Proof.
  gate_cases w; intros [= <-]; since_simpl; done.
Qed.

Lemma gate_question (userConfig : UserConfig) (w : World) :
  let w' := (sendTelemetryIfEnabled E userConfig w).2 in
  asked (since w w') = []
  \/ asked (since w w') = [OptInQuestion] /\ is_Some (insights w').
Proof.
  gate_cases w; since_simpl; auto.
Qed.

Lemma gateRuns_with_consent (configs : list UserConfig) (b : bool) :
  forall w, insights w = Some b ->
    insights (gateRuns E configs w) = Some b
    /\ asked (since w (gateRuns E configs w)) = [].
Proof.
  induction configs as [|c configs IH]; intros w Hb; cbn [gateRuns].
  - by rewrite since_refl.
  - destruct (gate_with_consent c w b Hb) as [Hb' Hnone].
    destruct (IH _ Hb') as [Hb'' Hnone'].
    split; [done|].
    destruct (sendTelemetryIfEnabled_spec E c w) as (d & w' & Heq & Ht & _).
    rewrite Heq in *. cbn [snd] in *.
    destruct (gateRuns_extends configs w') as [d' Hd'].
    rewrite (since_extends _ _ _ Ht) in Hnone.
    rewrite (since_extends _ _ _ Hd') in Hnone'.
    rewrite (since_extends w _ (d ++ d')%list) by (by rewrite Hd', Ht, app_assoc).
    by rewrite asked_app, Hnone, Hnone'.
Qed.

(** Over any number of runs on the same machine the opt-in question is
    asked at most once; once consent is recorded, given or refused, no run
    asks again and no run changes it. *)
Theorem opt_in_is_asked_at_most_once (configs : list UserConfig) (w : World) :
  (asked (since w (gateRuns E configs w)) = []
   \/ asked (since w (gateRuns E configs w)) = [OptInQuestion])
  /\ (forall b, insights w = Some b ->
        insights (gateRuns E configs w) = Some b
        /\ asked (since w (gateRuns E configs w)) = []).
Proof.
  split; [|intros b; apply gateRuns_with_consent].
  revert w. induction configs as [|c configs IH]; intros w; cbn [gateRuns].
  - left. by rewrite since_refl.
  - destruct (sendTelemetryIfEnabled_spec E c w) as (d & w' & Heq & Ht & _).
    destruct (gateRuns_extends configs w') as [d' Hd'].
    pose proof (gate_question c w) as Hq.
    rewrite Heq in *. cbn [snd] in *.
    rewrite (since_extends w _ (d ++ d')%list) by (by rewrite Hd', Ht, app_assoc).
    rewrite (since_extends _ _ _ Ht) in Hq. rewrite asked_app.
    destruct Hq as [Hq|[Hq [b Hb]]]; rewrite Hq.
    + specialize (IH w'). by rewrite (since_extends _ _ _ Hd') in IH.
    + destruct (gateRuns_with_consent configs b w' Hb) as [_ Hnone].
      rewrite (since_extends _ _ _ Hd') in Hnone. rewrite Hnone. by right.
Qed.

Lemma gate_no_spinner (userConfig : UserConfig) (w : World) :
  spinnerCalls (since w (sendTelemetryIfEnabled E userConfig w).2) = [].
Proof.
  gate_cases w; since_simpl; done.
Qed.

End GateProperties.

(** *** The whole run *)

Section WholeRun.

Variable E : Env.

Lemma resolutionEffect_quiet (d : list Effect) :
  Forall resolutionEffect d -> spinnerCalls d = [] /\ analysisStarted d = false.
Proof.
  induction 1 as [|e d He _ IH]; [done|].
  destruct e; cbn in *; done.
Qed.

Lemma bootstrapEffect_quiet (userConfig : UserConfig) (options : CreateAnalyzerOptions)
    (targets : list URL) (d : list Effect) :
  Forall (bootstrapEffect E userConfig options targets) d ->
  spinnerCalls d = [] /\ analysisStarted d = false.
Proof.
  induction 1 as [|e d He _ IH]; [done|].
  destruct e; cbn in *; done.
Qed.

Lemma analysisStarted_app (a b : list Effect) :
  analysisStarted (a ++ b) = analysisStarted a || analysisStarted b.
Proof. apply existsb_app. Qed.

(** The promise of [analyze] is rejected in two cases only, both before
    any analyzer is built: reading the configuration threw, or no
    configuration was found and the targets mix local and remote ones.  The
    run has then read the configuration, printed the default-configuration
    frame in the second case, and done nothing else. *)
Theorem analyze_rejects_iff (fuel : nat) (actions : CLIOptions) (w : World)
    (e : Exception) (w' : World) :
  analyze E fuel actions w = Some (Thrown e, w') <->
    getAsUris E (cli_targets actions) <> []
    /\ (getUserConfig E (cli_config actions) = inl e
        /\ w' = mkWorld (configStore w) (insights w)
                        (trace w ++ [EGetUserConfig (cli_config actions)])
        \/ getUserConfig E (cli_config actions) = inr None
           /\ areFiles (getAsUris E (cli_targets actions)) = false
           /\ anyFile (getAsUris E (cli_targets actions)) = true
           /\ e = OtherError mixedTargetsMessage
           /\ w' = mkWorld (configStore w) (insights w)
                           (trace w ++ [EGetUserConfig (cli_config actions);
                                        EPrintFrame DefaultMessage])).
Proof.
  unfold analyze. set (targets := getAsUris E (cli_targets actions)).
  assert (forall userConfig w1,
            match getAnalyzer E fuel userConfig (actionsToOptions actions) targets w1 with
            | None => None
            | Some (Thrown _, w2) => Some (Returned false, w2)
            | Some (Returned webhint, w2) =>
                Some (runAnalysis E actions userConfig webhint targets w2)
            end <> Some (Thrown e, w')) as Hlate.
  { intros userConfig w1.
    destruct (getAnalyzer E fuel userConfig (actionsToOptions actions) targets w1)
      as [[[webhint|e'] w2]|]; try done.
    destruct (runAnalysis_spec E actions userConfig webhint targets w2)
      as (st & w3 & d & _ & _ & _ & _ & _ & _ & ->).
    by destruct (rejected (analyzer_run webhint targets)). }
  destruct (bool_decide (length targets = 0%nat)) eqn:Hempty.
  { apply bool_decide_eq_true in Hempty. apply nil_length_inv in Hempty.
    split; [done|]. by intros [Hne _]. }
  apply bool_decide_eq_false in Hempty.
  assert (targets <> []) as Hne by (by intros ->).
  revert Hlate.
  unfold loadUserConfig, getDefaultConfiguration, getLanguage, showDefaultMessage,
    printFrame, emit, bind, ret, throw.
  cbn.
  destruct (getUserConfig E (cli_config actions)) as [e0|[config|]]; cbn.
  3: destruct (areFiles targets) eqn:Hall; cbn.
  4: destruct (anyFile targets) eqn:Hany; cbn.
  all: repeat (match goal with |- context [truthy ?x] => destruct (truthy x); cbn end).
  all: intros Hlate.
  all: split; [intros H | intros [_ [(H & ->)|(H & H1 & H2 & -> & ->)]]].
  all: try discriminate H.
  all: try discriminate H1.
  all: try discriminate H2.
  all: try (by apply Hlate in H).
  all: try (injection H as <- <-).
  all: try (split; [done|]).
  all: try (left; split; reflexivity).
  all: try (right; rewrite <- ?app_assoc; done).
  all: try (injection H as <-; reflexivity).
  all: rewrite <- ?app_assoc; reflexivity.
Qed.

(** The spinner belongs to the analysis: a run in debug mode never touches
    it, and neither does, in any mode, a run that ends before the analyzer
    is called. *)
Theorem spinner_only_while_analyzing (fuel : nat) (actions : CLIOptions) (w : World)
    (r : Completion bool) (w' : World) :
  analyze E fuel actions w = Some (r, w') ->
  cli_debug actions = true \/ analysisStarted (since w w') = false ->
  spinnerCalls (since w w') = [].
Proof.
  unfold analyze. set (targets := getAsUris E (cli_targets actions)).
  destruct (bool_decide (length targets = 0%nat)).
  { intros [= _ <-] _. by rewrite since_refl. }
  destruct (loadUserConfig_effects E actions targets w) as (d1 & (Ht1 & _) & Hd1 & _).
  apply resolutionEffect_quiet in Hd1 as [Hs1 Ha1].
  destruct (loadUserConfig E actions targets w) as [[userConfig|e] w1]; cbn [snd] in Ht1.
  2: { intros [= _ <-] _. by rewrite (since_extends _ _ _ Ht1). }
  destruct (getAnalyzer E fuel userConfig (actionsToOptions actions) targets w1)
    as [[[webhint|e] w2]|] eqn:Hboot; [| |done].
  all: destruct (getAnalyzer_history E _ _ _ _ _ _ _ Hboot) as (d2 & (Ht2 & _) & _).
  all: pose proof (getAnalyzer_effects E _ _ _ _ _ _ _ Hboot) as Hd2.
  all: rewrite (since_extends _ _ _ Ht2) in Hd2.
  all: apply bootstrapEffect_quiet in Hd2 as [Hs2 Ha2].
  2: { intros [= _ <-] _.
       rewrite (since_extends w w2 (d1 ++ d2)%list) by (by rewrite Ht2, Ht1, app_assoc).
       by rewrite spinnerCalls_app, Hs1, Hs2. }
  destruct (runAnalysis_spec E actions userConfig webhint targets w2)
    as (st & w3 & d3 & (Ht3 & _) & _ & _ & _ & Hs3 & _ & ->).
  assert (trace w3 = (trace w ++ d1 ++ d2 ++ EAnalyze targets :: d3)%list) as Ht
    by (by rewrite Ht3, Ht2, Ht1, <- !app_assoc).
  destruct (rejected (analyzer_run webhint targets)) as [e|].
  - intros [= _ <-] [Hdebug|Hnone].
    + rewrite Hdebug. rewrite (since_extends _ _ _ Ht).
      rewrite !spinnerCalls_app, Hs1, Hs2. cbn. by apply Hs3.
    + exfalso. revert Hnone. destruct (cli_debug actions).
      * rewrite (since_extends _ _ _ Ht), !analysisStarted_app. cbn.
        by rewrite !orb_true_r.
      * rewrite (since_extends w _ (d1 ++ d2 ++ EAnalyze targets :: d3 ++ [ESpinnerFail])%list).
        -- rewrite !analysisStarted_app. cbn. by rewrite !orb_true_r.
        -- cbn. rewrite Ht. by rewrite <- !app_assoc.
  - destruct (sendTelemetryIfEnabled_spec E userConfig w3) as (d4 & w4 & Heq4 & Ht4 & _).
    pose proof (gate_no_spinner E userConfig w3) as Hs4.
    rewrite Heq4 in *. cbn [snd] in *. rewrite (since_extends _ _ _ Ht4) in Hs4.
    assert (trace w4 = (trace w ++ d1 ++ d2 ++ EAnalyze targets :: d3 ++ d4)%list) as Ht'
      by (rewrite Ht4, Ht; by rewrite <- !app_assoc).
    intros [= _ <-]. rewrite (since_extends _ _ _ Ht').
    intros [Hdebug|Hnone].
    + rewrite !spinnerCalls_app, Hs1, Hs2. cbn. rewrite spinnerCalls_app, Hs4.
      by rewrite (Hs3 Hdebug).
    + exfalso. revert Hnone. rewrite !analysisStarted_app. cbn. by rewrite !orb_true_r.
Qed.

End WholeRun.

(** *** Command-line lists and the telemetry payload *)

Section Payload.

Variable E : Env.

Lemma split_cons (s : string) : exists h t, split comma s = h :: t.
Proof.
  destruct s as [|c rest]; cbn; [by eauto|].
  destruct (Ascii.eqb c comma); [by eauto|].
  destruct (split comma rest); by eauto.
Qed.

Lemma joinComma_cons (p q : string) (t : list string) :
  joinComma (p :: q :: t) = p +:+ String comma (joinComma (q :: t)).
Proof. reflexivity. Qed.

Lemma joinComma_split (s : string) : joinComma (split comma s) = s.
Proof.
  induction s as [|c rest IH]; [done|].
  cbn [split]. destruct (split_cons rest) as (h & t & Hrest).
  rewrite Hrest in *.
  destruct (Ascii.eqb c comma) eqn:Hc.
  - apply Ascii.eqb_eq in Hc as ->. by rewrite joinComma_cons, IH.
  - destruct t as [|q t].
    + cbn in *. by rewrite IH.
    + rewrite joinComma_cons in *. by rewrite <- IH.
Qed.

Lemma split_noComma (s : string) : Forall (fun p => noComma p = true) (split comma s).
Proof.
  induction s as [|c rest IH]; cbn [split].
  - by apply Forall_singleton.
  - destruct (Ascii.eqb c comma) eqn:Hc.
    + by apply Forall_cons_2.
    + destruct (split comma rest) as [|h t].
      * apply Forall_singleton. cbn. by rewrite Hc.
      * apply Forall_cons in IH as [Hh Ht]. apply Forall_cons_2; [|done].
        cbn. by rewrite Hc.
Qed.

Lemma split_part (p rest : string) :
  noComma p = true -> split comma (p +:+ String comma rest) = p :: split comma rest.
Proof.
  induction p as [|c p IH]; intros Hp.
  - change ("" +:+ String comma rest) with (String comma rest).
    cbn [split]. by rewrite Ascii.eqb_refl.
  - change (String c p +:+ String comma rest) with (String c (p +:+ String comma rest)).
    cbn [split noComma] in *. destruct (Ascii.eqb c comma); [done|].
    by rewrite (IH Hp).
Qed.

Lemma split_last (p : string) : noComma p = true -> split comma p = [p].
Proof.
  induction p as [|c p IH]; intros Hp; [done|].
  cbn [split noComma] in *. destruct (Ascii.eqb c comma); [done|].
  by rewrite (IH Hp).
Qed.

Lemma split_joinComma (parts : list string) :
  parts <> [] -> Forall (fun p => noComma p = true) parts ->
  split comma (joinComma parts) = parts.
Proof.
  intros Hne Hall. induction Hall as [|p parts Hp Hall IH]; [done|].
  destruct parts as [|q t]; [by apply split_last|].
  rewrite joinComma_cons, split_part by done. by rewrite IH.
Qed.

Lemma listOption_round_trip (flag : option string) (parts : list string) :
  split comma <$> truthy flag = Some parts <->
    flag = Some (joinComma parts) /\ joinComma parts <> ""
    /\ Forall (fun p => noComma p = true) parts.
Proof.
  split.
  - destruct flag as [[|c s]|]; [done| |done].
    change (Some (split comma (String c s)) = Some parts -> Some (String c s) = Some (joinComma parts) /\ joinComma parts <> "" /\ Forall (fun p => noComma p = true) parts).
    intros H. assert (parts = split comma (String c s)) as -> by congruence.
    rewrite joinComma_split. split; [done|]. split; [done|].
    apply split_noComma.
  - intros (-> & Hne & Hall).
    destruct (joinComma parts) as [|c s] eqn:Hj; [done|].
    change (Some (split comma (String c s)) = Some parts).
    rewrite <- Hj. f_equal. apply split_joinComma; [|done]. by intros ->.
Qed.

(** The formatter and hint lists given to analyzer construction are the
    command-line flags cut at their commas: a list is passed exactly when
    its flag is present and not empty, joining it with commas gives the flag
    back, and no name in it holds a comma.  An absent or empty flag passes
    no list (never an empty list). *)
Theorem option_lists_round_trip (actions : CLIOptions) :
  (forall parts,
     opt_formatters (actionsToOptions actions) = Some parts <->
       cli_formatters actions = Some (joinComma parts) /\ joinComma parts <> ""
       /\ Forall (fun p => noComma p = true) parts)
  /\ (forall parts,
     opt_hints (actionsToOptions actions) = Some parts <->
       cli_hints actions = Some (joinComma parts) /\ joinComma parts <> ""
       /\ Forall (fun p => noComma p = true) parts)
  /\ (opt_formatters (actionsToOptions actions) = None <->
        cli_formatters actions = None \/ cli_formatters actions = Some "")
  /\ (opt_hints (actionsToOptions actions) = None <->
        cli_hints actions = None \/ cli_hints actions = Some "").
Proof.
  split; [intros parts; apply listOption_round_trip|].
  split; [intros parts; apply listOption_round_trip|].
  cbn. split.
  - destruct (cli_formatters actions) as [[|c s]|]; cbn; split; try done; auto.
    by intros [|].
  - destruct (cli_hints actions) as [[|c s]|]; cbn; split; try done; auto.
    by intros [|].
Qed.

(** A connector given as an object whose name is empty is sent to telemetry
    as it is, options included; this is the only case in which the payload
    holds a connector object.  With consent given, the run summary then
    carries that object. *)
Theorem nameless_connector_is_sent_whole (userConfig : UserConfig) (o : ConnectorConfig) :
  (p_connector (pruneUserConfig E userConfig) = Some (ConnectorObject o) <->
     connector userConfig = Some (ConnectorObject o) /\ connector_name o = "")
  /\ (forall w,
        insights w = Some true ->
        connector userConfig = Some (ConnectorObject o) -> connector_name o = "" ->
        exists ci run pruned,
          tracked (since w (sendTelemetryIfEnabled E userConfig w).2)
            = [("cli-analyze", AnalyzeSummary ci run pruned)]
          /\ p_connector pruned = Some (ConnectorObject o)).
Proof.
  assert (p_connector (pruneUserConfig E userConfig) = Some (ConnectorObject o) <->
          connector userConfig = Some (ConnectorObject o) /\ connector_name o = "") as Hiff.
  { cbn. destruct (connector userConfig) as [[[|c s]|[[|c s] opts]]|]; cbn.
    all: split; [intros H | intros [H Hname]]; try done.
    - injection H as <-. done.
    - injection H as <-. done. }
  split; [exact Hiff|].
  intros w Hconsent Hc Hn.
  exists (isCI E), (configStore w !! alreadyRunKey), (pruneUserConfig E userConfig).
  split; [|by apply Hiff].
  unfold sendTelemetryIfEnabled, appInsights_isConfigured, appInsights_isEnabled,
    configStore_get, configStore_set, trackEvent, when, emit, bind, ret.
  cbn -[pruneUserConfig]. rewrite Hconsent. cbn -[pruneUserConfig].
  destruct (configStore w !! alreadyRunKey) as [[]|]; cbn -[pruneUserConfig].
  all: unfold since; cbn -[pruneUserConfig]; rewrite <- ?app_assoc, ?drop_app_length; done.
Qed.

End Payload.

(** ** Properties of the extension's telemetry *)

Section ExtensionProperties.

Import Extension.

Context {S : Type} `{StorageLaws S}.

Variable version : string.
Variables Config Results : Type.
Variable determineHintStatus : Config -> Results -> gmap string string.

Lemma keys_differ : storageKey <> alreadyOptInKey.
Proof. done. Qed.

Lemma disable_state (s : S) (c : Client) :
  enabled (disable s c).1 = false
  /\ showOptIn (disable s c).1 = false
  /\ appInsights (disable s c).2 = false.
Proof.
  unfold disable, enabled, showOptIn, setup.
  cbn [fst snd]. by rewrite !getItem_setItem.
Qed.

(** [enable] and [disable] read back: after [enable] telemetry is enabled
    and the handle is set, after [disable] telemetry is not enabled and the
    handle is [null]; after either the user has answered, so the opt-in is
    not to be shown again.  This holds whatever the storage held before. *)
Theorem extension_enable_disable_round_trip (s : S) (c : Client) :
  (enabled (enable version s c).1 = true
   /\ showOptIn (enable version s c).1 = false
   /\ appInsights (enable version s c).2 = true)
  /\ (enabled (disable s c).1 = false
      /\ showOptIn (disable s c).1 = false
      /\ appInsights (disable s c).2 = false).
Proof.
  split; [|apply disable_state].
  unfold enable, enabled, showOptIn, setup, trackEvent.
  rewrite !getItem_setItem. cbn.
  destruct (jsTruthy (getItem (setItem s storageKey (JBool true)) alreadyOptInKey)); cbn.
  - by rewrite !getItem_setItem.
  - rewrite !getItem_setItem_other by done. by rewrite !getItem_setItem.
Qed.

(** One call: what it does to the opt-in marker and to the opt-in events. *)
Lemma call_opt_in (k : Call Config Results) (s : S) (c : Client) :
  jsTruthy (getItem (call version determineHintStatus k (s, c)).1 alreadyOptInKey)
    = jsTruthy (getItem s alreadyOptInKey) || isEnable k
  /\ length (optIns (sent (call version determineHintStatus k (s, c)).2))
     = (length (optIns (sent c))
        + (if isEnable k && negb (jsTruthy (getItem s alreadyOptInKey)) then 1 else 0))%nat.
Proof.
  destruct k; cbn [call isEnable fst snd];
    unfold enable, disable, setup, trackCancel, trackError, trackFinish, trackShow,
      trackStart, trackTimeout, trackEvent.
  - rewrite orb_false_r, Nat.add_0_r. split; [done|]. by destruct (negb _).
  - rewrite getItem_setItem, (getItem_setItem_other s storageKey alreadyOptInKey) by done.
    cbn. destruct (jsTruthy (getItem s alreadyOptInKey)) eqn:Hmark; cbn.
    + rewrite getItem_setItem_other, Hmark by done. split; [done|]. by rewrite Nat.add_0_r.
    + rewrite getItem_setItem. cbn. split; [done|].
      unfold optIns. rewrite List.filter_app, length_app. done.
  - cbn [fst snd]. rewrite getItem_setItem, getItem_setItem_other by done. cbn.
    by rewrite orb_false_r, Nat.add_0_r.
  - rewrite orb_false_r, Nat.add_0_r. split; [done|]. destruct (negb (appInsights c)); [done|].
    cbn. unfold optIns. rewrite List.filter_app, length_app. cbn. lia.
  - rewrite orb_false_r, Nat.add_0_r. split; [done|]. destruct (negb (appInsights c)); [done|].
    cbn. unfold optIns. rewrite List.filter_app, length_app. cbn. lia.
  - rewrite orb_false_r, Nat.add_0_r. split; [done|]. destruct (negb (appInsights c)); [done|].
    cbn. unfold optIns. rewrite List.filter_app, length_app. cbn. lia.
  - rewrite orb_false_r, Nat.add_0_r. split; [done|]. destruct (negb (appInsights c)); [done|].
    cbn. unfold optIns. rewrite List.filter_app, length_app. cbn. lia.
  - rewrite orb_false_r, Nat.add_0_r. split; [done|]. destruct (negb (appInsights c)); [done|].
    cbn. unfold optIns. rewrite List.filter_app, length_app. cbn. lia.
  - rewrite orb_false_r, Nat.add_0_r. split; [done|]. destruct (negb (appInsights c)); [done|].
    cbn. unfold optIns. rewrite List.filter_app, length_app. cbn. lia.
Qed.

Lemma calls_cons (k : Call Config Results) (ks : list (Call Config Results)) (sc : S * Client) :
  calls version determineHintStatus (k :: ks) sc
  = calls version determineHintStatus ks (call version determineHintStatus k sc).
Proof. reflexivity. Qed.

(** Over any session the opt-in event [f12-telemetry] is sent at most once:
    once when the session holds an [enable] and the storage did not hold the
    opt-in marker before, never otherwise, however often telemetry is
    enabled and disabled. *)
Theorem extension_opt_in_event_once
    (ks : list (Call Config Results)) (s : S) (c : Client) :
  length (optIns (sent (calls version determineHintStatus ks (s, c)).2))
  = (length (optIns (sent c))
     + (if jsTruthy (getItem s alreadyOptInKey) then 0
        else if existsb isEnable ks then 1 else 0))%nat.
Proof.
  revert s c. induction ks as [|k ks IH]; intros s c.
  - cbn. destruct (jsTruthy _); lia.
  - rewrite calls_cons.
    destruct (call_opt_in k s c) as [Hmark Hlen].
    destruct (call version determineHintStatus k (s, c)) as [s' c'] eqn:Hcall.
    cbn [fst snd] in *. rewrite IH, Hmark, Hlen. cbn [existsb].
    destruct (jsTruthy (getItem s alreadyOptInKey)), (isEnable k), (existsb isEnable ks);
      cbn; lia.
Qed.

(** One call that is not [enable], on a client that is off with telemetry
    off: both stay off and nothing is sent. *)
Lemma call_while_disabled (k : Call Config Results) (s : S) (c : Client) :
  isEnable k = false -> enabled s = false -> appInsights c = false ->
  enabled (call version determineHintStatus k (s, c)).1 = false
  /\ appInsights (call version determineHintStatus k (s, c)).2 = false
  /\ sent (call version determineHintStatus k (s, c)).2 = sent c.
Proof.
  intros Hk Hs Hc. unfold enabled in *.
  destruct k; try discriminate Hk; cbn [call fst snd];
    unfold disable, setup, trackCancel, trackError, trackFinish, trackShow,
      trackStart, trackTimeout, trackEvent; cbn [fst snd].
  - rewrite Hs. done.
  - rewrite !getItem_setItem. done.
  - rewrite Hc. done.
  - rewrite Hc. done.
  - rewrite Hc. done.
  - rewrite Hc. done.
  - rewrite Hc. done.
  - rewrite Hc. done.
Qed.

(** One call keeps the handle in step with the storage. *)
Lemma call_in_step (k : Call Config Results) (s : S) (c : Client) :
  appInsights c = enabled s ->
  appInsights (call version determineHintStatus k (s, c)).2
  = enabled (call version determineHintStatus k (s, c)).1.
Proof.
  intros Hstep. unfold enabled in *.
  destruct k; cbn [call fst snd];
    unfold enable, disable, setup, trackCancel, trackError, trackFinish, trackShow,
      trackStart, trackTimeout, trackEvent; cbn [fst snd].
  - by destruct (jsTruthy (getItem s storageKey)).
  - rewrite getItem_setItem. cbn.
    destruct (jsTruthy (getItem (setItem s storageKey (JBool true)) alreadyOptInKey));
      cbn [fst snd negb appInsights].
    + by rewrite getItem_setItem.
    + rewrite getItem_setItem_other by done. by rewrite getItem_setItem.
  - by rewrite !getItem_setItem.
  - destruct (appInsights c) eqn:Hc; cbn; by rewrite ?Hc.
  - destruct (appInsights c) eqn:Hc; cbn; by rewrite ?Hc.
  - destruct (appInsights c) eqn:Hc; cbn; by rewrite ?Hc.
  - destruct (appInsights c) eqn:Hc; cbn; by rewrite ?Hc.
  - destruct (appInsights c) eqn:Hc; cbn; by rewrite ?Hc.
  - destruct (appInsights c) eqn:Hc; cbn; by rewrite ?Hc.
Qed.

(** The handle follows the storage: if it is set exactly when telemetry is
    enabled, it stays so over any session.  After [disable], a session
    without [enable] sends nothing and leaves telemetry disabled. *)
Theorem extension_silent_while_disabled
    (ks : list (Call Config Results)) (s : S) (c : Client) :
  (appInsights c = enabled s ->
   appInsights (calls version determineHintStatus ks (s, c)).2
   = enabled (calls version determineHintStatus ks (s, c)).1)
  /\ (existsb isEnable ks = false ->
      sent (calls version determineHintStatus ks (disable s c)).2 = sent c
      /\ enabled (calls version determineHintStatus ks (disable s c)).1 = false).
Proof.
  split.
  - revert s c. induction ks as [|k ks IH]; intros s c Hstep; [done|].
    rewrite calls_cons.
    pose proof (call_in_step k s c Hstep) as Hnext.
    destruct (call version determineHintStatus k (s, c)) as [s' c']. by apply IH.
  - intros Hks.
    assert (forall ks s c, existsb isEnable ks = false ->
              enabled s = false -> appInsights c = false ->
              sent (calls version determineHintStatus ks (s, c)).2 = sent c
              /\ enabled (calls version determineHintStatus ks (s, c)).1 = false) as Hoff.
    { clear Hks s c. intros ks'. induction ks' as [|k ks' IH]; intros s c Hks Hs Hc; [done|].
      cbn [existsb] in Hks. apply orb_false_elim in Hks as [Hk Hks].
      rewrite calls_cons.
      destruct (call_while_disabled k s c Hk Hs Hc) as (Hs' & Hc' & Hsent).
      destruct (call version determineHintStatus k (s, c)) as [s' c'].
      cbn [fst snd] in *. rewrite <- Hsent. by apply IH. }
    destruct (disable_state s c) as (Hs & _ & Hc).
    destruct (disable s c) as [s' c'] eqn:Hdis. cbn [fst snd] in *.
    destruct (Hoff ks s' c' Hks Hs Hc) as [Hsent Hen]. split; [|done].
    rewrite Hsent. unfold disable, setup in Hdis.
    rewrite getItem_setItem in Hdis. cbn in Hdis. by injection Hdis as _ <-.
Qed.

Lemma trackEvent_wellFormed (name : string) (properties : option (gmap string string))
    (measurements : option (gmap string Z)) (c : Client) :
  (name = "f12-error" -> exists message, default ∅ properties = {[ "message" := message ]}) ->
  Forall (wellFormed version) (sent c) ->
  Forall (wellFormed version) (sent (trackEvent version name properties measurements c)).
Proof.
  intros Hname Hall. unfold trackEvent. destruct (appInsights c); cbn; [|done].
  apply Forall_app. split; [done|]. apply Forall_singleton.
  split; [split; [apply lookup_insert_eq|done]|].
  cbn. intros Herr. destruct (Hname Herr) as [message ->]. by exists message.
Qed.

(** Every item handed to the client carries the version of the extension,
    the base type [EventData] and the envelope name of the instrumentation
    key, and the properties of an error item are a message and the version
    and nothing else.  The message is that of the error: with the handle
    set, [trackError] adds one item, whose properties are the message of the
    error and the version; with the handle [null] it adds nothing. *)
Theorem extension_items_are_stamped
    (ks : list (Call Config Results)) (s : S) (c : Client) :
  (Forall (wellFormed version) (sent c) ->
   Forall (wellFormed version) (sent (calls version determineHintStatus ks (s, c)).2))
  /\ (forall error,
        sent (trackError version error c)
        = if appInsights c then (sent c ++ [errorItem version error])%list else sent c).
Proof.
  split; [|intros error; unfold trackError, trackEvent, errorItem; by destruct (appInsights c)].
  revert s c. induction ks as [|k ks IH]; intros s c Hall; [done|].
  rewrite calls_cons.
  assert (Forall (wellFormed version) (sent (call version determineHintStatus k (s, c)).2)) as Hnext.
  { destruct k; cbn [call fst snd];
      unfold enable, disable, setup, trackCancel, trackError, trackFinish, trackShow,
        trackStart, trackTimeout.
    1: by destruct (negb _).
    1: { destruct (negb (jsTruthy (getItem _ alreadyOptInKey))); cbn [snd].
         - apply trackEvent_wellFormed; [done|]. by destruct (negb _).
         - by destruct (negb _). }
    1: by destruct (negb _).
    all: apply trackEvent_wellFormed; try done.
    intros _. by eexists. }
  destruct (call version determineHintStatus k (s, c)) as [s' c']. by apply IH.
Qed.

(** The stack of an error has no influence on a session: storage, handle,
    console and everything sent are the same without it. *)
Theorem extension_error_stack_is_dropped
    (ks : list (Call Config Results)) (s : S) (c : Client) :
  calls version determineHintStatus (map withoutStack ks) (s, c)
  = calls version determineHintStatus ks (s, c).
Proof.
  generalize (s, c). clear s c.
  induction ks as [|k ks IH]; intros sc; [done|].
  cbn [map]. rewrite !calls_cons, IH. by destruct k, sc.
Qed.

End ExtensionProperties.

(** ** The properties on sample runs *)

(** *** Exit status *)

(** C1, counterexample: a run without targets returns false although no
    target produced a finding and nothing was thrown; so does a run whose
    analyzer could not be built, before any target is analysed. *)
Lemma analyze_fails_without_finding_cex :
  analyze (readyEnv false (mkRun [] None)) 0 noActions emptyWorld
    = Some (Returned false, emptyWorld)
  /\ analyze invalidHintEnv 1 (actionsFor ["https://example.com/"] false) emptyWorld
    = Some (Returned false,
            mkWorld ∅ None
              [EGetUserConfig None;
               ECreateAnalyzer (withLanguage webRecommended "en-US") noOptions;
               ELogError (InvalidHintsLine ["no-such-hint"])]).
Proof. split; reflexivity. Qed.

(** A run with one finding of severity [error] among warnings returns
    false, and the cause the characterisation names is the finding. *)
Lemma analyze_fails_iff_witness :
  analyze (readyEnv false oneErrorRun) 1 (actionsFor ["https://example.com/"] false) emptyWorld
    = Some (Returned false,
            finalWorld (analyze (readyEnv false oneErrorRun) 1
                          (actionsFor ["https://example.com/"] false) emptyWorld))
  /\ exists userConfig w1 webhint w2,
       loadUserConfig (readyEnv false oneErrorRun) (actionsFor ["https://example.com/"] false)
         (sampleUris ["https://example.com/"]) emptyWorld = (Returned userConfig, w1)
       /\ getAnalyzer (readyEnv false oneErrorRun) 1 userConfig noOptions
            (sampleUris ["https://example.com/"]) w1 = Some (Returned webhint, w2)
       /\ ((exists url problems t p,
              TargetEnd url problems t ∈ events (analyzer_run webhint (sampleUris ["https://example.com/"]))
              /\ p ∈ problems /\ severity p = Severity.error)
           \/ is_Some (rejected (analyzer_run webhint (sampleUris ["https://example.com/"])))).
Proof.
  assert (analyze (readyEnv false oneErrorRun) 1 (actionsFor ["https://example.com/"] false) emptyWorld
    = Some (Returned false,
            finalWorld (analyze (readyEnv false oneErrorRun) 1
                          (actionsFor ["https://example.com/"] false) emptyWorld))) as Hrun
    by reflexivity.
  split; [exact Hrun|].
  destruct (proj1 (proj2 (proj2 (proj2 (proj2 (analyze_fails_iff _ _ _ _)))) _ _ Hrun) eq_refl)
    as [Hnone|[Hboot|Hend]].
  - discriminate Hnone.
  - destruct Hboot as (c & x1 & e & x2 & Hl & Hb).
    injection Hl as <- <-. discriminate Hb.
  - exact Hend.
Defined.

(** *** Bootstrap *)

(** When construction fails with a configuration error every time and the
    user keeps accepting the default, the bootstrap uses up any fuel. *)
Lemma hopeless_bootstrap_diverges (fuel : nat) :
  forall (userConfig : UserConfig) (w : World),
    getAnalyzer hopelessEnv fuel userConfig noOptions [webUrl] w = None.
Proof.
  induction fuel as [|fuel IH]; intros userConfig w; [reflexivity|].
  cbn [getAnalyzer]. cbn. apply IH.
Qed.

(** C2, counterexample.  When construction fails twice with a configuration
    error and the user accepts both times, the retry that follows the first
    recovery asks the same question again, and the bootstrap takes three
    attempts; when construction fails every time, no amount of fuel lets
    the bootstrap end. *)
Lemma bootstrap_reprompts_cex :
  (exists w',
     getAnalyzer (stubbornEnv 2) 3 webRecommended noOptions [webUrl] emptyWorld
       = Some (Returned (analyzerOf (mkRun [] None)), w')
     /\ asked (trace w') = [DefaultConfigurationQuestion; DefaultConfigurationQuestion]
     /\ length (attempts (trace w')) = 3%nat)
  /\ (forall fuel,
        getAnalyzer hopelessEnv fuel webRecommended noOptions [webUrl] emptyWorld = None).
Proof.
  split.
  - eexists. split; [reflexivity|]. split; reflexivity.
  - intros fuel. apply hopeless_bootstrap_diverges.
Qed.

(** A resource error recovered by an installation: one recovered attempt
    and the one that succeeds, two attempts in all, and one attempt is not
    enough.  A user who refuses the default configuration: the first attempt
    is the last. *)
Lemma bootstrap_one_retry_per_recovery_witness :
  (exists r w'',
     (forall more,
        getAnalyzer missingPackageEnv (2 + more) webRecommended noOptions [webUrl] emptyWorld
        = Some (r, w''))
     /\ getAnalyzer missingPackageEnv 1 webRecommended noOptions [webUrl] emptyWorld = None
     /\ length (attempts (since emptyWorld w'')) = 2%nat
     /\ (1 <= length (asked (since emptyWorld w'')) <= 2)%nat)
  /\ (exists r w'',
       (forall more,
          getAnalyzer refusingEnv (1 + more) webRecommended noOptions [webUrl] emptyWorld
          = Some (r, w''))
       /\ getAnalyzer refusingEnv 0 webRecommended noOptions [webUrl] emptyWorld = None
       /\ length (attempts (since emptyWorld w'')) = 1%nat
       /\ (0 <= length (asked (since emptyWorld w'')) <= 1)%nat).
Proof.
  split.
  - eapply (proj1 (proj2 (bootstrap_one_retry_per_recovery missingPackageEnv noOptions
                            [webUrl])) 1%nat webRecommended emptyWorld); reflexivity.
  - eapply (proj1 (proj2 (bootstrap_one_retry_per_recovery refusingEnv noOptions
                            [webUrl])) 0%nat webRecommended emptyWorld); reflexivity.
Defined.


(** *** Configuration resolver *)

(** C4, counterexample: with a configuration file in place, a local and a
    remote target resolve to that configuration, and no usage error is
    raised. *)
Lemma mixed_targets_with_config_cex :
  areFiles mixedTargets = false
  /\ anyFile mixedTargets = true
  /\ loadUserConfig (readyEnv false (mkRun [] None)) noActions mixedTargets emptyWorld
     = (Returned (withLanguage webRecommended "en-US"),
        mkWorld ∅ None [EGetUserConfig None]).
Proof. repeat split. Qed.

(** Without a configuration file the same targets are refused. *)
Lemma mixed_targets_rejected_witness :
  getDefaultConfiguration noConfigEnv mixedTargets emptyWorld =
    (Thrown (OtherError mixedTargetsMessage),
     mkWorld ∅ None ([] ++ [EPrintFrame DefaultMessage]))
  /\ loadUserConfig noConfigEnv noActions mixedTargets emptyWorld =
    (Thrown (OtherError mixedTargetsMessage),
     mkWorld ∅ None ([] ++ [EGetUserConfig None; EPrintFrame DefaultMessage])).
Proof.
  apply (proj1 (mixed_targets_rejected_before_default noConfigEnv noActions mixedTargets
                  emptyWorld) fileUrl webUrl).
  - apply list_elem_of_here.
  - apply list_elem_of_further, list_elem_of_here.
  - reflexivity.
  - discriminate.
  - reflexivity.
Defined.

(** *** Telemetry *)



(** The first run of a user who was never asked: the marker is set and
    nothing is asked. *)
Lemma first_run_never_prompts_witness :
  configStore (sendTelemetryIfEnabled (readyEnv false (mkRun [] None))
                 webRecommended emptyWorld).2 !! alreadyRunKey = Some true
  /\ asked (since emptyWorld
              (sendTelemetryIfEnabled (readyEnv false (mkRun [] None))
                 webRecommended emptyWorld).2) = [].
Proof.
  apply (proj1 (first_run_never_prompts (readyEnv false (mkRun [] None))
                  webRecommended emptyWorld)).
  reflexivity.
Defined.

(** *** Reporter *)

(** Targets [a] and [b] started in this order and ended in the other. *)
Lemma reporter_own_start_witness :
  reports (since emptyWorld
             (deliver (readyEnv false (mkRun [] None)) noActions webRecommended
                (analyzerOf (mkRun [] None))
                [TargetStart "a" 100; TargetStart "b" 250;
                 TargetEnd "b" [] 300; TargetEnd "a" [] 1000]
                (mkReporter ∅ 0) emptyWorld).2)
  = [("b", 300 - 250, 250); ("a", 1000 - 100, 100)].
Proof.
  apply (proj2 (reporter_times_each_target_by_its_own_start
                  (readyEnv false (mkRun [] None)) noActions webRecommended
                  (analyzerOf (mkRun [] None)) emptyWorld)).
  discriminate.
Defined.

(** C8, counterexample: in debug mode a rejected analysis ends the run with
    false and without a single call to the spinner. *)
Lemma rejected_debug_run_leaves_spinner_cex :
  runAnalysis (readyEnv false rejectedRun) (actionsFor ["https://example.com/"] true)
    webRecommended (analyzerOf rejectedRun) [webUrl] emptyWorld
  = (Returned false, mkWorld ∅ None [EAnalyze [webUrl]]).
Proof. reflexivity. Qed.

(** *** Early exits *)

(** No target: nothing happens, even for a user who opted in. *)
Lemma zero_targets_no_effects_witness :
  analyze (readyEnv false oneErrorRun) 0 noActions optedInWorld
  = Some (Returned false, optedInWorld).
Proof.
  apply (zero_targets_no_effects (readyEnv false oneErrorRun) 0 noActions optedInWorld).
  reflexivity.
Defined.

(** A bootstrap that fails on an invalid hint leaves the store alone. *)
Lemma early_exit_keeps_store_witness :
  exists (out : Completion bool) (w' : World),
    analyze invalidHintEnv 1 (actionsFor ["https://example.com/"] false) emptyWorld
      = Some (out, w')
    /\ storeAccesses (since emptyWorld w') = []
    /\ configStore w' = configStore emptyWorld
    /\ insights w' = insights emptyWorld
    /\ configStore w' !! alreadyRunKey = configStore emptyWorld !! alreadyRunKey.
Proof.
  apply (proj1 (early_exit_keeps_store invalidHintEnv 1
                  (actionsFor ["https://example.com/"] false) emptyWorld)).
  eapply BootstrapFailed; reflexivity.
Defined.

(** *** More sample runs *)

(** The whole history of a recovered resource error: announcement, one
    question, the two installations, and the second attempt. *)
Example missing_package_bootstrap :
  getAnalyzer missingPackageEnv 2 webRecommended noOptions [webUrl] emptyWorld
  = Some (Returned (analyzerOf (mkRun [] None)),
          mkWorld ∅ None
            [ECreateAnalyzer webRecommended noOptions;
             ETrack "cli-missing" (PackageNames ["hint-axe"]);
             ETrack "cli-incompatible" (PackageNames ["connector-puppeteer"]);
             ELog (MissingPackagesLine ["hint-axe"]);
             ELog (IncompatiblePackagesLine ["connector-puppeteer"]);
             EAsk (InstallQuestion ["connector-puppeteer"; "hint-axe"]) true;
             EInstall ["@hint/hint-axe"] true;
             EInstall ["@hint/connector-puppeteer@latest"] true;
             ECreateAnalyzer webRecommended noOptions]).
Proof. reflexivity. Qed.

(** A first run with one error among warnings, not under CI: the spinner
    fails, the report is timed from the start of the target, the marker is
    set and nothing is asked or tracked. *)
Example first_run_with_error :
  analyze (readyEnv false oneErrorRun) 1 (actionsFor ["https://example.com/"] false) emptyWorld
  = Some (Returned false,
          mkWorld {[ alreadyRunKey := true ]} None
            [EGetUserConfig None;
             ECreateAnalyzer (withLanguage webRecommended "en-US") noOptions;
             EAnalyze [webUrl];
             ESpinnerStart;
             ESpinnerFail;
             EFormat (problems_of oneErrorRun)
               (mkFormat (withLanguage webRecommended "en-US") 100 None
                         (mkResources [] []) 60 "https://example.com/" "5.0.0");
             EStoreGet alreadyRunKey;
             EStoreSet alreadyRunKey true]).
Proof. reflexivity. Qed.

(** For any [n] there is an environment in which the bootstrap ends only
    after [n] recoveries. *)
Lemma stubborn_bootstrap_ends (n : nat) :
  is_Some (getAnalyzer (stubbornEnv n) (S n) webRecommended noOptions [webUrl] emptyWorld).
Proof.
  apply (getAnalyzer_terminates (stubbornEnv n) noOptions [webUrl] n); [|cbn; lia].
  intros h c Hn. cbn. rewrite bool_decide_eq_false_2 by lia. done.
Qed.

(** One local target: the development preset. *)
Lemma default_configuration_by_targets_witness :
  exists preset,
    getDefaultConfiguration noConfigEnv [fileUrl] emptyWorld =
      (Returned (mkConfig None None (Some [preset])
                          (if isCI noConfigEnv then Some ["html"; "stylish"] else None)
                          None None None None None),
       mkWorld ∅ None ([] ++ [EPrintFrame DefaultMessage]))
    /\ (preset = "development" <-> forall t, t ∈ [fileUrl] -> protocol t = "file:")
    /\ (preset = "development" \/ preset = "web-recommended").
Proof.
  apply (default_configuration_by_targets noConfigEnv [fileUrl] emptyWorld).
  left. intros t Hin. apply list_elem_of_singleton in Hin. by subst t.
Defined.

(** An invalid hint: one attempt, one log line, the error thrown. *)
Lemma fatal_errors_are_not_retried_witness :
  getAnalyzer invalidHintEnv 1 webRecommended noOptions [webUrl] emptyWorld =
    Some (Thrown (HintError ["no-such-hint"] "invalid hint"),
          mkWorld ∅ None
            ([] ++ [ECreateAnalyzer webRecommended noOptions;
                    ELogError (fatalLine (HintError ["no-such-hint"] "invalid hint"))])).
Proof.
  apply (fatal_errors_are_not_retried invalidHintEnv 0 webRecommended noOptions [webUrl]
           emptyWorld (HintError ["no-such-hint"] "invalid hint")); reflexivity.
Defined.

(** *** Further sample runs *)

(** A configuration error on the first attempt of [stubbornEnv 1]: the
    prompt is accepted and the next attempt uses the default configuration. *)
Lemma configuration_error_recovery_witness :
  getAnalyzer (stubbornEnv 1) 2 webRecommended noOptions [webUrl] emptyWorld =
    getAnalyzer (stubbornEnv 1) 1 (defaultFor (stubbornEnv 1) [webUrl]) noOptions [webUrl]
      (mkWorld ∅ None
         ([] ++ [ECreateAnalyzer webRecommended noOptions;
                 EAsk DefaultConfigurationQuestion true;
                 EPrintFrame DefaultMessage])).
Proof.
  exact (configuration_error_recovery (stubbornEnv 1) 1 webRecommended noOptions [webUrl]
           emptyWorld "invalid configuration" eq_refl).
Defined.

(** The same bootstrap, to its end. *)
Lemma bootstrap_effects_witness :
  Forall (bootstrapEffect (stubbornEnv 1) webRecommended noOptions [webUrl])
    [ECreateAnalyzer webRecommended noOptions;
     EAsk DefaultConfigurationQuestion true;
     EPrintFrame DefaultMessage;
     ECreateAnalyzer (defaultFor (stubbornEnv 1) [webUrl]) noOptions].
Proof.
  exact (bootstrap_effects (stubbornEnv 1) noOptions [webUrl] 2 webRecommended emptyWorld
           _ _ eq_refl).
Defined.

(** Three targets, the second with an error: succeed, fail, fail. *)
Lemma spinner_fails_from_first_error_on_witness :
  spinnerOutcomes
    (since emptyWorld
       (deliver (readyEnv false errorInTheMiddleRun) (actionsFor ["https://a.example/"] false)
          webRecommended (analyzerOf errorInTheMiddleRun)
          (events errorInTheMiddleRun) (mkReporter ∅ 0) emptyWorld).2)
  = [succeed; fail; fail].
Proof.
  exact (proj2 (spinner_fails_from_first_error_on (readyEnv false errorInTheMiddleRun)
                  (actionsFor ["https://a.example/"] false) webRecommended
                  (analyzerOf errorInTheMiddleRun) emptyWorld eq_refl)
           [TargetStart "https://a.example/" 100;
            TargetEnd "https://a.example/" [mkProblem Severity.warning "no lang"] 150;
            TargetStart "https://b.example/" 160;
            Update "fetching"]
           "https://b.example/" [mkProblem Severity.error "no doctype"] 220
           [TargetStart "https://c.example/" 230;
            TargetEnd "https://c.example/" [] 290]
           eq_refl eq_refl).
Defined.

(** A debug run with an error finding, telemetry gate included. *)
Lemma spinner_only_while_analyzing_witness :
  spinnerCalls
    (since emptyWorld
       (finalWorld (analyze (readyEnv false oneErrorRun) 1
                      (actionsFor ["https://example.com/"] true) emptyWorld)))
  = [].
Proof.
  apply (spinner_only_while_analyzing (readyEnv false oneErrorRun) 1
           (actionsFor ["https://example.com/"] true) emptyWorld (Returned false));
    [reflexivity | left; reflexivity].
Defined.

(** On an empty storage. *)
Lemma extension_enable_disable_round_trip_witness :
  (Extension.enabled (Extension.enable "1.2.0" (∅ : gmap string Json) freshClient).1 = true
   /\ Extension.showOptIn (Extension.enable "1.2.0" (∅ : gmap string Json) freshClient).1 = false
   /\ Extension.appInsights (Extension.enable "1.2.0" (∅ : gmap string Json) freshClient).2 = true)
  /\ (Extension.enabled (Extension.disable (∅ : gmap string Json) freshClient).1 = false
      /\ Extension.showOptIn (Extension.disable (∅ : gmap string Json) freshClient).1 = false
      /\ Extension.appInsights (Extension.disable (∅ : gmap string Json) freshClient).2 = false).
Proof.
  exact (@extension_enable_disable_round_trip (gmap string Json) _ _ "1.2.0" ∅ freshClient).
Defined.

(** Two opt-ins in one session: one opt-in event. *)
Lemma extension_opt_in_event_once_witness :
  length (Extension.optIns
            (Extension.sent
               (Extension.calls "1.2.0" sampleStatus sampleSession
                  ((∅ : gmap string Json), freshClient)).2)) = 1%nat.
Proof.
  exact (@extension_opt_in_event_once (gmap string Json) _ _ "1.2.0" unit unit sampleStatus
           sampleSession ∅ freshClient).
Defined.

(** After [disable], a session without [enable]. *)
Lemma extension_silent_while_disabled_witness :
  Extension.sent
    (Extension.calls "1.2.0" sampleStatus quietSession
       (Extension.disable (∅ : gmap string Json) freshClient)).2 = []
  /\ Extension.enabled
       (Extension.calls "1.2.0" sampleStatus quietSession
          (Extension.disable (∅ : gmap string Json) freshClient)).1 = false.
Proof.
  exact (proj2 (@extension_silent_while_disabled (gmap string Json) _ _ "1.2.0" unit unit
                  sampleStatus quietSession ∅ freshClient) eq_refl).
Defined.

(** The items of the sample session. *)
Lemma extension_items_are_stamped_witness :
  Forall (Extension.wellFormed "1.2.0")
    (Extension.sent
       (Extension.calls "1.2.0" sampleStatus sampleSession
          ((∅ : gmap string Json), freshClient)).2).
Proof.
  exact (proj1 (@extension_items_are_stamped (gmap string Json) _ "1.2.0" unit unit
                  sampleStatus sampleSession ∅ freshClient) (Forall_nil_2 _)).
Defined.

(** The reports of the three targets. *)
Lemma every_end_event_is_formatted_once_witness :
  map (fun ro => (f_target ro.2, ro.1))
      (formatted
         (since emptyWorld
            (deliver (readyEnv false errorInTheMiddleRun)
               (actionsFor ["https://a.example/"] false) webRecommended
               (analyzerOf errorInTheMiddleRun)
               (events errorInTheMiddleRun) (mkReporter ∅ 0) emptyWorld).2))
  = [("https://a.example/", [mkProblem Severity.warning "no lang"]);
     ("https://b.example/", [mkProblem Severity.error "no doctype"]);
     ("https://c.example/", [])].
Proof.
  exact (proj1 (every_end_event_is_formatted_once (readyEnv false errorInTheMiddleRun)
                  (actionsFor ["https://a.example/"] false) webRecommended
                  (analyzerOf errorInTheMiddleRun)
                  (events errorInTheMiddleRun) (mkReporter ∅ 0) emptyWorld)).
Defined.

(** A later run of a user who agrees: the answer is recorded. *)
Lemma gate_marks_run_and_records_answer_witness :
  insights (sendTelemetryIfEnabled agreeingEnv webRecommended laterRunWorld).2 = Some true
  /\ configStore (sendTelemetryIfEnabled agreeingEnv webRecommended laterRunWorld).2
       !! alreadyRunKey = Some true.
Proof.
  destruct (gate_marks_run_and_records_answer agreeingEnv webRecommended laterRunWorld)
    as (Hrun & _ & [[Hnone _]|[a (Hanswer & _ & Hconsent)]]).
  - discriminate Hnone.
  - split; [|exact Hrun]. injection Hanswer as <-. exact Hconsent.
Defined.

(** The same run: the opt-in event, then the summary. *)
Lemma gate_sends_only_with_consent_witness :
  tracked (since laterRunWorld (sendTelemetryIfEnabled agreeingEnv webRecommended laterRunWorld).2)
  = [("cli-telemetry", NoProperties);
     ("cli-analyze",
      AnalyzeSummary false (Some true) (pruneUserConfig agreeingEnv webRecommended))].
Proof.
  exact (proj1 (gate_sends_only_with_consent agreeingEnv webRecommended laterRunWorld)).
Defined.

(** Three runs in a row: one question. *)
Lemma opt_in_is_asked_at_most_once_witness :
  asked (since laterRunWorld
           (gateRuns agreeingEnv [webRecommended; plainConfig; webRecommended] laterRunWorld))
  = [OptInQuestion]
  /\ insights (gateRuns agreeingEnv [webRecommended; plainConfig; webRecommended] laterRunWorld)
     = Some true.
Proof.
  destruct (opt_in_is_asked_at_most_once agreeingEnv
              [webRecommended; plainConfig; webRecommended] laterRunWorld)
    as [[Hnone|Hone] _].
  - discriminate Hnone.
  - split; [exact Hone|reflexivity].
Defined.

(** No configuration and mixed targets: the promise is rejected. *)
Lemma analyze_rejects_iff_witness :
  analyze noConfigEnv 0 (actionsFor ["/site/index.html"; "https://example.com/"] false)
          emptyWorld
  = Some (Thrown (OtherError mixedTargetsMessage),
          mkWorld ∅ None ([] ++ [EGetUserConfig None; EPrintFrame DefaultMessage])).
Proof.
  apply (proj2 (analyze_rejects_iff noConfigEnv 0
                  (actionsFor ["/site/index.html"; "https://example.com/"] false)
                  emptyWorld (OtherError mixedTargetsMessage) _)).
  split; [discriminate|]. right. repeat split; reflexivity.
Defined.

(** An empty name between two commas is kept. *)
Lemma option_lists_round_trip_witness :
  opt_formatters (actionsToOptions (mkCLI [] None false (Some "html,,json") None None None None))
  = Some ["html"; ""; "json"].
Proof.
  apply (proj1 (option_lists_round_trip
                  (mkCLI [] None false (Some "html,,json") None None None None))).
  split; [reflexivity|]. split; [discriminate|].
  repeat (apply Forall_cons_2; [reflexivity|]). apply Forall_nil_2.
Defined.

(** The options of a nameless connector reach the payload. *)
Lemma nameless_connector_is_sent_whole_witness :
  p_connector (pruneUserConfig agreeingEnv namelessConnectorConfig)
  = Some (ConnectorObject namelessConnector).
Proof.
  apply (proj1 (nameless_connector_is_sent_whole agreeingEnv namelessConnectorConfig
                  namelessConnector)).
  split; reflexivity.
Defined.

(** The sample session with and without the stack of its error. *)
Lemma extension_error_stack_is_dropped_witness :
  Extension.calls "1.2.0" sampleStatus (map Extension.withoutStack sampleSession)
    ((∅ : gmap string Json), freshClient)
  = Extension.calls "1.2.0" sampleStatus sampleSession ((∅ : gmap string Json), freshClient).
Proof.
  exact (@extension_error_stack_is_dropped (gmap string Json) _ "1.2.0" unit unit sampleStatus
           sampleSession ∅ freshClient).
Defined.
